(** * A shallow embedding of [eodms_api_client/eodms.py]

    The [EodmsAPI] client: the search pager ([_submit_search]), the metadata
    enricher ([_fetch_metadata], [_fetch_single_record_metadata]), the order
    submitter ([order]) and the download orchestrator ([_extract_download_metadata],
    [_download_items], [download]).

    Conventions of the model:
    - Python exceptions are the [Raise] branch of [res];
    - the network is an explicit oracle (a function from the request to the reply
      the server gives), and every issued request is recorded in a trace;
    - the local file system is a [gmap] from paths to byte sizes;
    - strings are ASCII strings ([String.string]). *)

From Stdlib Require Import ZArith Lia Ascii String List Sorting.Sorted.
From stdpp Require Import base list strings gmap pretty.
Import ListNotations.
Open Scope string_scope.
Open Scope list_scope.

(* ------------------------------------------------------------------------- *)
(** ** Python values, exceptions and results *)

Inductive exn :=
  | ValueError
  | TypeError
  | KeyError
  | IndexError
  | JSONDecodeError
  | ConnectionError
  | Timeout
  | InvalidURL
  | AttributeError
  | RecursionError
  | NotImplementedError
  | HTTPError
  | FileNotFoundError
  | UnboundLocalError
  | OSError
  | SystemExit.

#[global] Instance exn_eq_dec : EqDecision exn.
Proof. solve_decision. Defined.

Inductive res (A : Type) :=
  | Ok (a : A)
  | Raise (e : exn).
Arguments Ok {A} a.
Arguments Raise {A} e.

Definition res_bind {A B} (m : res A) (k : A -> res B) : res B :=
  match m with Ok a => k a | Raise e => Raise e end.

#[global] Instance res_ret : MRet res := fun _ a => Ok a.
#[global] Instance res_mbind : MBind res := fun _ _ k m => res_bind m k.

Definition is_ok {A} (r : res A) : bool :=
  match r with Ok _ => true | Raise _ => false end.

#[local] Set Warnings "-register-all".

(** Python values as they reach [order] and [download] as arguments. *)
Inductive PyVal :=
  | PyNone
  | PyInt (z : Z)
  | PyStr (s : string)
  | PyList (xs : list PyVal)
  | PyTuple (xs : list PyVal).

(** Log records: the level and the format string of the message. *)
Inductive level := DEBUG | INFO | WARNING | ERROR.
Definition log := list (level * string).

(* ------------------------------------------------------------------------- *)
(** ** String helpers (ASCII semantics of the [str] methods used) *)

Definition ascii_lower (c : ascii) : ascii :=
  let n := nat_of_ascii c in
  if (65 <=? n)%nat && (n <=? 90)%nat then ascii_of_nat (n + 32) else c.

Definition ascii_upper (c : ascii) : ascii :=
  let n := nat_of_ascii c in
  if (97 <=? n)%nat && (n <=? 122)%nat then ascii_of_nat (n - 32) else c.

Fixpoint str_lower (s : string) : string :=
  match s with
  | EmptyString => EmptyString
  | String c r => String (ascii_lower c) (str_lower r)
  end.

(** [str.capitalize]: first character upper-cased, the rest lower-cased. *)
Definition capitalize (s : string) : string :=
  match s with
  | EmptyString => EmptyString
  | String c r => String (ascii_upper c) (str_lower r)
  end.

(** [str.split(sep)] for a non-empty separator; [ValueError] on an empty one. *)
Fixpoint split_go (fuel : nat) (sep s cur : string) : list string :=
  match fuel with
  | O => [cur +:+ s]
  | S fuel' =>
      match s with
      | EmptyString => [cur]
      | String c r =>
          if String.prefix sep s
          then cur :: split_go fuel' sep (substring (String.length sep) (String.length s) s) ""
          else split_go fuel' sep r (cur +:+ String c EmptyString)
      end
  end.

Definition py_split (sep s : string) : res (list string) :=
  if String.eqb sep "" then Raise ValueError
  else Ok (split_go (S (String.length s)) sep s "").

(** Python's [xs[0]] and [xs[-1]] on a list of strings. *)
Definition py_first (xs : list string) : res string :=
  match xs with [] => Raise IndexError | x :: _ => Ok x end.
Definition py_last (xs : list string) : res string :=
  match last xs with None => Raise IndexError | Some x => Ok x end.

(** [os.path.basename]: the part after the last ['/']. *)
Definition basename (p : string) : string :=
  default "" (last (split_go (S (String.length p)) "/" p "")).

Fixpoint drop_while (p : ascii -> bool) (l : list ascii) : list ascii :=
  match l with [] => [] | c :: r => if p c then drop_while p r else l end.

(** [os.path.dirname]: [p[:p.rfind('/') + 1]], with its trailing ['/']s
    stripped unless it is made of ['/']s only. *)
Definition dirname (p : string) : string :=
  let is_sep (c : ascii) := Ascii.eqb c "/" in
  let rhead := drop_while (fun c => negb (is_sep c)) (rev (list_ascii_of_string p)) in
  if forallb is_sep rhead then string_of_list_ascii (rev rhead)
  else string_of_list_ascii (rev (drop_while is_sep rhead)).

(** [os.path.join(d, b)] for a relative [b]. *)
Definition path_join (d b : string) : string :=
  if String.eqb d "" then b
  else if String.eqb (substring (String.length d - 1) 1 d) "/" then d +:+ b else d +:+ "/" +:+ b.

(** [sub in s] *)
Definition str_contains (sub s : string) : bool :=
  match String.index 0 sub s with Some _ => true | None => false end.

(** [str(v)] / [repr(v)] for the values an order can carry as record ids. *)
Fixpoint py_repr (v : PyVal) : string :=
  match v with
  | PyNone => "None"
  | PyInt z => pretty z
  | PyStr s => "'" +:+ s +:+ "'"
  | PyList xs => "[" +:+ String.concat ", " (map py_repr xs) +:+ "]"
  | PyTuple [x] => "(" +:+ py_repr x +:+ ",)"
  | PyTuple xs => "(" +:+ String.concat ", " (map py_repr xs) +:+ ")"
  end.

Definition py_str (v : PyVal) : string :=
  match v with PyStr s => s | _ => py_repr v end.

(** [isinstance(v, (list, tuple))] together with the elements. *)
Definition py_seq (v : PyVal) : option (list PyVal) :=
  match v with PyList xs | PyTuple xs => Some xs | _ => None end.

(** [if not isinstance(v, (list, tuple)): v = [v]] *)
Definition wrap_scalar (v : PyVal) : list PyVal :=
  match py_seq v with Some xs => xs | None => [v] end.

(* ------------------------------------------------------------------------- *)
(** ** Order submitter: [EodmsAPI.order] *)

Definition EODMS_DEFAULT_MAXRESULTS : nat := 1000.
Definition EODMS_SUBMIT_HARDLIMIT : nat := 50.

Definition PRIORITIES : list string := ["Low"; "Medium"; "High"; "Urgent"].

(** One element of the ['items'] list of the POST body. *)
Record order_item := mk_order_item {
  oi_collectionId : string;
  oi_recordId : string;
  oi_priority : string;
  oi_NOTIFICATION_EMAIL_ADDRESS : string;
  oi_packagingFormat : string
}.

(** What [self._session.post(EODMS_REST_ORDER, data=data)] answers: a non-2xx
    status, a 2xx whose body is not JSON, or a 2xx JSON body whose ['items']
    carry the (already [int]-converted) ['orderId']s. *)
Inductive post_reply :=
  | PostNotOk (status_code : Z)
  | PostOkNotJson
  | PostOkJson (orderIds : list Z).

Definition post_ids (r : post_reply) : list Z :=
  match r with PostOkJson ids => ids | _ => [] end.

Definition post_ok (r : post_reply) : bool :=
  match r with PostNotOk _ => false | _ => true end.

(** Observable outcome of a call: the value returned (Python [None] is [None]),
    the POST bodies sent in order, and the log records. *)
Record order_out := mk_order_out {
  o_result : res (option (list Z));
  o_posts : list (list order_item);
  o_log : log
}.

Section Order.
(** [list(set(xs))]: CPython's iteration order of a set is left abstract. *)
Variable set_list : list Z -> list Z.
(** [self.collection] and [self._session.auth.username] *)
Variable collection username : string.
(** The order endpoint: the reply to the [k]-th POST of the call, given its items. *)
Variable srv : nat -> list order_item -> post_reply.

Definition chunk_items (priority : string) (subset : list PyVal) : list order_item :=
  map (fun record_id => mk_order_item collection (py_str record_id)
                          (capitalize priority) username "ZIP") subset.

(** The [while idx < n_records] loop; [k] counts the POSTs issued so far.
    The loop body runs at most [n_records] times, so [fuel = S n_records]
    never runs out. *)
Fixpoint order_loop (fuel : nat) (priority : string) (record_ids : list PyVal)
    (idx k : nat) (order_ids : list Z) (posts : list (list order_item)) (lg : log)
    : order_out :=
  match fuel with
  | O => mk_order_out (Raise RecursionError) posts lg
  | S fuel' =>
      if (idx <? length record_ids)%nat then
        let record_subset := take EODMS_SUBMIT_HARDLIMIT (drop idx record_ids) in
        let data := chunk_items priority record_subset in
        let posts' := posts ++ [data] in
        match srv k data with
        | PostOkJson ids =>
            order_loop fuel' priority record_ids (idx + EODMS_SUBMIT_HARDLIMIT) (S k)
              (order_ids ++ set_list ids) posts'
              (lg ++ [(DEBUG, "%s priority order accepted by EODMS for %d item%s")])
        | PostOkNotJson =>
            order_loop fuel' priority record_ids (idx + EODMS_SUBMIT_HARDLIMIT) (S k)
              order_ids posts'
              (lg ++ [(ERROR, "An unexpected response has been received from EODMS API");
                      (ERROR, "You will likely need to get your Order ID from the EODMS Web Interface")])
        | PostNotOk _ =>
            mk_order_out (Raise ConnectionError) posts'
              (lg ++ [(ERROR, "Problem submitting order - HTTP-%s: %s")])
        end
      else mk_order_out (Ok (Some order_ids)) posts lg
  end.

Definition order (record_ids : PyVal) (priority : string) : order_out :=
  let record_ids := wrap_scalar record_ids in
  if negb (bool_decide (capitalize priority ∈ PRIORITIES))
  then mk_order_out (Raise ValueError) [] []
  else
    let n_records := length record_ids in
    if (n_records <? 1)%nat
    then mk_order_out (Ok None) [] [(WARNING, "No records passed to order submission")]
    else
      let lg := if (EODMS_SUBMIT_HARDLIMIT <? n_records)%nat
                then [(WARNING, "Number of requested images exceeds per-order limit (%d)");
                      (INFO, "Submitting %d orders to accomodate %d items")]
                else [(INFO, "Submitting order for %d item%s")] in
      order_loop (S n_records) priority record_ids 0 0 [] [] lg.
End Order.

(** A valid [list(set(xs))]: duplicates removed (first occurrences kept). *)
Definition py_set_list (xs : list Z) : list Z := remove_dups xs.

(** The contiguous slices [xs[i*c : i*c+c]] for [i < ceil(len(xs)/c)]. *)
Definition contiguous_slices (c : nat) (xs : list PyVal) : list (list PyVal) :=
  map (fun i => take c (drop (i * c) xs)) (seq 0 ((length xs + c - 1) / c)).

(** What one successful POST adds to [order_ids]: [list(set(ids))] for a JSON
    body, nothing when the body is not JSON. *)
Definition post_contrib (set_list : list Z -> list Z) (r : post_reply) : list Z :=
  match r with PostOkJson ids => set_list ids | _ => [] end.

(* ------------------------------------------------------------------------- *)
(** ** JSON values as [r.json()] returns them *)

Inductive json :=
  | JNull
  | JBool (b : bool)
  | JNum (z : Z)
  | JStr (s : string)
  | JArr (xs : list json)
  | JObj (kvs : list (string * json)).

(** [json.loads] keeps the last binding of a repeated key. *)
Fixpoint assoc_last (k : string) (kvs : list (string * json)) : option json :=
  match kvs with
  | [] => None
  | (k', v) :: r =>
      match assoc_last k r with
      | Some w => Some w
      | None => if String.eqb k k' then Some v else None
      end
  end.

(** [j[k]] for a string key [k]. *)
Definition py_getitem (j : json) (k : string) : res json :=
  match j with
  | JObj kvs => match assoc_last k kvs with Some v => Ok v | None => Raise KeyError end
  | _ => Raise TypeError
  end.

(** [j == n] for a Python [int] [n] ([True == 1] in Python). *)
Definition json_eq_int (j : json) (n : Z) : bool :=
  match j with
  | JNum z => Z.eqb z n
  | JBool b => Z.eqb (if b then 1 else 0) n
  | _ => false
  end.

(* ------------------------------------------------------------------------- *)
(** ** Search pager: [EodmsAPI._submit_search] *)

(** [self._search_url], by its parameters: [EODMS_REST_SEARCH.format(...)]
    with [collection], the URL-escaped [query] (so it holds no literal
    ['&maxResults=']) and the [maxResults] value that the regular expression
    [&maxResults=([\d*]+)] reads back and [str.replace] rewrites. *)
Record search_url := mk_search_url {
  su_collection : string;
  su_query : string;
  su_maxResults : nat
}.

Definition with_maxResults (u : search_url) (n : nat) : search_url :=
  mk_search_url (su_collection u) (su_query u) n.

(** The URL [query()] builds: the limit starts at [EODMS_DEFAULT_MAXRESULTS]. *)
Definition initial_search_url (collection query : string) : search_url :=
  mk_search_url collection query EODMS_DEFAULT_MAXRESULTS.

(** What [self._session.get(self._search_url)] gives: a [ConnectionError], a
    non-2xx reply, or a 2xx reply (whether its text holds the maintenance
    sentinel ['Thanks for your patience'], and its JSON body, [None] when
    [r.json()] fails). *)
Inductive search_reply :=
  | SConnectionError
  | SNotOk
  | SOk (down : bool) (body : option json).

(** The search endpoint: the reply to the [k]-th GET of the call. *)
Definition search_server := nat -> search_url -> search_reply.

(** [_submit_search] with its self-recursion bounded by [fuel] (Python's
    recursion limit: running out raises [RecursionError]).  Returns the
    [maxResults] of every GET issued, in order, and the outcome: [Ok None] is
    Python's implicit [None] for a non-2xx reply. *)
Fixpoint submit_search (fuel : nat) (srv : search_server) (k : nat) (u : search_url)
    : list nat * res (option json) :=
  match fuel with
  | O => ([], Raise RecursionError)
  | S fuel' =>
      let old_maxResults := su_maxResults u in
      match srv k u with
      | SConnectionError =>
          let '(t, r) := submit_search fuel' srv (S k) u in (old_maxResults :: t, r)
      | SNotOk => ([old_maxResults], Ok None)
      | SOk true _ => ([old_maxResults], Ok (Some (JObj [("results", JArr [])])))
      | SOk false None => ([old_maxResults], Raise JSONDecodeError)
      | SOk false (Some data) =>
          match py_getitem data "totalResults" with
          | Raise e => ([old_maxResults], Raise e)
          | Ok total =>
              if json_eq_int total (Z.of_nat old_maxResults) then
                let new_maxResults := old_maxResults + EODMS_DEFAULT_MAXRESULTS in
                let '(t, r) := submit_search fuel' srv (S k) (with_maxResults u new_maxResults) in
                (old_maxResults :: t, r)
              else ([old_maxResults], Ok (Some data))
          end
      end
  end.

Fixpoint res_mapM {A B} (f : A -> res B) (l : list A) : res (list B) :=
  match l with
  | [] => Ok []
  | x :: r => y ← f x; ys ← res_mapM f r; Ok (y :: ys)
  end.

Definition res_map {A B} (f : A -> B) (m : res A) : res B :=
  match m with Ok a => Ok (f a) | Raise e => Raise e end.

(* ------------------------------------------------------------------------- *)
(** ** Metadata enricher: [_fetch_single_record_metadata] and [_fetch_metadata] *)

(** Iterating a JSON value in Python: the items of a list, the one-character
    strings of a string, the keys of an object. *)
Definition py_iter (j : json) : res (list json) :=
  match j with
  | JArr xs => Ok xs
  | JStr s => Ok (map (fun c => JStr (String c EmptyString)) (list_ascii_of_string s))
  | JObj kvs => Ok (map (fun kv => JStr kv.1) kvs)
  | _ => Raise TypeError
  end.

(** [j[i]] for a non-negative [int] index [i]. *)
Definition py_index (j : json) (i : nat) : res json :=
  match j with
  | JArr xs => match xs !! i with Some x => Ok x | None => Raise IndexError end
  | JStr s => match String.get i s with
              | Some c => Ok (JStr (String c EmptyString))
              | None => Raise IndexError
              end
  | JObj _ => Raise KeyError
  | _ => Raise TypeError
  end.

Definition py_first_json (xs : list json) : res json :=
  match xs with [] => Raise IndexError | x :: _ => Ok x end.

(** [j == k] for a Python [str] [k]. *)
Definition json_eq_str (j : json) (k : string) : bool :=
  match j with JStr s => String.eqb s k | _ => false end.

(** [[elt(x) for x in xs if cond(x)]], evaluated left to right. *)
Fixpoint comprehension {B} (cond : json -> res bool) (elt : json -> res B) (xs : list json)
    : res (list B) :=
  match xs with
  | [] => Ok []
  | x :: r =>
      c ← cond x;
      if (c : bool) then (y ← elt x; ys ← comprehension cond elt r; Ok (y :: ys))
      else comprehension cond elt r
  end.

Definition first_is (k : string) (f : json) : res bool :=
  f0 ← py_index f 0; Ok (json_eq_str f0 k).

(** A metadata record: a [dict] from field names, in insertion order. *)
Definition metadata := list (string * json).

(** [d[k] = v] *)
Fixpoint dict_set (k : string) (v : json) (d : metadata) : metadata :=
  match d with
  | [] => [(k, v)]
  | (k', v') :: r => if String.eqb k k' then (k, v) :: r else (k', v') :: dict_set k v r
  end.

(** [try: response[k] except KeyError: [f[1] for f in response['metadata'] if f[0] == k][0]] *)
Definition lookup_field (response : json) (k : string) : res json :=
  match py_getitem response k with
  | Ok v => Ok v
  | Raise KeyError =>
      m ← py_getitem response "metadata";
      fs ← py_iter m;
      vs ← comprehension (first_is k) (fun f => py_index f 1) fs;
      py_first_json vs
  | Raise e => Raise e
  end.

(** The [for k in keys] loop. *)
Fixpoint set_fields (response : json) (keys : list string) (md : metadata) : res metadata :=
  match keys with
  | [] => Ok md
  | k :: ks => v ← lookup_field response k; set_fields response ks (dict_set k v md)
  end.

(** [[item[1].split('/')[-1] for item in response['metadata'] if item[0] == 'Metadata Full Name'][0]] *)
Definition rcm_uuid (response : json) : res json :=
  m ← py_getitem response "metadata";
  items ← py_iter m;
  vs ← comprehension (first_is "Metadata Full Name")
         (fun item => v ← py_index item 1;
                      match v with
                      | JStr s => parts ← py_split "/" s; p ← py_last parts; Ok (JStr p)
                      | _ => Raise AttributeError
                      end) items;
  py_first_json vs.

(** What [self._session.get(url, params={'format': 'json'}, timeout=timeout)]
    gives: an exception (timeout, connection error, ...), a non-2xx reply, or a
    2xx reply with its JSON body ([None] when [r.json()] fails). *)
Inductive detail_reply :=
  | DRaise (e : exn)
  | DNotOk
  | DOk (body : option json).

Section Enricher.
(** [self.collection] *)
Variable collection : string.
(** [geo.transform_metadata_geometry], an out-of-scope collaborator. *)
Variable transform_metadata_geometry : json -> option string -> res json.
(** The detail endpoint: the reply for a metadata URL. *)
Variable srv : string -> detail_reply.

Definition fetch_single_record_metadata (url : json) (keys : list string)
    (target_crs : option string) : res metadata :=
  match url with
  | JStr u =>
      match srv u with
      | DRaise e => Raise e
      | DNotOk => Ok []
      | DOk None => Raise JSONDecodeError
      | DOk (Some response) =>
          md ← set_fields response keys [];
          md ← (if String.eqb collection "RCMImageProducts"
                then (uuid ← rcm_uuid response; Ok (dict_set "uuid" uuid md))
                else Ok md);
          thumb ← py_getitem response "thumbnailUrl";
          let md := dict_set "thumbnailUrl" thumb md in
          g ← py_getitem response "geometry";
          g' ← transform_metadata_geometry g target_crs;
          Ok (dict_set "geometry" g' md)
      end
  | _ => Raise InvalidURL
  end.
End Enricher.

(** [ThreadPoolExecutor.map]: task [i] computes [f urls[i]]; the tasks
    complete in the order [sched] and each result is stored in the slot of
    its submission index. *)
Fixpoint pool_run {A} (f : json -> res A) (urls : list json) (sched : list nat)
    (slots : gmap nat (res A)) : gmap nat (res A) :=
  match sched with
  | [] => slots
  | i :: r =>
      pool_run f urls r (match urls !! i with Some u => <[i := f u]> slots | None => slots end)
  end.

(** [list(executor.map(...))] reads the slots in submission order; the first
    exception met propagates.  [None]: a slot whose task never completes, on
    which the iterator would wait forever. *)
Fixpoint pool_collect {A} (slots : gmap nat (res A)) (idxs : list nat) : option (res (list A)) :=
  match idxs with
  | [] => Some (Ok [])
  | i :: r =>
      match slots !! i with
      | None => None
      | Some (Raise e) => Some (Raise e)
      | Some (Ok a) =>
          match pool_collect slots r with
          | Some (Ok xs) => Some (Ok (a :: xs))
          | other => other
          end
      end
  end.

(** What [_fetch_metadata] hands to [metadata_to_gdf]: the dict of empty
    columns for zero hits, or the list of per-hit metadata records. *)
Inductive enriched :=
  | Columns (keys : list string)
  | Rows (records : list metadata).

(** [[record['thisRecordUrl'] for record in query_response['results']]] *)
Definition meta_urls_of (query_response : json) : res (list json) :=
  rs ← py_getitem query_response "results";
  records ← py_iter rs;
  res_mapM (fun record => py_getitem record "thisRecordUrl") records.

Definition fetch_metadata (collection : string)
    (transform_metadata_geometry : json -> option string -> res json)
    (srv : string -> detail_reply) (query_response : json) (metadata_fields : list string)
    (target_crs : option string) (sched : list nat) : option (res enriched) :=
  match (rs ← py_getitem query_response "results"; py_iter rs) with
  | Raise e => Some (Raise e)
  | Ok [] =>
      Some (Ok (Columns (map fst (dict_set "geometry" JNull
                  (foldl (fun d k => dict_set k JNull d) [] metadata_fields)))))
  | Ok _ =>
      match meta_urls_of query_response with
      | Raise e => Some (Raise e)
      | Ok meta_urls =>
          let slots := pool_run (fun u => fetch_single_record_metadata collection
                                   transform_metadata_geometry srv u metadata_fields target_crs)
                                meta_urls sched ∅ in
          option_map (res_map Rows) (pool_collect slots (seq 0 (length meta_urls)))
      end
  end.

(* ------------------------------------------------------------------------- *)
(** ** Download orchestrator: [_extract_download_metadata], [_download_items], [download] *)

(** An item of the order-status reply: ['orderId'], ['itemId'], ['status'],
    [destinations[0]['stringValue']] and the ['manifest'] dict (distinct keys,
    in dict order, with their [int] sizes). *)
Record status_item := mk_status_item {
  it_orderId : Z;
  it_itemId : Z;
  it_status : string;
  it_stringValue : string;
  it_manifest : list (string * N)
}.

#[global] Instance status_item_eq_dec : EqDecision status_item.
Proof. solve_decision. Defined.

(** [EODMSHTMLFilter]: the concatenated character data outside the tags.
    This follows [HTMLParser] on markup whose text holds no character
    reference: [convert_charrefs] decoding (as [html.unescape]) is not
    modelled, and neither is text [feed] keeps buffered for lack of a
    [close()].  The properties of [_extract_download_metadata] below are
    stated for [extract_download_metadata_of_text], whatever the text. *)
Fixpoint html_text_go (in_tag : bool) (s : string) : string :=
  match s with
  | EmptyString => EmptyString
  | String c r =>
      if in_tag then html_text_go (negb (Ascii.eqb c ">")) r
      else if Ascii.eqb c "<" then html_text_go true r
      else String c (html_text_go false r)
  end.

Definition html_text (s : string) : string := html_text_go false s.

(** [_extract_download_metadata] from [url = parser.text] on, for the
    manifest [item['manifest']] (its keys in dict order, with their sizes). *)
Definition extract_download_metadata_of_text (url : string) (manifest : list (string * N))
    : res (string * N) :=
  parts ← py_split "&file=" url;
  url ← py_first parts;
  '(manifest_key, fsize) ← (match last manifest with
                            | Some kv => Ok kv
                            | None => Raise IndexError
                            end);
  key_parts ← py_split "/" manifest_key;
  manifest_hash ← py_first key_parts;
  split_url ← py_split manifest_hash url;
  url_tail ← py_last split_url;
  url_head ← py_first split_url;
  let url := if String.eqb (manifest_hash +:+ url_tail) manifest_key then url
             else url_head +:+ manifest_key in
  Ok (url, fsize).

Definition extract_download_metadata (item : status_item) : res (string * N) :=
  extract_download_metadata_of_text (html_text (it_stringValue item)) (it_manifest item).

(** The streamed GET of a product: its content-type, its content-length
    header ([None] when absent) and the number of bytes it streams. *)
Record file_reply := mk_file_reply {
  fr_content_type : string;
  fr_content_length : option N;
  fr_body_size : N
}.

(** The replies to the status GET for one order id: non-2xx, or 2xx with
    the maintenance sentinel in its text or not, and its ['items'] ([None]
    when the body is not JSON). *)
Inductive status_reply :=
  | StNotOk
  | StOk (down : bool) (items : option (list status_item)).

Inductive dl_request :=
  | GetStatus (orderId : Z)
  | GetFile (url : string).

(** The effects of a download: the local files (path to byte size), the GETs
    issued, the log. *)
Record dl_state := mk_dl_state {
  st_fs : gmap string N;
  st_reqs : list dl_request;
  st_log : log
}.

Definition st_log_add (lg : list (level * string)) (st : dl_state) : dl_state :=
  mk_dl_state (st_fs st) (st_reqs st) (st_log st ++ lg).

Section Download.
(** The order endpoint (status by order id) and the product server. *)
Variable status_srv : Z -> status_reply.
Variable file_srv : string -> file_reply.

(** One iteration of the [for remote, expected_size, local in zip(...)] loop. *)
Definition download_item (remote_item : string * N) (local : string) (st : dl_state)
    : res unit * dl_state :=
  let '(remote, expected_size) := remote_item in
  let fetch (st : dl_state) : res unit * dl_state :=
    let stream := file_srv remote in
    let st := mk_dl_state (st_fs st) (st_reqs st ++ [GetFile remote]) (st_log st) in
    if negb (String.eqb (fr_content_type stream) "application/zip") then
      (Ok tt, st_log_add [(ERROR, "Remote file %s does not appear to be a zipfile anymore")] st)
    else
      (* [open(local, 'wb')] creates the file before the header is read *)
      match fr_content_length stream with
      | None => (Raise KeyError, mk_dl_state (<[local := 0%N]> (st_fs st)) (st_reqs st) (st_log st))
      | Some _ => (Ok tt, mk_dl_state (<[local := fr_body_size stream]> (st_fs st))
                                        (st_reqs st) (st_log st))
      end in
  match st_fs st !! local with
  | Some size =>
      if N.eqb size expected_size
      then (Ok tt, st_log_add [(DEBUG, "Local file exists: %s")] st)
      else fetch (mk_dl_state (delete local (st_fs st)) (st_reqs st)
                    (st_log st ++ [(WARNING, "Filesize mismatch with %s. Re-downloading...")]))
  | None => fetch st
  end.

(** [_download_items]: returns [local_items] unchanged, so only the effects
    and a possible exception are kept. *)
Fixpoint download_items (remote_items : list (string * N)) (local_items : list string)
    (st : dl_state) : res unit * dl_state :=
  match remote_items, local_items with
  | ri :: rs, l :: ls =>
      match download_item ri l st with
      | (Ok _, st') => download_items rs ls st'
      | (Raise e, st') => (Raise e, st')
      end
  | _, _ => (Ok tt, st)
  end.

(** ['%d' % orderId] *)
Definition py_int (v : PyVal) : res Z :=
  match v with PyInt z => Ok z | _ => Raise TypeError end.

(** [item['orderId'] in order_ids] *)
Definition order_id_in (z : Z) (order_ids : list PyVal) : bool :=
  existsb (fun v => match v with PyInt z' => Z.eqb z z' | _ => false end) order_ids.

(** The status-polling loop; [None] is the early [return] on the
    maintenance sentinel. *)
Fixpoint poll_status (order_ids : list PyVal) (todo : list Z) (acc : list status_item)
    (st : dl_state) : res (option (list status_item)) * dl_state :=
  match todo with
  | [] => (Ok (Some acc), st)
  | z :: rest =>
      let st := mk_dl_state (st_fs st) (st_reqs st ++ [GetStatus z]) (st_log st) in
      match status_srv z with
      | StNotOk =>
          poll_status order_ids rest acc
            (st_log_add [(ERROR, "Problem getting item statuses - HTTP-%s: %s")] st)
      | StOk true _ =>
          (Ok None, st_log_add [(ERROR, "EODMS API appears to be down. Try again later.")] st)
      | StOk false None => (Raise JSONDecodeError, st)
      | StOk false (Some items) =>
          let items := filter (fun item => order_id_in (it_orderId item) order_ids &&
                                           negb (bool_decide (item ∈ acc))) items in
          poll_status order_ids rest (acc ++ items) st
      end
  end.

(** [download]; [Ok None] is Python's [None]. *)
Definition download (order_ids : PyVal) (output_location : string) (st : dl_state)
    : res (option (list string)) * dl_state :=
  let local_files : list string := [] in
  let order_ids := wrap_scalar order_ids in
  let n_orders := length order_ids in
  if (n_orders <? 1)%nat then
    (Ok (Some local_files), st_log_add [(WARNING, "No order_ids provided - no action taken")] st)
  else
    let st := st_log_add [(INFO, "Checking status%s of %d order%s")] st in
    match res_mapM py_int order_ids with
    | Raise e => (Raise e, st)
    | Ok status_updates =>
        match poll_status order_ids status_updates [] st with
        | (Raise e, st) => (Raise e, st)
        | (Ok None, st) => (Ok None, st)
        | (Ok (Some items), st) =>
            match res_mapM extract_download_metadata
                    (filter (fun item => String.eqb (it_status item) "AVAILABLE_FOR_DOWNLOAD") items) with
            | Raise e => (Raise e, st)
            | Ok available_remote_files =>
                let to_download := map (fun f => path_join output_location (basename f.1))
                                       available_remote_files in
                let st := st_log_add [(INFO, "%d/%d items ready for download")] st in
                let already_have := filter (fun f => bool_decide (is_Some (st_fs st !! f))) to_download in
                let st := st_log_add [(INFO, "%d/%d items exist locally")] st in
                if (length already_have <? length available_remote_files)%nat then
                  let st := st_log_add [(INFO, "Downloading %d remote item%s")] st in
                  match download_items available_remote_files to_download st with
                  | (Raise e, st) => (Raise e, st)
                  | (Ok _, st) =>
                      (Ok (Some (filter (fun f => bool_decide (is_Some (st_fs st !! f))) to_download)),
                       st_log_add [(INFO, "%d/%d items exist locally after latest download")] st)
                  end
                else (Ok None, st_log_add [(INFO, "No further action taken")] st)
            end
        end
    end.
End Download.

(* ------------------------------------------------------------------------- *)
(** ** Collections and their parameters: the [collection] setter of
    [EodmsAPI], [params.available_query_args] and [params.generate_meta_keys] *)

Definition EODMS_COLLECTIONS : list string :=
  ["Radarsat1"; "Radarsat2"; "RCMImageProducts"; "NAPL"; "PlanetScope"].

Fixpoint str_upper (s : string) : string :=
  match s with
  | EmptyString => EmptyString
  | String c r => String (ascii_upper c) (str_upper r)
  end.

(** The [type] entry of a query parameter description. *)
Inductive pytype := PyTypeStr | PyTypeFloat | PyTypeInt.

(** [dict.update]: an existing key keeps its place and takes the new value,
    a new key is appended. *)
Fixpoint adict_set {V} (k : string) (v : V) (d : list (string * V)) : list (string * V) :=
  match d with
  | [] => [(k, v)]
  | (k', v') :: r => if String.eqb k k' then (k, v) :: r else (k', v') :: adict_set k v r
  end.

Definition adict_update {V} (d new : list (string * V)) : list (string * V) :=
  foldl (fun d kv => adict_set kv.1 kv.2 d) d new.

(** [available_query_args]: each parameter with its [type] (the
    ['description'] texts, which nothing in the package reads, are left out). *)
Definition available_query_args (collection : string) : res (list (string * pytype)) :=
  let params := [("start", PyTypeStr); ("end", PyTypeStr); ("geometry", PyTypeStr);
                 ("product_type", PyTypeStr)] in
  if String.eqb collection "RCMImageProducts" then
    Ok (adict_update params
      [("beam_mode", PyTypeStr); ("mnemonic", PyTypeStr); ("product_format", PyTypeStr);
       ("look_direction", PyTypeStr); ("polarization", PyTypeStr);
       ("incidence_angle", PyTypeFloat); ("incidence_angle_low", PyTypeFloat);
       ("incidence_angle_high", PyTypeFloat); ("orbit_direction", PyTypeStr);
       ("absolute_orbit", PyTypeInt); ("relative_orbit", PyTypeInt);
       ("downlink_segment", PyTypeStr)])
  else if String.eqb collection "Radarsat2" then
    Ok (adict_update params
      [("beam_mode", PyTypeStr); ("mnemonic", PyTypeStr); ("product_format", PyTypeStr);
       ("incidence_angle", PyTypeFloat); ("incidence_angle_low", PyTypeFloat);
       ("incidence_angle_high", PyTypeFloat); ("orbit_direction", PyTypeStr);
       ("absolute_orbit", PyTypeInt); ("relative_orbit", PyTypeInt)])
  else if String.eqb collection "Radarsat1" then
    Ok (adict_update params
      [("mnemonic", PyTypeStr); ("look_direction", PyTypeStr);
       ("incidence_angle", PyTypeFloat); ("incidence_angle_low", PyTypeFloat);
       ("incidence_angle_high", PyTypeFloat); ("orbit_direction", PyTypeStr);
       ("absolute_orbit", PyTypeInt)])
  else if String.eqb collection "PlanetScope" then
    Ok (adict_update params
      [("cloud_cover", PyTypeFloat); ("incidence_angle_low", PyTypeFloat);
       ("incidence_angle_high", PyTypeFloat)])
  else if String.eqb collection "NAPL" then
    Ok (adict_update params [("roll_number", PyTypeStr); ("photo_number", PyTypeStr)])
  else Raise NotImplementedError.

Definition generate_meta_keys (collection : string) : res (list string) :=
  if String.eqb collection "RCMImageProducts" then
    Ok ["recordId"; "title"; "Acquisition Start Date"; "Acquisition End Date"; "Satellite ID";
        "Beam Mnemonic"; "Beam Mode Type"; "Beam Mode Description"; "Beam Mode Version";
        "Spatial Resolution"; "Polarization Data Mode"; "Polarization";
        "Polarization in Product"; "Number of Azimuth Looks"; "Number of Range Looks";
        "Incidence Angle (Low)"; "Incidence Angle (High)"; "Orbit Direction"; "LUT Applied";
        "Product Format"; "Product Type"; "Product Ellipsoid"; "Sample Type";
        "Sampled Pixel Spacing"; "Data Type"; "SIP Size (MB)"; "Relative Orbit"; "Absolute Orbit";
        "Orbit Data Source"]
  else if String.eqb collection "Radarsat2" then
    Ok ["Sequence Id"; "Supplier Order Number"; "Start Date"; "End Date"; "Position"; "Sensor";
        "Sensor Mode"; "Beam"; "Polarization"; "Look Orientation"; "Incidence Angle (Low)";
        "Incidence Angle (High)"; "Orbit Direction"; "Absolute Orbit"; "LUT Applied";
        "Product Format"; "Product Type"; "Spatial Resolution"; "SIP Size (MB)"]
  else if String.eqb collection "Radarsat1" then
    Ok ["Sequence Id"; "Product Id"; "Start Date"; "End Date"; "Position"; "Sensor"; "Sensor Mode";
        "Beam"; "Polarization"; "Look Orientation"; "Incidence Angle (Low)";
        "Incidence Angle (High)"; "Orbit Direction"; "Absolute Orbit"; "LUT Applied";
        "Product Format"; "Product Type"; "Spatial Resolution"; "SIP Size (MB)"]
  else if String.eqb collection "PlanetScope" then
    Ok ["Sequence Id"; "Title"; "Start Date"; "End Date"; "Beam"; "Cloud Cover"; "Product Format";
        "Product Type"; "Sun Azimuth Angle"; "Sun Elevation Angle"; "SIP Size (MB)"]
  else if String.eqb collection "NAPL" then
    Ok ["Sequence Id"; "Title"; "Start Date"; "End Date"; "Altitude"; "Viewing Angle"; "Scale";
        "SIP Size (MB)"]
  else Raise NotImplementedError.

(** The [collection] property setter: the name it stores and the
    [available_params] it recomputes. *)
Definition set_collection (collection : string) : res (string * list (string * pytype)) :=
  new_collection ←
    (if negb (bool_decide (collection ∈ EODMS_COLLECTIONS)) then
       let u := str_upper collection in
       if bool_decide (u ∈ ["RCM"]) then Ok "RCMImageProducts"
       else if bool_decide (u ∈ ["RS1"; "RADARSAT"; "RADARSAT-1"]) then Ok "Radarsat1"
       else if bool_decide (u ∈ ["RS2"; "RADARSAT-2"]) then Ok "Radarsat2"
       else if bool_decide (u ∈ ["PLANET"]) then Ok "PlanetScope"
       else Raise ValueError
     else Ok collection);
  available_params ← available_query_args new_collection;
  Ok (new_collection, available_params).

(* ------------------------------------------------------------------------- *)
(** ** Query validation: [params.validate_query_args] *)

(** The Python values a keyword argument of [EodmsAPI.query] can carry;
    [F] is the type of Python floats. *)
Inductive arg (F : Type) :=
  | ANone
  | ABool (b : bool)
  | AInt (z : Z)
  | AFloat (f : F)
  | AStr (s : string)
  | AList (xs : list (arg F))
  | ATuple (xs : list (arg F)).
Arguments ANone {F}.
Arguments ABool {F} b.
Arguments AInt {F} z.
Arguments AFloat {F} f.
Arguments AStr {F} s.
Arguments AList {F} xs.
Arguments ATuple {F} xs.

(** Hexadecimal digits, for the escapes of [repr] and [quote]. *)
Definition hex_digit (upper : bool) (n : nat) : ascii :=
  if (n <? 10)%nat then ascii_of_nat (48 + n)
  else ascii_of_nat ((if upper then 55 else 87) + n).

Definition hex2 (upper : bool) (c : ascii) : string :=
  String (hex_digit upper (nat_of_ascii c / 16)) (String (hex_digit upper (nat_of_ascii c mod 16)) EmptyString).

Definition str_has (c : ascii) (s : string) : bool :=
  existsb (fun d => Ascii.eqb c d) (list_ascii_of_string s).

(** [repr(s)] of a [str]: single quotes unless the text holds a single quote
    and no double quote; the quote in use and the backslash are escaped, and
    so are the control characters. *)
Definition py_str_repr (s : string) : string :=
  let q : ascii := if str_has "'"%char s && negb (str_has "034"%char s) then "034"%char else "'"%char in
  let esc (c : ascii) : string :=
    if Ascii.eqb c q || Ascii.eqb c "\"%char then String "\"%char (String c EmptyString)
    else if Ascii.eqb c "009"%char then "\t"
    else if Ascii.eqb c "010"%char then "\n"
    else if Ascii.eqb c "013"%char then "\r"
    else if (nat_of_ascii c <? 32)%nat || (nat_of_ascii c =? 127)%nat then "\x" +:+ hex2 false c
    else String c EmptyString in
  String q (String.concat "" (map esc (list_ascii_of_string s)) +:+ String q EmptyString).

(** [urllib.parse.quote(s)] (safe characters: letters, digits, [_.-~] and [/]). *)
Definition quote (s : string) : string :=
  let keep (c : ascii) : bool :=
    let n := nat_of_ascii c in
    ((48 <=? n) && (n <=? 57) || (65 <=? n) && (n <=? 90) || (97 <=? n) && (n <=? 122))%nat
    || str_has c "_.-~/" in
  String.concat "" (map (fun c => if keep c then String c EmptyString else "%" +:+ hex2 true c)
                        (list_ascii_of_string s)).

Section Validate.
(** Python floats and the float operations the function relies on. *)
Variable F : Type.
Variable float_of_int : Z -> F.
(** [float(s)]: [ValueError] on a malformed literal. *)
Variable float_of_string : string -> res F.
(** [repr(x)] *)
Variable float_repr : F -> string.
(** [int(x)] as ['%d'] applies it, [math.floor], [math.ceil]: they fail on
    infinities and NaN. *)
Variable float_trunc float_floor float_ceil : F -> res Z.
(** ['%f' % x] and ['%.1f' % x] *)
Variable fmt_f fmt_1f : F -> string.
(** [bool(x)] *)
Variable float_truthy : F -> bool.
(** [datetime] values: [datetime.today()] at the start and at the end
    branch, [dateutil.parser.parse], [+ timedelta(days=n)], [.isoformat()]. *)
Variable D : Type.
Variable today_at_start today_at_end : D.
Variable parse : arg F -> res D.
Variable add_days : D -> Z -> D.
Variable isoformat : D -> string.
(** [geo.load_search_aoi]: the WKT of the features of a vector file. *)
Variable load_search_aoi : arg F -> res string.

Fixpoint arg_repr (v : arg F) : string :=
  match v with
  | ANone => "None"
  | ABool b => if b then "True" else "False"
  | AInt z => pretty z
  | AFloat f => float_repr f
  | AStr s => py_str_repr s
  | AList xs => "[" +:+ String.concat ", " (map arg_repr xs) +:+ "]"
  | ATuple [x] => "(" +:+ arg_repr x +:+ ",)"
  | ATuple xs => "(" +:+ String.concat ", " (map arg_repr xs) +:+ ")"
  end.

(** [str(v)] *)
Definition arg_str (v : arg F) : string :=
  match v with AStr s => s | _ => arg_repr v end.

(** [fmt % v] for a format with one conversion: a tuple supplies the
    arguments, and must hold exactly one. *)
Definition pct (conv : arg F -> res string) (v : arg F) : res string :=
  match v with
  | ATuple [x] => conv x
  | ATuple _ => Raise TypeError
  | _ => conv v
  end.

(** The conversions [%s], [%d], [%f] and [%.1f]. *)
Definition conv_s (v : arg F) : res string := Ok (arg_str v).

Definition conv_d (v : arg F) : res string :=
  match v with
  | AInt z => Ok (pretty z)
  | ABool b => Ok (if b then "1" else "0")
  | AFloat f => z ← float_trunc f; Ok (pretty z)
  | _ => Raise TypeError
  end.

Definition conv_float (fmt : F -> string) (v : arg F) : res string :=
  match v with
  | AInt z => Ok (fmt (float_of_int z))
  | ABool b => Ok (fmt (float_of_int (if b then 1 else 0)))
  | AFloat f => Ok (fmt f)
  | _ => Raise TypeError
  end.

(** [float(v)] *)
Definition py_float (v : arg F) : res F :=
  match v with
  | AStr s => float_of_string s
  | AInt z => Ok (float_of_int z)
  | ABool b => Ok (float_of_int (if b then 1 else 0))
  | AFloat f => Ok f
  | _ => Raise TypeError
  end.

(** [bool(v)] *)
Definition py_truthy (v : arg F) : bool :=
  match v with
  | ANone => false
  | ABool b => b
  | AInt z => negb (Z.eqb z 0)
  | AFloat f => float_truthy f
  | AStr s => negb (String.eqb s "")
  | AList xs | ATuple xs => negb (Nat.eqb (length xs) 0)
  end.

(** [v.upper()] and [v.capitalize()] *)
Definition arg_upper (v : arg F) : res string :=
  match v with AStr s => Ok (str_upper s) | _ => Raise AttributeError end.
Definition arg_capitalize (v : arg F) : res string :=
  match v with AStr s => Ok (capitalize s) | _ => Raise AttributeError end.

(** [args.get(k, default)] *)
Definition kw_get (args : list (string * arg F)) (k : string) (default : arg F) : arg F :=
  match list_find (fun kv => kv.1 = k) args with
  | Some (_, (_, v)) => v
  | None => default
  end.

(** The single/multi pattern: a value that is not a list or tuple gives the
    [single] clause; a list or tuple other than [[None]] gives the [multi]
    clause over its converted elements; [[None]] gives nothing. *)
Definition select_clause (v : arg F) (single : arg F -> res string)
    (each : arg F -> res string) (multi : string -> string) : res (list string) :=
  match v with
  | AList xs | ATuple xs =>
      match xs with
      | [ANone] => Ok []
      | _ => parts ← res_mapM each xs; Ok [multi (String.concat "," parts)]
      end
  | _ => s ← single v; Ok [s]
  end.

(** [v = args.get(k, None); if v is not None: query_args.append(...)] *)
Definition opt_clause (v : arg F) (clause : arg F -> res string) : res (list string) :=
  match v with ANone => Ok [] | _ => s ← clause v; Ok [s] end.

Definition quoted (prefix s : string) : string := prefix +:+ "'" +:+ s +:+ "'".

(** The clauses of the collection-specific part, in the order of the source. *)
Definition collection_clauses (args : list (string * arg F)) (collection : string)
    : res (list string) :=
  let get := kw_get args in
  let upper_repr (v : arg F) := u ← arg_upper v; Ok (py_str_repr u) in
  if String.eqb collection "RCMImageProducts" then
    c1 ← select_clause (get "beam_mode" (AList [ANone]))
           (fun v => s ← pct conv_s v; Ok (quoted "RCM.SBEAM=" s))
           (fun v => Ok (arg_repr v)) (fun j => "RCM.SBEAM=" +:+ j);
    c2 ← select_clause (get "mnemonic" (AList [ANone]))
           (fun v => s ← pct conv_s v; Ok (quoted "RCM.BEAM_MNEMONIC=" s))
           (fun v => Ok (arg_repr v)) (fun j => "RCM.BEAM_MNEMONIC=" +:+ j);
    c3 ← opt_clause (get "product_format" ANone)
           (fun v => s ← pct conv_s v; Ok (quoted "PRODUCT_FORMAT.FORMAT_NAME_E=" s));
    c4 ← opt_clause (get "look_direction" ANone)
           (fun v => s ← pct conv_s v; Ok (quoted "RCM.ANTENNA_ORIENTATION=" s));
    c5 ← select_clause (get "polarization" (AList [ANone]))
           (fun v => u ← arg_upper v; Ok (quoted "RCM.POLARIZATION=" u))
           upper_repr (fun j => "RCM.POLARIZATION=" +:+ j);
    c6 ← opt_clause (get "incidence_angle" ANone)
           (fun v => f ← py_float v; Ok ("RCM.INCIDENCE_ANGLE=" +:+ fmt_f f));
    c7 ← opt_clause (get "incidence_angle_low" ANone)
           (fun v => f ← py_float v; Ok ("SENSOR_BEAM_CONFIG.INCIDENCE_LOW>=" +:+ fmt_1f f));
    c8 ← opt_clause (get "incidence_angle_high" ANone)
           (fun v => f ← py_float v; Ok ("SENSOR_BEAM_CONFIG.INCIDENCE_HIGH<=" +:+ fmt_1f f));
    c9 ← opt_clause (get "orbit_direction" ANone)
           (fun v => s ← arg_capitalize v; Ok (quoted "RCM.ORBIT_DIRECTION=" s));
    c10 ← select_clause (get "absolute_orbit" (AList [ANone]))
           (fun v => s ← pct (conv_float fmt_1f) v; Ok ("RCM.ORBIT_ABS=" +:+ s))
           (pct (conv_float fmt_1f)) (fun j => "RCM.ORBIT_ABS=" +:+ j);
    c11 ← select_clause (get "relative_orbit" (AList [ANone]))
           (fun v => s ← pct conv_d v; Ok ("RCM.ORBIT_REL=" +:+ s))
           (pct conv_d) (fun j => "RCM.ORBIT_REL=" +:+ j);
    c12 ← opt_clause (get "downlink_segment" ANone)
           (fun v => s ← pct conv_s v; Ok (quoted "RCM.DOWNLINK_SEGMENT_ID=" s));
    Ok (c1 ++ c2 ++ c3 ++ c4 ++ c5 ++ c6 ++ c7 ++ c8 ++ c9 ++ c10 ++ c11 ++ c12)
  else if String.eqb collection "Radarsat2" then
    c1 ← select_clause (get "beam_mode" (AList [ANone]))
           (fun v => s ← pct conv_s v; Ok (quoted "RSAT2.SBEAM=" s))
           (fun v => Ok (arg_repr v)) (fun j => "RSAT2.SBEAM=" +:+ j);
    c2 ← select_clause (get "mnemonic" (AList [ANone]))
           (fun v => s ← pct conv_s v; Ok (quoted "RSAT2.BEAM_MNEMONIC=" s))
           (fun v => Ok (arg_repr v)) (fun j => "RSAT2.BEAM_MNEMONIC=" +:+ j);
    c3 ← opt_clause (get "look_direction" ANone)
           (fun v => s ← pct conv_s v; Ok (quoted "RSAT2.ANTENNA_ORIENTATION=" s));
    c4 ← opt_clause (get "incidence_angle" ANone)
           (fun v => f ← py_float v; Ok ("RSAT2.INCIDENCE_ANGLE=" +:+ fmt_f f));
    c5 ← opt_clause (get "incidence_angle_low" ANone)
           (fun v => f ← py_float v; Ok ("SENSOR_BEAM_CONFIG.INCIDENCE_LOW>=" +:+ fmt_1f f));
    c6 ← opt_clause (get "incidence_angle_high" ANone)
           (fun v => f ← py_float v; Ok ("SENSOR_BEAM_CONFIG.INCIDENCE_HIGH<=" +:+ fmt_1f f));
    c7 ← opt_clause (get "orbit_direction" ANone)
           (fun v => s ← arg_capitalize v; Ok (quoted "RSAT2.ORBIT_DIRECTION=" s));
    c8 ← select_clause (get "absolute_orbit" (AList [ANone]))
           (fun v => s ← pct (conv_float fmt_1f) v; Ok ("RSAT2.ORBIT_ABS=" +:+ s))
           (pct (conv_float fmt_1f)) (fun j => "RSAT2.ORBIT_ABS=" +:+ j);
    c9 ← select_clause (get "relative_orbit" (AList [ANone]))
           (fun v => s ← pct conv_d v; Ok ("RSAT2.ORBIT_REL=" +:+ s))
           (pct conv_d) (fun j => "RSAT2.ORBIT_REL=" +:+ j);
    Ok (c1 ++ c2 ++ c3 ++ c4 ++ c5 ++ c6 ++ c7 ++ c8 ++ c9)
  else if String.eqb collection "Radarsat1" then
    c1 ← select_clause (get "mnemonic" (AList [ANone]))
           (fun v => s ← pct conv_s v; Ok (quoted "RSAT1.BEAM_MNEMONIC=" s))
           (fun v => Ok (arg_repr v)) (fun j => "RSAT1.BEAM_MNEMONIC=" +:+ j);
    c2 ← opt_clause (get "look_direction" ANone)
           (fun v => s ← pct conv_s v; Ok (quoted "RSAT1.ANTENNA_ORIENTATION=" s));
    c3 ← opt_clause (get "incidence_angle" ANone)
           (fun v => f ← py_float v; Ok ("RSAT1.INCIDENCE_ANGLE=" +:+ fmt_f f));
    c4 ← opt_clause (get "incidence_angle_low" ANone)
           (fun v => f ← py_float v; Ok ("SENSOR_BEAM_CONFIG.INCIDENCE_LOW>=" +:+ fmt_1f f));
    c5 ← opt_clause (get "incidence_angle_high" ANone)
           (fun v => f ← py_float v; Ok ("SENSOR_BEAM_CONFIG.INCIDENCE_HIGH<=" +:+ fmt_1f f));
    c6 ← opt_clause (get "orbit_direction" ANone)
           (fun v => s ← arg_capitalize v; Ok (quoted "RSAT1.ORBIT_DIRECTION=" s));
    c7 ← select_clause (get "absolute_orbit" (AList [ANone]))
           (fun v => s ← pct (conv_float fmt_1f) v; Ok ("RSAT1.ORBIT_ABS=" +:+ s))
           (pct (conv_float fmt_1f)) (fun j => "RSAT1.ORBIT_ABS=" +:+ j);
    Ok (c1 ++ c2 ++ c3 ++ c4 ++ c5 ++ c6 ++ c7)
  else if String.eqb collection "PlanetScope" then
    c1 ← opt_clause (get "cloud_cover" ANone)
           (fun v => s ← pct conv_d v; Ok ("SATOPT.CLOUD_PERCENT=" +:+ s));
    c2 ← opt_clause (get "incidence_angle_low" ANone)
           (fun v => f ← py_float v; z ← float_floor f;
                     Ok ("SENSOR_BEAM_CONFIG.INCIDENCE_LOW=" +:+ pretty z));
    c3 ← opt_clause (get "incidence_angle_high" ANone)
           (fun v => f ← py_float v; z ← float_ceil f;
                     Ok ("SENSOR_BEAM_CONFIG.INCIDENCE_HIGH=" +:+ pretty z));
    Ok (c1 ++ c2 ++ c3)
  else if String.eqb collection "NAPL" then
    c1 ← opt_clause (get "roll_number" ANone)
           (fun v => s ← pct conv_s v; Ok ("ROLL.ROLL_NUMBER=" +:+ s));
    c2 ← opt_clause (get "photo_number" ANone)
           (fun v => s ← pct conv_s v; Ok ("PHOTO.PHOTO_NUMBER=" +:+ s));
    c3 ← opt_clause (get "napl_nocost" ANone)
           (fun v => let is_free : arg F := AStr (if py_truthy v then "t" else "f") in
                     s ← pct (conv_float fmt_f) is_free; Ok ("CATALOG_IMAGE.OPEN_DATA=" +:+ s));
    Ok (c1 ++ c2 ++ c3)
  else Raise NotImplementedError.

(** The [query_args] list [validate_query_args] builds. *)
Definition query_args_of (args : list (string * arg F)) (collection : string)
    : res (list string) :=
  let get := kw_get args in
  start ← (match get "start" ANone with
           | ANone => Ok (add_days today_at_start (-1))
           | AStr "TODAY-1" => Ok (add_days today_at_start (-1))
           | v => parse v
           end);
  let c_start := quoted "CATALOG_IMAGE.START_DATETIME>=" (isoformat start) in
  end_ ← (match get "end" ANone with
          | ANone => Ok today_at_end
          | AStr "TODAY" => Ok today_at_end
          | v => parse v
          end);
  let c_end := quoted "CATALOG_IMAGE.STOP_DATETIME<=" (isoformat (add_days end_ 1)) in
  c_geom ← opt_clause (get "geometry" ANone)
             (fun v => wkt ← load_search_aoi v;
                       Ok ("CATALOG_IMAGE.THE_GEOM_4326 INTERSECTS " +:+ wkt));
  c_pt ← select_clause (get "product_type" (AList [ANone]))
           (fun v => u ← arg_upper v; Ok (quoted "ARCHIVE_IMAGE.PRODUCT_TYPE=" u))
           (fun v => u ← arg_upper v; Ok (py_str_repr u))
           (fun j => "ARCHIVE_IMAGE.PRODUCT_TYPE=" +:+ j);
  c_coll ← collection_clauses args collection;
  Ok ([c_start; c_end] ++ c_geom ++ c_pt ++ c_coll).

Definition validate_query_args (args : list (string * arg F)) (collection : string)
    : res string :=
  query_args ← query_args_of args collection;
  Ok (quote (String.concat " AND " query_args)).
End Validate.

(** [kwargs] without the keyword [k]. *)
Definition kw_remove {F} (k : string) (args : list (string * arg F)) : list (string * arg F) :=
  List.filter (fun kv => negb (String.eqb kv.1 k)) args.

(** A value the ['%d'] and ['%.1f'] conversions refuse: a string, or a list
    or tuple other than [[None]] holding a string. *)
Definition str_valued {F} (v : arg F) : bool :=
  let is_str (x : arg F) := match x with AStr _ => true | _ => false end in
  match v with
  | AStr _ => true
  | AList [ANone] | ATuple [ANone] => false
  | AList xs | ATuple xs => existsb is_str xs
  | _ => false
  end.

(** The characters a [quote]d string is made of: the safe ones and [%]. *)
Definition url_char (c : ascii) : bool :=
  let n := nat_of_ascii c in
  ((48 <=? n) && (n <=? 57) || (65 <=? n) && (n <=? 90) || (97 <=? n) && (n <=? 122))%nat
  || str_has c "_.-~/%".

(** Spec-side reading of "a percent-encoded URL component", to be compared
    with [quote]: the characters [quote] keeps (letters, digits, [_.-~/]). *)
Definition unreserved (c : ascii) : bool :=
  let n := nat_of_ascii c in
  ((48 <=? n) && (n <=? 57) || (65 <=? n) && (n <=? 90) || (97 <=? n) && (n <=? 122))%nat
  || str_has c "_.-~/".

Definition hex_upper (c : ascii) : bool :=
  let n := nat_of_ascii c in ((48 <=? n) && (n <=? 57) || (65 <=? n) && (n <=? 70))%nat.

Definition is_hex (c : ascii) : bool :=
  let n := nat_of_ascii c in hex_upper c || ((97 <=? n) && (n <=? 102))%nat.

(** Every character is unreserved, or a ['%'] followed by two upper-case
    hexadecimal digits: a ['%'] only ever opens a well-formed escape. *)
Fixpoint percent_encoded (l : list ascii) : bool :=
  match l with
  | [] => true
  | c :: r =>
      if Ascii.eqb c "%" then
        match r with
        | a :: b :: r' => hex_upper a && hex_upper b && percent_encoded r'
        | _ => false
        end
      else unreserved c && percent_encoded r
  end.

Definition hex_val (c : ascii) : nat :=
  let n := nat_of_ascii c in
  if (n <=? 57)%nat then n - 48 else if (n <=? 70)%nat then n - 55 else n - 87.

(** Percent-decoding to bytes ([urllib.parse.unquote_to_bytes]): a ['%']
    followed by two hexadecimal digits is the byte they spell; any other
    character, a stray ['%'] included, stands for itself. *)
Fixpoint percent_decode (l : list ascii) : list ascii :=
  match l with
  | [] => []
  | c :: r =>
      if Ascii.eqb c "%" then
        match r with
        | a :: b :: r' =>
            if is_hex a && is_hex b then ascii_of_nat (16 * hex_val a + hex_val b) :: percent_decode r'
            else c :: percent_decode r
        | _ => c :: percent_decode r
        end
      else c :: percent_decode r
  end.

(** ** The DDS download of one granule *)

Definition EODMS_DDS_BASE : string := "https://www.eodms-sgdot.nrcan-rncan.gc.ca/dds/v1/item".

(** The body of a DDS reply: a JSON object or another JSON value. *)
Inductive dds_json :=
  | DJObj (d : gmap string string)
  | DJOther.

(** A reply of the DDS item endpoint: [r.ok], [r.status_code] and [r.json()]
    ([None] when the body is not JSON). *)
Record dds_reply := mk_dds_reply {
  dr_ok : bool;
  dr_status : Z;
  dr_json : option dds_json
}.

(** The effects of [_download_dds_item]: the access token, the number of
    tokens acquired, the number of GETs sent to the item endpoint, the local
    files (path to byte size) and the product URLs streamed. *)
Record dds_state := mk_dds_state {
  ds_token : string;
  ds_acquired : nat;
  ds_calls : nat;
  ds_fs : gmap string N;
  ds_streams : list string
}.

Definition ds_with_token (tok : string) (st : dds_state) : dds_state :=
  mk_dds_state tok (S (ds_acquired st)) (ds_calls st) (ds_fs st) (ds_streams st).

Definition ds_with_fs (fs : gmap string N) (st : dds_state) : dds_state :=
  mk_dds_state (ds_token st) (ds_acquired st) (ds_calls st) fs (ds_streams st).

Section DDS.
(** The item endpoint, answering the [n]-th GET of [url] with bearer [token]. *)
Variable dds_srv : nat -> string -> string -> dds_reply.
(** [acquire_token] on its [n]-th call. *)
Variable acquire : nat -> res string.
(** The [Content-Length] header of the HEAD of a product URL. *)
Variable head_length : string -> option N.
(** The streamed GET of a product URL. *)
Variable file_srv : string -> file_reply.
Variable collection : string.

Definition dds_get (url : string) (st : dds_state) : dds_reply * dds_state :=
  (dds_srv (ds_calls st) url (ds_token st),
   mk_dds_state (ds_token st) (ds_acquired st) (S (ds_calls st)) (ds_fs st) (ds_streams st)).

(** [uuid_req.json()] (a [JSONDecodeError] is re-raised as [HTTPError]) and
    the [.keys()] of the [while] test ([AttributeError] off an object). *)
Definition dds_keys (r : dds_reply) : res (gmap string string) :=
  match dr_json r with
  | None => Raise HTTPError
  | Some DJOther => Raise AttributeError
  | Some (DJObj d) => Ok d
  end.

(** The [while "download_url" not in uuid_resp.keys()] loop; [None] when it
    is still polling after [fuel] rounds. *)
Fixpoint dds_poll (fuel : nat) (url : string) (resp : gmap string string) (st : dds_state)
    : option (res (gmap string string) * dds_state) :=
  match resp !! "download_url" with
  | Some _ => Some (Ok resp, st)
  | None =>
      match fuel with
      | O => None
      | S fuel' =>
          let '(r, st) := dds_get url st in
          if negb (dr_ok r) then Some (Raise HTTPError, st)
          else match dds_keys r with
               | Ok d => dds_poll fuel' url d st
               | Raise e => Some (Raise e, st)
               end
      end
  end.

(** [download_url.split("?")[0].split("/")[-1]] *)
Definition dds_granule (download_url : string) : res string :=
  q ← py_split "?" download_url;
  q0 ← py_first q;
  p ← py_split "/" q0;
  py_last p.

(** [os.makedirs(os.path.dirname(local), exist_ok=True)], [open(local, 'wb')],
    then the streamed GET: the file is created before the [content-length]
    header is read.  [os.makedirs('')] raises [FileNotFoundError]; the local
    file system is modelled by its regular files only, so creating a
    non-empty directory path succeeds. *)
Definition dds_fetch (download_url local : string) (st : dds_state) : option (res string * dds_state) :=
  if String.eqb (dirname local) "" then Some (Raise FileNotFoundError, st) else
  let stream := file_srv download_url in
  let st := mk_dds_state (ds_token st) (ds_acquired st) (ds_calls st)
              (<[local := 0%N]> (ds_fs st)) (ds_streams st ++ [download_url]) in
  match fr_content_length stream with
  | None => Some (Raise KeyError, st)
  | Some _ => Some (Ok local, ds_with_fs (<[local := fr_body_size stream]> (ds_fs st)) st)
  end.

(** From [uuid_resp = uuid_req.json()] to the end of [_download_dds_item]. *)
Definition dds_finish (fuel : nat) (url output_directory : string) (r : dds_reply) (st : dds_state)
    : option (res string * dds_state) :=
  match dds_keys r with
  | Raise e => Some (Raise e, st)
  | Ok d =>
      match dds_poll fuel url d st with
      | None => None
      | Some (Raise e, st) => Some (Raise e, st)
      | Some (Ok resp, st) =>
          match resp !! "download_url" with
          | None => Some (Raise KeyError, st)
          | Some download_url =>
              match dds_granule download_url with
              | Raise e => Some (Raise e, st)
              | Ok granule =>
                  let local := path_join output_directory granule in
                  match ds_fs st !! local with
                  | Some size =>
                      (* [int(head(...).headers.get("Content-Length"))] *)
                      match head_length download_url with
                      | None => Some (Raise TypeError, st)
                      | Some expected_size =>
                          if N.eqb size expected_size then Some (Ok local, st)
                          else dds_fetch download_url local (ds_with_fs (delete local (ds_fs st)) st)
                      end
                  | None => dds_fetch download_url local st
                  end
              end
          end
      end
  end.

(** [_download_dds_item(uuid, output_directory)]: one GET of the item, and
    a second one with a fresh token when the first is refused with 401. *)
Definition download_dds_item (fuel : nat) (uuid output_directory : string) (st : dds_state)
    : option (res string * dds_state) :=
  let url := EODMS_DDS_BASE +:+ "/EODMS/" +:+ collection +:+ "/" +:+ uuid in
  let '(r, st) := dds_get url st in
  let first : (dds_reply * dds_state) + (exn * dds_state) :=
    if negb (dr_ok r) && (dr_status r =? 401)%Z then
      match acquire (ds_acquired st) with
      | Ok tok => inl (dds_get url (ds_with_token tok st))
      | Raise e => inr (e, mk_dds_state (ds_token st) (S (ds_acquired st)) (ds_calls st)
                                        (ds_fs st) (ds_streams st))
      end
    else inl (r, st) in
  match first with
  | inr (e, st) => Some (Raise e, st)
  | inl (r, st) => dds_finish fuel url output_directory r st
  end.
End DDS.

(** ** Result frame: [geo.metadata_to_gdf] *)

(** A cell of a frame: a value, or [None] for a missing one (NaN). *)
Definition cell := option json.

(** A data frame by its columns, in order: label and cells. *)
Definition frame := list (string * list cell).

(** [md[k]] of a metadata record, [None] when the key is absent. *)
Definition md_lookup (k : string) (md : metadata) : cell :=
  match list_find (fun kv => kv.1 = k) md with Some (_, (_, v)) => Some v | None => None end.

(** The labels of a list of records, in order of first appearance. *)
Definition record_labels (records : list metadata) : list string :=
  foldl (fun acc (md : metadata) =>
           foldl (fun acc k => if bool_decide (k ∈ acc) then acc else acc ++ [k]) acc (map fst md))
        [] records.

(** [pd.DataFrame(metadata)] for a dict of columns or a list of records. *)
Definition frame_of (e : enriched) : frame :=
  match e with
  | Columns keys => map (fun k => (k, [])) keys
  | Rows records => map (fun l => (l, map (md_lookup l) records)) (record_labels records)
  end.

(** [df.rename(mapping, axis=1)] *)
Definition rename_label (mapping : list (string * string)) (l : string) : string :=
  match list_find (fun kv => kv.1 = l) mapping with Some (_, (_, l')) => l' | None => l end.

Definition rename_frame (mapping : list (string * string)) (df : frame) : frame :=
  map (fun c => (rename_label mapping c.1, c.2)) df.

(** [df[l]] *)
Definition getcol (df : frame) (l : string) : res (list cell) :=
  match list_find (fun c => c.1 = l) df with Some (_, (_, v)) => Ok v | None => Raise KeyError end.

(** [df[l] = v] for a label the frame has (a new label is appended). *)
Fixpoint setcol (df : frame) (l : string) (v : list cell) : frame :=
  match df with
  | [] => [(l, v)]
  | (l', v') :: r => if String.eqb l l' then (l, v) :: r else (l', v') :: setcol r l v
  end.

(** [df[[l1, l2, ...]]] *)
Definition select_cols (df : frame) (ls : list string) : res frame :=
  res_mapM (fun l => v ← getcol df l; Ok (l, v)) ls.

(** The layout [metadata_to_gdf] applies to a collection: the renaming, the
    column selection (Radarsat1 only), [date_cols], [int_cols], [float_cols]. *)
Record gdf_layout := mk_gdf_layout {
  gl_rename : list (string * string);
  gl_select : option (list string);
  gl_date_cols : list string;
  gl_int_cols : list string;
  gl_float_cols : list string
}.

Definition RS1_COLUMNS : list string :=
  ["EODMS RecordId"; "Granule"; "Start Date"; "End Date"; "Position";
   "Sensor"; "Sensor Mode"; "Beam"; "Polarization"; "Look Orientation";
   "Incidence Angle (Low)"; "Incidence Angle (High)"; "Orbit Direction";
   "Absolute Orbit"; "LUT Applied"; "Product Format"; "Product Type";
   "Spatial Resolution"; "SIP Size (MB)"; "geometry"].

(** The branches of [metadata_to_gdf]; [None] for a collection none of them
    covers, where [int_cols] is then unbound. *)
Definition gdf_layout_of (collection : string) : option gdf_layout :=
  if String.eqb collection "RCMImageProducts" then
    Some (mk_gdf_layout [("recordId", "EODMS RecordId"); ("title", "Granule")] None
      ["Acquisition Start Date"; "Acquisition End Date"]
      ["EODMS RecordId"; "Number of Azimuth Looks"; "Number of Range Looks";
       "SIP Size (MB)"; "Relative Orbit"; "Absolute Orbit"; "Beam Mode Version"]
      ["Incidence Angle (Low)"; "Incidence Angle (High)"; "Sampled Pixel Spacing";
       "Spatial Resolution"])
  else if String.eqb collection "Radarsat2" then
    Some (mk_gdf_layout [("Sequence Id", "EODMS RecordId"); ("Supplier Order Number", "Granule")] None
      ["Start Date"; "End Date"]
      ["EODMS RecordId"; "SIP Size (MB)"; "Absolute Orbit"]
      ["Incidence Angle (Low)"; "Incidence Angle (High)"; "Spatial Resolution"])
  else if String.eqb collection "Radarsat1" then
    Some (mk_gdf_layout [("Sequence Id", "EODMS RecordId"); ("Product Id", "Granule");
                         ("Start Date", "End Date"); ("End Date", "Start Date")]
      (Some RS1_COLUMNS)
      ["Start Date"; "End Date"]
      ["EODMS RecordId"; "SIP Size (MB)"; "Absolute Orbit"]
      ["Incidence Angle (Low)"; "Incidence Angle (High)"; "Spatial Resolution"])
  else if bool_decide (collection ∈ ["PlanetScope"; "NAPL"]) then
    Some (mk_gdf_layout [("Sequence Id", "EODMS RecordId"); ("Title", "Granule")] None
      ["Start Date"; "End Date"]
      ["EODMS RecordId"; "SIP Size (MB)"]
      ["Incidence Angle (Low)"; "Incidence Angle (High)"])
  else None.

(** The rows of some columns: row [i] holds the [i]-th cell of each. *)
Definition rows_of (cols : list (list cell)) : list (list cell) :=
  map (fun i => map (fun c => nth i c None) cols) (seq 0 (length (default [] (head cols)))).

Section MetadataToGdf.
(** [CRS(target_crs)] (or the default [epsg:4326]) and the
    [gpd.GeoDataFrame(metadata, crs=crs)] constructor: their exceptions. *)
Variable new_crs : option string -> res unit.
Variable new_gdf : frame -> res unit.
(** [pd.to_numeric(col, downcast='unsigned' / 'float', errors='ignore')]:
    never raises. *)
Variable to_numeric_unsigned to_numeric_float : list cell -> list cell.
(** [pd.to_datetime] on one row of the date columns. *)
Variable to_datetime_row : list cell -> res (list cell).
(** The row order [sort_values] gives for a column (it raises on values it
    cannot compare). *)
Variable argsort : list cell -> res (list nat).

Definition convert_col (conv : list cell -> list cell) (df : res frame) (l : string) : res frame :=
  df ← df; v ← getcol df l; Ok (setcol df l (conv v)).

(** [df[date_cols] = df[date_cols].apply(pd.to_datetime, axis=1)] *)
Definition convert_dates (df : frame) (date_cols : list string) : res frame :=
  cols ← res_mapM (getcol df) date_cols;
  rows ← res_mapM to_datetime_row (rows_of cols);
  Ok (foldl (fun df '(j, l) => setcol df l (map (fun r => nth j r None) rows)) df
            (zip (seq 0 (length date_cols)) date_cols)).

(** [df.sort_values(by='EODMS RecordId')]; [reset_index] renumbers the rows. *)
Definition sort_by_record_id (df : frame) : res frame :=
  ids ← getcol df "EODMS RecordId";
  perm ← argsort ids;
  Ok (map (fun c => (c.1, map (fun i => nth i c.2 None) perm)) df).

Definition metadata_to_gdf (metadata : enriched) (collection : string) (target_crs : option string)
    : res frame :=
  _ ← new_crs target_crs;
  let df := frame_of metadata in
  _ ← new_gdf df;
  match gdf_layout_of collection with
  | None => Raise UnboundLocalError
  | Some lay =>
      let df := rename_frame (gl_rename lay) df in
      df ← (match gl_select lay with Some ls => select_cols df ls | None => Ok df end);
      df ← foldl (convert_col to_numeric_unsigned) (Ok df) (gl_int_cols lay);
      df ← foldl (convert_col to_numeric_float) (Ok df) (gl_float_cols lay);
      df ← convert_dates df (gl_date_cols lay);
      sort_by_record_id df
  end.
End MetadataToGdf.

(* ------------------------------------------------------------------------- *)
(** ** The search entry point: [EodmsAPI.query] *)

Section Query.
(** The oracles of [validate_query_args]. *)
Variable F : Type.
Variable float_of_int : Z -> F.
Variable float_of_string : string -> res F.
Variable float_repr : F -> string.
Variable float_trunc float_floor float_ceil : F -> res Z.
Variable fmt_f fmt_1f : F -> string.
Variable float_truthy : F -> bool.
Variable D : Type.
Variable today_at_start today_at_end : D.
Variable parse : arg F -> res D.
Variable add_days : D -> Z -> D.
Variable isoformat : D -> string.
Variable load_search_aoi : arg F -> res string.
(** The search endpoint, with the recursion budget of [_submit_search]. *)
Variable search_srv : search_server.
Variable fuel : nat.
(** The detail endpoint, [transform_metadata_geometry] and the completion
    order of the metadata pool. *)
Variable detail_srv : string -> detail_reply.
Variable transform_metadata_geometry : json -> option string -> res json.
Variable sched : list nat.
(** The oracles of [metadata_to_gdf]. *)
Variable new_crs : option string -> res unit.
Variable new_gdf : frame -> res unit.
Variable to_numeric_unsigned to_numeric_float : list cell -> list cell.
Variable to_datetime_row : list cell -> res (list cell).
Variable argsort : list cell -> res (list nat).
(** The [target_crs] keyword as [CRS(...)] and the geometry transform see it. *)
Variable crs_repr : arg F -> string.

(** [kwargs.get('target_crs', None)] *)
Definition target_crs_of (args : list (string * arg F)) : option string :=
  match kw_get F args "target_crs" ANone with ANone => None | v => Some (crs_repr v) end.

(** ['%d' % n_results] accepts a number (a [bool] is an [int]) and raises
    [TypeError] on anything else. *)
Definition fmt_d_ok (j : json) : bool :=
  match j with JNum _ | JBool _ => true | _ => false end.

(** [query]: the [maxResults] of every search GET issued, and the
    value stored in [self.results] or the exception raised ([None]: the
    metadata pool never completes).  Logging is left out. *)
Definition query (args : list (string * arg F)) (collection : string)
    : list nat * option (res frame) :=
  match validate_query_args F float_of_int float_of_string float_repr float_trunc float_floor
          float_ceil fmt_f fmt_1f float_truthy D today_at_start today_at_end parse add_days
          isoformat load_search_aoi args collection with
  | Raise e => ([], Some (Raise e))
  | Ok prepped_query =>
      let '(gets, r) := submit_search fuel search_srv 0 (initial_search_url collection prepped_query) in
      (gets,
       match r with
       | Raise e => Some (Raise e)
       | Ok None => Some (Raise TypeError)
       | Ok (Some search_response) =>
           match py_getitem search_response "hitCount" with
           | Raise e => Some (Raise e)
           | Ok n_results =>
               if negb (fmt_d_ok n_results) then Some (Raise TypeError) else
               match generate_meta_keys collection with
               | Raise e => Some (Raise e)
               | Ok meta_keys =>
                   let target_crs := target_crs_of args in
                   match fetch_metadata collection transform_metadata_geometry detail_srv
                           search_response meta_keys target_crs sched with
                   | None => None
                   | Some (Raise e) => Some (Raise e)
                   | Some (Ok results) =>
                       Some (metadata_to_gdf new_crs new_gdf to_numeric_unsigned to_numeric_float
                               to_datetime_row argsort results collection target_crs)
                   end
               end
           end
       end)
  end.
End Query.

(* ------------------------------------------------------------------------- *)
(** ** The command line: [cli], after the [EodmsAPI] object is built *)

(** The options [cli] branches on; a file of ids is given by its lines,
    [f.read().splitlines()]. *)
Record cli_opts := mk_cli_opts {
  co_record_id : option Z;
  co_record_ids : option (list string);
  co_order_id : option Z;
  co_order_ids : option (list string);
  co_output_dir : string;
  co_dump_results : bool;
  co_dump_filename : string;
  co_submit_order : bool
}.

(** The calls [cli] makes on the [EodmsAPI] object and the file it writes. *)
Inductive cli_event :=
  | EvOrder (record_ids : PyVal)
  | EvDownload (order_ids : PyVal)
  | EvQuery
  | EvToFile (output_dir dump_filename : string).

(** [len(df)]: the number of rows. *)
Definition frame_len (df : frame) : nat :=
  match df with [] => 0 | (_, c) :: _ => length c end.

Section Cli.
(** [int(line)] *)
Variable int_of_line : string -> res Z.
(** [current.order(...)], [current.download(...)], [current.query(...)] (its
    [current.results]) and [current.results.to_file(...)]: their outcomes. *)
Variable api_order : PyVal -> res unit.
Variable api_download : PyVal -> res unit.
Variable api_query : res frame.
Variable to_file : frame -> res unit.
(** [current.results['EODMS RecordId'].tolist()] *)
Variable tolist : list cell -> PyVal.

(** [[int(line) for line in lines if line != '']] *)
Definition read_ids (lines : list string) : res (list Z) :=
  res_mapM int_of_line (List.filter (fun l => negb (String.eqb l "")) lines).

(** The [if/elif] chain: the calls made, then [n_results] (when bound) and
    [current.results] (when set). *)
Definition cli_branch (o : cli_opts) : list cli_event * res (option nat * option frame) :=
  match co_record_id o with
  | Some r =>
      ([EvOrder (PyInt r)], _ ← api_order (PyInt r); Raise SystemExit)
  | None =>
  match co_record_ids o with
  | Some lines =>
      match read_ids lines with
      | Raise e => ([], Raise e)
      | Ok records_to_order =>
          let v := PyList (map PyInt records_to_order) in
          ([EvOrder v], _ ← api_order v; Ok (None, None))
      end
  | None =>
  match co_order_id o with
  | Some z => ([EvDownload (PyInt z)], _ ← api_download (PyInt z); Ok (None, None))
  | None =>
  match co_order_ids o with
  | Some lines =>
      match read_ids lines with
      | Raise e => ([], Raise e)
      | Ok order_ids =>
          if Nat.eqb (length order_ids) 0 then ([], Raise OSError) else
          let v := PyList (map PyInt order_ids) in
          ([EvDownload v], _ ← api_download v; Ok (None, None))
      end
  | None =>
      ([EvQuery], df ← api_query; Ok (Some (frame_len df), Some df))
  end end end end.

(** [if dump_results: ...] *)
Definition cli_dump (o : cli_opts) (n_results : option nat) (results : option frame)
    : list cli_event * res unit :=
  if negb (co_dump_results o) then ([], Ok tt) else
  match n_results with
  | None => ([], Raise UnboundLocalError)
  | Some _ =>
      match results with
      | None => ([], Raise AttributeError)
      | Some df =>
          if Nat.ltb 0 (frame_len df)
          then ([EvToFile (co_output_dir o) (co_dump_filename o)], to_file df)
          else ([], Ok tt)
      end
  end.

(** [if submit_order: ...] *)
Definition cli_submit (o : cli_opts) (results : option frame) : list cli_event * res unit :=
  if negb (co_submit_order o) then ([], Ok tt) else
  match results with
  | None => ([], Raise AttributeError)
  | Some df =>
      if Nat.ltb 0 (frame_len df) then
        match getcol df "EODMS RecordId" with
        | Raise e => ([], Raise e)
        | Ok ids => ([EvOrder (tolist ids)], api_order (tolist ids))
        end
      else ([], Ok tt)
  end.

Definition cli_run (o : cli_opts) : list cli_event * res unit :=
  let '(ev1, r1) := cli_branch o in
  match r1 with
  | Raise e => (ev1, Raise e)
  | Ok (n_results, results) =>
      let '(ev2, r2) := cli_dump o n_results results in
      match r2 with
      | Raise e => (ev1 ++ ev2, Raise e)
      | Ok _ =>
          let '(ev3, r3) := cli_submit o results in
          (ev1 ++ ev2 ++ ev3, r3)
      end
  end.
End Cli.

(* ========================================================================= *)
(** * Properties *)

(** ** Order submitter *)

Lemma ceil50_iff (N j : nat) : j < (N + 49) / 50 <-> j * 50 < N.
Proof.
  pose proof (Nat.div_mod (N + 49) 50 ltac:(lia)).
  pose proof (Nat.mod_upper_bound (N + 49) 50 ltac:(lia)).
  lia.
Qed.

Lemma ceil50_le (N : nat) : 1 <= N -> (N + 49) / 50 <= N.
Proof.
  intros HN.
  pose proof (Nat.div_mod (N + 49) 50 ltac:(lia)).
  pose proof (Nat.mod_upper_bound (N + 49) 50 ltac:(lia)).
  lia.
Qed.

Lemma concat_slices (c : nat) (xs : list PyVal) : forall r j,
  length xs <= j * c + r * c ->
  concat (map (fun i => take c (drop (i * c) xs)) (seq j r)) = drop (j * c) xs.
Proof.
  induction r as [|r IH]; intros j Hlen; simpl.
  - rewrite drop_ge; [done | lia].
  - rewrite IH by lia.
    replace (S j * c) with (j * c + c) by lia.
    rewrite <- drop_drop, take_drop. done.
Qed.

Lemma order_loop_all_ok sl coll user srv prio (xs : list PyVal) :
  (forall k p, post_ok (srv k p) = true) ->
  forall r j acc posts lg fuel,
  j + r = (length xs + 49) / 50 -> r < fuel ->
  exists lg',
    order_loop sl coll user srv fuel prio xs (j * 50) j acc posts lg =
    mk_order_out
      (Ok (Some (acc ++ concat (zip_with (fun k p => post_contrib sl (srv k p)) (seq j r)
          (map (fun i => chunk_items coll user prio (take 50 (drop (i * 50) xs))) (seq j r))))))
      (posts ++ map (fun i => chunk_items coll user prio (take 50 (drop (i * 50) xs))) (seq j r))
      lg'.
Proof.
  intros Hok. induction r as [|r IH]; intros j acc posts lg fuel Hj Hf;
    destruct fuel as [|fuel]; try lia; cbn [order_loop].
  - assert (Hge : ~ j * 50 < length xs) by (rewrite <- ceil50_iff; lia).
    destruct (Nat.ltb_spec (j * 50) (length xs)); [lia|].
    exists lg. simpl. rewrite !app_nil_r. done.
  - assert (Hlt : j * 50 < length xs) by (rewrite <- ceil50_iff; lia).
    destruct (Nat.ltb_spec (j * 50) (length xs)); [|lia].
    unfold EODMS_SUBMIT_HARDLIMIT.
    specialize (Hok j (chunk_items coll user prio (take 50 (drop (j * 50) xs)))).
    destruct (srv j _) as [code| |ids] eqn:Hsrv; [discriminate| |].
    + replace (j * 50 + 50) with (S j * 50) by lia.
      destruct (IH (S j) acc (posts ++ [chunk_items coll user prio (take 50 (drop (j * 50) xs))])
                  (lg ++ [(ERROR, "An unexpected response has been received from EODMS API");
                          (ERROR, "You will likely need to get your Order ID from the EODMS Web Interface")])
                  fuel) as [lg' ->]; try lia.
      exists lg'. simpl. rewrite Hsrv. simpl. rewrite <- app_assoc. done.
    + replace (j * 50 + 50) with (S j * 50) by lia.
      destruct (IH (S j) (acc ++ sl ids)
                  (posts ++ [chunk_items coll user prio (take 50 (drop (j * 50) xs))])
                  (lg ++ [(DEBUG, "%s priority order accepted by EODMS for %d item%s")])
                  fuel) as [lg' ->]; try lia.
      exists lg'. simpl. rewrite Hsrv. simpl. rewrite <- !app_assoc. done.
Qed.

(** C2 (amended). For a record-id list of length [N >= 1], a valid priority and
    a server that accepts every POST, [order] issues [ceil(N/50)] POSTs, the
    [i]-th one carrying the contiguous slice [xs[50i : 50i+50]] (at most 50
    items, the slices concatenating back to [xs]), and returns the
    concatenation, chunk after chunk, of [list(set(ids))] of each response:
    duplicates are collapsed within one response only, not across chunks. *)
Theorem order_chunks_and_ids (sl : list Z -> list Z) coll user srv
    (xs : list PyVal) prio :
  1 <= length xs ->
  capitalize prio ∈ PRIORITIES ->
  (forall k p, post_ok (srv k p) = true) ->
  let out := order sl coll user srv (PyList xs) prio in
  o_posts out = map (chunk_items coll user prio) (contiguous_slices EODMS_SUBMIT_HARDLIMIT xs) /\
  length (o_posts out) = (length xs + EODMS_SUBMIT_HARDLIMIT - 1) / EODMS_SUBMIT_HARDLIMIT /\
  concat (contiguous_slices EODMS_SUBMIT_HARDLIMIT xs) = xs /\
  Forall (fun p => length p <= EODMS_SUBMIT_HARDLIMIT) (o_posts out) /\
  o_result out =
    Ok (Some (concat (zip_with (fun k p => post_contrib sl (srv k p))
                                (seq 0 (length (o_posts out))) (o_posts out)))).
Proof.
  intros Hn Hprio Hok out.
  assert (Hout : exists lg',
    out = mk_order_out
      (Ok (Some (concat (zip_with (fun k p => post_contrib sl (srv k p)) (seq 0 ((length xs + 49) / 50))
          (map (fun i => chunk_items coll user prio (take 50 (drop (i * 50) xs))) (seq 0 ((length xs + 49) / 50)))))))
      (map (fun i => chunk_items coll user prio (take 50 (drop (i * 50) xs))) (seq 0 ((length xs + 49) / 50)))
      lg').
  { subst out. unfold order. cbn [wrap_scalar py_seq].
    rewrite (bool_decide_eq_true_2 _ Hprio). cbn [negb].
    destruct (Nat.ltb_spec (length xs) 1); [lia|].
    destruct (order_loop_all_ok sl coll user srv prio xs Hok ((length xs + 49) / 50) 0 [] []
               (if (EODMS_SUBMIT_HARDLIMIT <? length xs)%nat
                then [(WARNING, "Number of requested images exceeds per-order limit (%d)");
                      (INFO, "Submitting %d orders to accomodate %d items")]
                else [(INFO, "Submitting order for %d item%s")])
               (S (length xs))) as [lg' Hl].
    - lia.
    - pose proof (ceil50_le _ Hn). lia.
    - exists lg'. rewrite Nat.mul_0_l, !app_nil_l in Hl. exact Hl. }
  destruct Hout as [lg' Hout]. rewrite Hout. cbn [o_posts o_result].
  unfold contiguous_slices, EODMS_SUBMIT_HARDLIMIT.
  replace (length xs + 50 - 1) with (length xs + 49) by lia.
  rewrite length_map, length_seq, map_map.
  split; [done|]. split; [done|]. split.
  { rewrite (concat_slices 50 xs ((length xs + 49) / 50) 0); [done|].
    pose proof (Nat.div_mod (length xs + 49) 50 ltac:(lia)).
    pose proof (Nat.mod_upper_bound (length xs + 49) 50 ltac:(lia)). lia. }
  split; [|done].
  apply Forall_forall. intros p Hp. apply list_elem_of_In in Hp.
  apply in_map_iff in Hp as [i [<- _]].
  unfold chunk_items. rewrite length_map, length_take. lia.
Qed.

Lemma order_chunks_and_ids_witness :
  let srv := fun (_ : nat) (_ : list order_item) => PostOkJson [7%Z] in
  let xs := map (fun i => PyInt (Z.of_nat i)) (seq 0 51) in
  1 <= length xs /\ capitalize "urgent" ∈ PRIORITIES /\
  (forall k p, post_ok (srv k p) = true) /\
  o_result (order py_set_list "RCMImageProducts" "user" srv (PyList xs) "urgent") =
    Ok (Some (concat (zip_with (fun k p => post_contrib py_set_list (srv k p))
      (seq 0 (length (o_posts (order py_set_list "RCMImageProducts" "user" srv (PyList xs) "urgent"))))
      (o_posts (order py_set_list "RCMImageProducts" "user" srv (PyList xs) "urgent"))))).
Proof.
  intros srv xs.
  assert (H1 : 1 <= length xs) by (vm_compute; lia).
  assert (H2 : capitalize "urgent" ∈ PRIORITIES) by (vm_compute; right; right; right; left).
  assert (H3 : forall k p, post_ok (srv k p) = true) by reflexivity.
  split; [exact H1|]. split; [exact H2|]. split; [exact H3|].
  exact (proj2 (proj2 (proj2 (proj2 (order_chunks_and_ids py_set_list "RCMImageProducts" "user" srv xs "urgent" H1 H2 H3))))).
Defined.

(** C2 (counterexample). 51 record ids are sent as two POSTs; when both answer
    with order id 7, [order] returns [[7; 7]], which has a duplicate. *)
Lemma order_dup_ids_across_chunks :
  let out := order py_set_list "RCMImageProducts" "user" (fun _ _ => PostOkJson [7%Z])
               (PyList (map (fun i => PyInt (Z.of_nat i)) (seq 0 51))) "Medium" in
  map length (o_posts out) = [50; 1] /\
  o_result out = Ok (Some [7%Z; 7%Z]) /\ ~ NoDup [7%Z; 7%Z].
Proof.
  split; [vm_compute; reflexivity|]. split; [vm_compute; reflexivity|].
  rewrite NoDup_cons. intros [Hn _]. apply Hn. constructor.
Qed.

(** Upper- and lower-casing agree on the initials of the four priorities. *)
Lemma ascii_forall (P : ascii -> Prop) :
  (forall n, n < 256 -> P (ascii_of_nat n)) -> forall c, P c.
Proof.
  intros H c. rewrite <- (ascii_nat_embedding c). apply H, nat_ascii_bounded.
Qed.

Lemma upper_initial_iff (c Q : ascii) :
  In Q ["L"; "M"; "H"; "U"]%char ->
  ascii_upper c = Q <-> ascii_lower c = ascii_lower Q.
Proof.
  intros HQ. revert c.
  assert (Hb : forallb (fun n =>
            forallb (fun Q => Bool.eqb (Ascii.eqb (ascii_upper (ascii_of_nat n)) Q)
                                       (Ascii.eqb (ascii_lower (ascii_of_nat n)) (ascii_lower Q)))
              ["L"; "M"; "H"; "U"]%char) (seq 0 256) = true) by (vm_compute; reflexivity).
  apply (ascii_forall (fun c => ascii_upper c = Q <-> ascii_lower c = ascii_lower Q)).
  intros n Hn.
  rewrite forallb_forall in Hb. specialize (Hb n (proj2 (in_seq 256 0 n) ltac:(lia))).
  rewrite forallb_forall in Hb. specialize (Hb Q HQ).
  apply Bool.eqb_prop in Hb.
  destruct (Ascii.eqb_spec (ascii_upper (ascii_of_nat n)) Q);
  destruct (Ascii.eqb_spec (ascii_lower (ascii_of_nat n)) (ascii_lower Q));
  simpl in Hb; try discriminate; tauto.
Qed.

(** [priority.capitalize()] is one of the four exactly when [priority] equals
    it up to (ASCII) letter case. *)
Lemma capitalize_priority_iff (p q : string) :
  In q PRIORITIES -> capitalize p = q <-> str_lower p = str_lower q.
Proof.
  intros Hq.
  assert (Hshape : exists Q rest, q = String Q rest /\ str_lower rest = rest /\
                                  In Q ["L"; "M"; "H"; "U"]%char).
  { simpl in Hq. destruct Hq as [<-|[<-|[<-|[<-|[]]]]].
    - exists "L"%char, "ow". simpl; tauto.
    - exists "M"%char, "edium". simpl; tauto.
    - exists "H"%char, "igh". simpl; tauto.
    - exists "U"%char, "rgent". simpl; tauto. }
  destruct Hshape as (Q & rest & -> & Hrest & HQ).
  destruct p as [|c r]; simpl; [split; discriminate|].
  rewrite Hrest. split.
  - intros H; injection H as H1 H2. f_equal; [|exact H2].
    apply (upper_initial_iff c Q HQ); exact H1.
  - intros H; injection H as H1 H2. f_equal; [|exact H2].
    apply (upper_initial_iff c Q HQ); exact H1.
Qed.

Lemma capitalize_in_priorities (p : string) :
  capitalize p ∈ PRIORITIES <-> exists q, In q PRIORITIES /\ str_lower p = str_lower q.
Proof.
  rewrite list_elem_of_In. split.
  - intros H. exists (capitalize p). split; [exact H|].
    apply capitalize_priority_iff; auto.
  - intros (q & Hq & Hl). apply capitalize_priority_iff in Hl; [|exact Hq].
    rewrite Hl. exact Hq.
Qed.

Lemma order_loop_priority sl coll user srv prio (xs : list PyVal) :
  forall fuel idx k acc posts lg,
  (forall p it, In p posts -> In it p -> oi_priority it = capitalize prio) ->
  let out := order_loop sl coll user srv fuel prio xs idx k acc posts lg in
  (forall p it, In p (o_posts out) -> In it p -> oi_priority it = capitalize prio) /\
  o_result out <> Raise ValueError.
Proof.
  induction fuel as [|fuel IH]; intros idx k acc posts lg Hposts; cbn [order_loop].
  - split; [exact Hposts | discriminate].
  - assert (Hposts' : forall p it,
              In p (posts ++ [chunk_items coll user prio (take EODMS_SUBMIT_HARDLIMIT (drop idx xs))]) ->
              In it p -> oi_priority it = capitalize prio).
    { intros p it Hp Hit. apply in_app_or in Hp as [Hp|[<-|[]]]; [eauto|].
      unfold chunk_items in Hit. apply in_map_iff in Hit as [r [<- _]]. reflexivity. }
    destruct (idx <? length xs)%nat; [|split; [exact Hposts | discriminate]].
    destruct (srv k _).
    + split; [exact Hposts' | discriminate].
    + apply IH; exact Hposts'.
    + apply IH; exact Hposts'.
Qed.

(** C6. A priority that is not, up to letter case, one of Low, Medium, High
    or Urgent makes [order] raise [ValueError] before any POST (and without
    logging anything); a priority that is one of them up to case passes
    validation, and every item of every POST carries the normalised form. *)
Theorem order_priority_validation sl coll user srv (v : PyVal) (prio : string) :
  ((forall q, In q PRIORITIES -> str_lower prio <> str_lower q) ->
     order sl coll user srv v prio = mk_order_out (Raise ValueError) [] []) /\
  (forall q, In q PRIORITIES -> str_lower prio = str_lower q ->
     capitalize prio = q /\
     o_result (order sl coll user srv v prio) <> Raise ValueError /\
     forall p it, In p (o_posts (order sl coll user srv v prio)) -> In it p ->
       oi_priority it = q).
Proof.
  split.
  - intros Hbad. unfold order.
    rewrite bool_decide_eq_false_2; [reflexivity|].
    rewrite capitalize_in_priorities. intros (q & Hq & Hl). exact (Hbad q Hq Hl).
  - intros q Hq Hl.
    assert (Hc : capitalize prio = q) by (apply capitalize_priority_iff; assumption).
    split; [exact Hc|].
    assert (Hin : capitalize prio ∈ PRIORITIES) by (rewrite Hc; apply list_elem_of_In; exact Hq).
    unfold order. rewrite (bool_decide_eq_true_2 _ Hin). cbn [negb].
    destruct (length (wrap_scalar v) <? 1)%nat.
    + split; [discriminate|]. intros p it [].
    + rewrite <- Hc.
      match goal with |- context [order_loop ?a ?b ?c ?d ?e ?f ?g ?h ?i ?j ?k ?l] =>
        destruct (order_loop_priority a b c d f g e h i j k l) as [HA HB] end;
        [intros p it []|]. split; [exact HB | exact HA].
Qed.

Lemma order_priority_validation_witness :
  (forall q, In q PRIORITIES -> str_lower "rush" <> str_lower q) /\
  order py_set_list "RCMImageProducts" "user" (fun _ _ => PostOkJson [1%Z]) (PyList [PyInt 5]) "rush"
    = mk_order_out (Raise ValueError) [] [] /\
  In "Urgent" PRIORITIES /\ str_lower "uRgEnT" = str_lower "Urgent" /\
  capitalize "uRgEnT" = "Urgent".
Proof.
  assert (H1 : forall q, In q PRIORITIES -> str_lower "rush" <> str_lower q).
  { intros q Hq. simpl in Hq. destruct Hq as [<-|[<-|[<-|[<-|[]]]]]; discriminate. }
  assert (H2 : In "Urgent" PRIORITIES) by (simpl; tauto).
  assert (H3 : str_lower "uRgEnT" = str_lower "Urgent") by reflexivity.
  split; [exact H1|]. split.
  { exact (proj1 (order_priority_validation py_set_list "RCMImageProducts" "user"
             (fun _ _ => PostOkJson [1%Z]) (PyList [PyInt 5]) "rush") H1). }
  split; [exact H2|]. split; [exact H3|].
  exact (proj1 (proj2 (order_priority_validation py_set_list "RCMImageProducts" "user"
           (fun _ _ => PostOkJson [1%Z]) (PyList [PyInt 5]) "uRgEnT") "Urgent" H2 H3)).
Defined.

(** C7 (counterexample). With an empty record-id list, an invalid priority
    still raises [ValueError], and a valid one returns Python [None], not an
    empty list. *)
Lemma order_empty_records_cex :
  o_result (order py_set_list "RCMImageProducts" "user" (fun _ _ => PostOkJson []) (PyList []) "rush")
    = Raise ValueError /\
  o_result (order py_set_list "RCMImageProducts" "user" (fun _ _ => PostOkJson []) (PyList []) "Medium")
    = Ok None.
Proof. split; vm_compute; reflexivity. Qed.

(** C7 (amended). For an empty record-id list or tuple and a priority that
    passes validation, [order] logs a warning and returns normally, without
    raising and without any POST; with an invalid priority the validation
    [ValueError] is raised first. *)
Theorem order_empty_records sl coll user srv (v : PyVal) (prio : string) :
  py_seq v = Some [] ->
  (capitalize prio ∈ PRIORITIES ->
     exists r, order sl coll user srv v prio =
       mk_order_out (Ok r) [] [(WARNING, "No records passed to order submission")]) /\
  (~ capitalize prio ∈ PRIORITIES ->
     order sl coll user srv v prio = mk_order_out (Raise ValueError) [] []).
Proof.
  intros Hv. unfold order, wrap_scalar. rewrite Hv. split.
  - intros Hin. rewrite (bool_decide_eq_true_2 _ Hin). cbn. eexists; reflexivity.
  - intros Hout. rewrite (bool_decide_eq_false_2 _ Hout). reflexivity.
Qed.

Lemma order_empty_records_witness :
  py_seq (PyTuple []) = Some [] /\ capitalize "low" ∈ PRIORITIES /\
  exists r, order py_set_list "RCMImageProducts" "user" (fun _ _ => PostOkJson []) (PyTuple []) "low" =
       mk_order_out (Ok r) [] [(WARNING, "No records passed to order submission")].
Proof.
  assert (H1 : py_seq (PyTuple []) = Some []) by reflexivity.
  assert (H2 : capitalize "low" ∈ PRIORITIES) by (vm_compute; left).
  split; [exact H1|]. split; [exact H2|].
  exact (proj1 (order_empty_records py_set_list "RCMImageProducts" "user"
                  (fun _ _ => PostOkJson []) (PyTuple []) "low" H1) H2).
Defined.

(** ** Search pager *)

Lemma with_maxResults_self (u : search_url) : with_maxResults u (su_maxResults u) = u.
Proof. destruct u; reflexivity. Qed.

Lemma with_maxResults_twice (u : search_url) (n m : nat) :
  with_maxResults (with_maxResults u n) m = with_maxResults u m.
Proof. reflexivity. Qed.

(** Every call that has fuel left issues its first GET with the current limit. *)
Lemma submit_search_first_request fuel srv k u :
  fuel <> 0 -> exists rest, fst (submit_search fuel srv k u) = su_maxResults u :: rest.
Proof.
  intros Hf. destruct fuel as [|fuel]; [congruence|]. cbn [submit_search].
  destruct (srv k u) as [| |[] [data|]]; simpl; try (eexists; reflexivity).
  - destruct (submit_search fuel srv (S k) u); eexists; reflexivity.
  - destruct (py_getitem data "totalResults"); [|eexists; reflexivity].
    destruct (json_eq_int _ _); [|eexists; reflexivity].
    destruct (submit_search fuel srv (S k) _); eexists; reflexivity.
Qed.

(** C1. When the reply to a search lists [totalResults] equal to the requested
    limit, the pager's very next GET asks for the limit plus
    [EODMS_DEFAULT_MAXRESULTS] (strictly larger), and the call's outcome is
    that of the re-issued search; when [totalResults] is strictly below the
    limit, the pager issues no further GET and returns the page. *)
Theorem search_requery_on_saturation fuel (srv : search_server) k u data (total : Z) :
  srv k u = SOk false (Some data) ->
  py_getitem data "totalResults" = Ok (JNum total) ->
  (total = Z.of_nat (su_maxResults u) ->
     exists rest,
       submit_search (S (S fuel)) srv k u =
         (su_maxResults u :: (su_maxResults u + EODMS_DEFAULT_MAXRESULTS) :: rest,
          snd (submit_search (S fuel) srv (S k)
                 (with_maxResults u (su_maxResults u + EODMS_DEFAULT_MAXRESULTS)))) /\
       su_maxResults u < su_maxResults u + EODMS_DEFAULT_MAXRESULTS) /\
  ((total < Z.of_nat (su_maxResults u))%Z ->
     submit_search (S fuel) srv k u = ([su_maxResults u], Ok (Some data))).
Proof.
  intros Hs Ht. split.
  - intros ->. remember (S fuel) as f eqn:Hf. cbn [submit_search]. rewrite Hs, Ht.
    cbn [json_eq_int]. rewrite Z.eqb_refl.
    destruct (submit_search_first_request f srv (S k)
                (with_maxResults u (su_maxResults u + EODMS_DEFAULT_MAXRESULTS)))
      as [rest Hrest]; [lia|].
    destruct (submit_search f srv (S k) _) as [t r] eqn:E. simpl in Hrest. subst t.
    exists rest. split; [reflexivity|]. unfold EODMS_DEFAULT_MAXRESULTS. lia.
  - intros Hlt. cbn [submit_search]. rewrite Hs, Ht. cbn [json_eq_int].
    destruct (Z.eqb_spec total (Z.of_nat (su_maxResults u))); [lia|]. reflexivity.
Qed.

Lemma search_requery_on_saturation_witness :
  let srv : search_server := fun _ u =>
    if (su_maxResults u =? 150)%nat
    then SOk false (Some (JObj [("totalResults", JNum 150)]))
    else SOk false (Some (JObj [("totalResults", JNum 87)])) in
  let u := mk_search_url "RCMImageProducts" "q" 150 in
  srv 0 u = SOk false (Some (JObj [("totalResults", JNum 150)])) /\
  py_getitem (JObj [("totalResults", JNum 150)]) "totalResults" = Ok (JNum 150) /\
  exists rest,
    submit_search 3 srv 0 u =
      (150 :: 1150 :: rest,
       snd (submit_search 2 srv 1 (with_maxResults u (150 + EODMS_DEFAULT_MAXRESULTS)))) /\
    150 < 150 + EODMS_DEFAULT_MAXRESULTS.
Proof.
  intros srv u.
  assert (H1 : srv 0 u = SOk false (Some (JObj [("totalResults", JNum 150)]))) by reflexivity.
  assert (H2 : py_getitem (JObj [("totalResults", JNum 150)]) "totalResults" = Ok (JNum 150))
    by reflexivity.
  split; [exact H1|]. split; [exact H2|].
  exact (proj1 (search_requery_on_saturation 1 srv 0 u _ 150 H1 H2) eq_refl).
Defined.

(** C9. Between two consecutive GETs of one search the [maxResults] limit
    never decreases, and whenever the first of the two was not answered by a
    [ConnectionError] (so the second is a pagination retry) the limit grows
    strictly, by [EODMS_DEFAULT_MAXRESULTS]. *)
Theorem search_limit_strictly_increases fuel (srv : search_server) k u :
  forall i a b,
  fst (submit_search fuel srv k u) !! i = Some a ->
  fst (submit_search fuel srv k u) !! S i = Some b ->
  a <= b /\
  (srv (k + i) (with_maxResults u a) <> SConnectionError ->
   a < b /\ b = a + EODMS_DEFAULT_MAXRESULTS).
Proof.
  revert k u. induction fuel as [|fuel IH]; intros k u i a b Ha Hb; [discriminate|].
  cbn [submit_search] in Ha, Hb.
  destruct (srv k u) as [| |[] [data|]] eqn:Hs; try (destruct i; discriminate).
  - destruct (submit_search fuel srv (S k) u) as [t r] eqn:E. simpl in Ha, Hb.
    destruct i as [|i].
    + injection Ha as <-.
      destruct fuel as [|fuel']; [simpl in E; injection E as <- _; discriminate|].
      destruct (submit_search_first_request (S fuel') srv (S k) u) as [rest Hr]; [lia|].
      rewrite E in Hr. simpl in Hr. subst t. injection Hb as <-.
      split; [lia|]. rewrite Nat.add_0_r, with_maxResults_self, Hs. congruence.
    + destruct (IH (S k) u i a b) as [H1 H2]; [rewrite E; exact Ha | rewrite E; exact Hb|].
      split; [exact H1|]. replace (k + S i) with (S k + i) by lia. exact H2.
  - destruct (py_getitem data "totalResults") as [total|e]; [|destruct i; discriminate].
    destruct (json_eq_int total _); [|destruct i; discriminate].
    destruct (submit_search fuel srv (S k) (with_maxResults u (su_maxResults u + EODMS_DEFAULT_MAXRESULTS)))
      as [t r] eqn:E. simpl in Ha, Hb.
    destruct i as [|i].
    + injection Ha as <-.
      destruct fuel as [|fuel']; [simpl in E; injection E as <- _; discriminate|].
      destruct (submit_search_first_request (S fuel') srv (S k)
                  (with_maxResults u (su_maxResults u + EODMS_DEFAULT_MAXRESULTS))) as [rest Hr]; [lia|].
      rewrite E in Hr. simpl in Hr. subst t. injection Hb as <-.
      unfold EODMS_DEFAULT_MAXRESULTS. lia.
    + destruct (IH (S k) (with_maxResults u (su_maxResults u + EODMS_DEFAULT_MAXRESULTS)) i a b)
        as [H1 H2]; [rewrite E; exact Ha | rewrite E; exact Hb|].
      split; [exact H1|]. replace (k + S i) with (S k + i) by lia.
      rewrite with_maxResults_twice in H2. exact H2.
Qed.

Lemma search_limit_strictly_increases_witness :
  let srv : search_server := fun _ u =>
    if (su_maxResults u =? 150)%nat
    then SOk false (Some (JObj [("totalResults", JNum 150)]))
    else SOk false (Some (JObj [("totalResults", JNum 87)])) in
  let u := mk_search_url "RCMImageProducts" "q" 150 in
  fst (submit_search 5 srv 0 u) !! 0 = Some 150 /\
  fst (submit_search 5 srv 0 u) !! 1 = Some 1150 /\
  150 <= 1150 /\
  (srv 0 (with_maxResults u 150) <> SConnectionError -> 150 < 1150 /\ 1150 = 150 + EODMS_DEFAULT_MAXRESULTS).
Proof.
  intros srv u.
  assert (H1 : fst (submit_search 5 srv 0 u) !! 0 = Some 150) by reflexivity.
  assert (H2 : fst (submit_search 5 srv 0 u) !! 1 = Some 1150) by reflexivity.
  split; [exact H1|]. split; [exact H2|].
  exact (search_limit_strictly_increases 5 srv 0 u 0 150 1150 H1 H2).
Defined.

(** ** Metadata enricher *)

Section Pool.
Context {A : Type} (f : json -> res A) (urls : list json).

Lemma pool_run_other (sched : list nat) : forall slots i,
  ~ In i sched -> pool_run f urls sched slots !! i = slots !! i.
Proof.
  induction sched as [|j r IH]; intros slots i Hi; [reflexivity|]. simpl.
  rewrite IH by (intros H; apply Hi; right; exact H).
  destruct (urls !! j); [|reflexivity].
  rewrite lookup_insert_ne; [reflexivity|]. intros ->. apply Hi. left. reflexivity.
Qed.

Lemma pool_run_done (sched : list nat) : forall slots i u,
  urls !! i = Some u -> In i sched -> pool_run f urls sched slots !! i = Some (f u).
Proof.
  induction sched as [|j r IH]; intros slots i u Hu Hi; [destruct Hi|]. simpl.
  destruct (in_dec Nat.eq_dec i r) as [Hr|Hr]; [apply IH; assumption|].
  destruct Hi as [<-|Hi]; [|contradiction].
  rewrite pool_run_other by exact Hr. rewrite Hu. apply lookup_insert_eq.
Qed.

Lemma pool_collect_done (slots : gmap nat (res A)) : forall (l : list json) j,
  (forall i x, l !! i = Some x -> slots !! (j + i) = Some (f x)) ->
  pool_collect slots (seq j (length l)) = Some (res_mapM f l).
Proof.
  induction l as [|x l IH]; intros j Hl; [reflexivity|]. simpl.
  assert (H0 : slots !! j = Some (f x)) by (rewrite <- (Nat.add_0_r j); apply Hl; reflexivity).
  rewrite H0.
  destruct (f x) as [a|e]; [|reflexivity]. simpl.
  rewrite (IH (S j)).
  - unfold mbind, res_mbind. simpl. destruct (res_mapM f l); reflexivity.
  - intros i y Hy. replace (S j + i) with (j + S i) by lia. apply Hl. exact Hy.
Qed.
End Pool.

Lemma res_mapM_ok_iff {A B} (f : A -> res B) (l : list A) :
  (exists ys, res_mapM f l = Ok ys) <-> Forall (fun x => is_ok (f x) = true) l.
Proof.
  induction l as [|x l IH]; simpl.
  - split; [constructor | eexists; reflexivity].
  - rewrite Forall_cons. unfold mbind, res_mbind, res_bind.
    destruct (f x) as [y|e]; simpl.
    + rewrite <- IH. split.
      * intros [ys Hys]. split; [reflexivity|]. destruct (res_mapM f l); [eexists; reflexivity|discriminate].
      * intros [_ [ys Hys]]. rewrite Hys. eexists; reflexivity.
    + split; [intros [? H]; discriminate | intros [H _]; discriminate].
Qed.

Lemma res_mapM_aligned {A B} (f : A -> res B) (l : list A) : forall rs,
  res_mapM f l = Ok rs ->
  length rs = length l /\ forall i x, l !! i = Some x -> exists r, rs !! i = Some r /\ f x = Ok r.
Proof.
  induction l as [|x l IH]; intros rs H; simpl in H.
  - injection H as <-. split; [reflexivity|]. intros i y Hy. rewrite lookup_nil in Hy. discriminate.
  - unfold mbind, res_mbind, res_bind in H.
    destruct (f x) as [y|e] eqn:Hx; [|discriminate].
    destruct (res_mapM f l) as [ys|e] eqn:Hl; [|discriminate].
    injection H as <-. destruct (IH ys eq_refl) as [Hlen Hal].
    split; [simpl; lia|]. intros [|i] z Hz; simpl in Hz.
    + injection Hz as <-. exists y. split; [reflexivity|exact Hx].
    + apply Hal. exact Hz.
Qed.

(** Whatever the completion order of the pool, [_fetch_metadata] on a
    non-empty result list gives the per-URL fetches in input order. *)
Lemma fetch_metadata_eq collection transform srv qr fields crs (sched : list nat) urls :
  meta_urls_of qr = Ok urls -> urls <> [] -> Permutation sched (seq 0 (length urls)) ->
  fetch_metadata collection transform srv qr fields crs sched =
  Some (res_map Rows (res_mapM (fun u => fetch_single_record_metadata collection transform srv
                                              u fields crs) urls)).
Proof.
  intros Hurls Hne Hperm. unfold fetch_metadata.
  assert (Hrec : exists records, (rs ← py_getitem qr "results"; py_iter rs) = Ok records /\ records <> []).
  { unfold meta_urls_of in Hurls. unfold mbind, res_mbind, res_bind in *.
    destruct (py_getitem qr "results") as [rs|e]; [|discriminate].
    destruct (py_iter rs) as [records|e]; [|discriminate].
    exists records. split; [reflexivity|]. intros ->. simpl in Hurls. injection Hurls as <-. congruence. }
  destruct Hrec as [records [-> Hne']].
  destruct records as [|r0 records]; [congruence|].
  rewrite Hurls.
  rewrite (pool_collect_done (fun u => fetch_single_record_metadata collection transform srv u fields crs) _ urls).
  { destruct (res_mapM _ urls); reflexivity. }
  intros i x Hx. simpl.
  apply (pool_run_done (fun u => fetch_single_record_metadata collection transform srv u fields crs)
           urls sched ∅ i x Hx).
  apply (Permutation_in i (Permutation_sym Hperm)). apply in_seq.
  apply lookup_lt_Some in Hx. lia.
Qed.

(** C5. For a non-empty result list and every completion order of the worker
    pool (any permutation of the task indices), the records handed on have
    exactly one entry per detail URL, and the entry at index [i] is the
    metadata fetched from the [i]-th URL. *)
Theorem fetch_metadata_index_aligned collection transform srv qr fields crs
    (sched : list nat) urls :
  meta_urls_of qr = Ok urls -> urls <> [] -> Permutation sched (seq 0 (length urls)) ->
  forall rs, fetch_metadata collection transform srv qr fields crs sched = Some (Ok (Rows rs)) ->
  length rs = length urls /\
  forall i u, urls !! i = Some u ->
    exists r, rs !! i = Some r /\
              fetch_single_record_metadata collection transform srv u fields crs = Ok r.
Proof.
  intros Hurls Hne Hperm rs Hrs.
  rewrite (fetch_metadata_eq collection transform srv qr fields crs sched urls Hurls Hne Hperm) in Hrs.
  destruct (res_mapM _ urls) as [ys|e] eqn:Hm; simpl in Hrs; [|discriminate].
  injection Hrs as <-. exact (res_mapM_aligned _ _ _ Hm).
Qed.

Lemma fetch_metadata_index_aligned_witness :
  let srv := fun u => if String.eqb u "u1"
                      then DOk (Some (JObj [("recordId", JNum 7); ("thumbnailUrl", JStr "t");
                                             ("geometry", JStr "g")]))
                      else DNotOk in
  let qr := JObj [("results", JArr [JObj [("thisRecordUrl", JStr "u1")];
                                     JObj [("thisRecordUrl", JStr "u2")]])] in
  let rs := [[("recordId", JNum 7); ("thumbnailUrl", JStr "t"); ("geometry", JStr "g")]; []] in
  meta_urls_of qr = Ok [JStr "u1"; JStr "u2"] /\
  Permutation [1; 0] (seq 0 (length [JStr "u1"; JStr "u2"])) /\
  fetch_metadata "Radarsat2" (fun g _ => Ok g) srv qr ["recordId"] None [1; 0] = Some (Ok (Rows rs)) /\
  length rs = 2 /\
  forall i u, [JStr "u1"; JStr "u2"] !! i = Some u ->
    exists r, rs !! i = Some r /\
      fetch_single_record_metadata "Radarsat2" (fun g _ => Ok g) srv u ["recordId"] None = Ok r.
Proof.
  intros srv qr rs.
  assert (H1 : meta_urls_of qr = Ok [JStr "u1"; JStr "u2"]) by reflexivity.
  assert (H2 : [JStr "u1"; JStr "u2"] <> []) by discriminate.
  assert (H3 : Permutation [1; 0] (seq 0 (length [JStr "u1"; JStr "u2"]))) by apply perm_swap.
  assert (H4 : fetch_metadata "Radarsat2" (fun g _ => Ok g) srv qr ["recordId"] None [1; 0]
               = Some (Ok (Rows rs))) by (vm_compute; reflexivity).
  split; [exact H1|]. split; [exact H3|]. split; [exact H4|].
  exact (fetch_metadata_index_aligned "Radarsat2" (fun g _ => Ok g) srv qr ["recordId"] None
           [1; 0] _ H1 H2 H3 rs H4).
Defined.

Lemma is_ok_bind_raise {A B} (m : res A) (k : A -> res B) :
  is_ok m = false -> is_ok (m ≫= k) = false.
Proof. destruct m; [discriminate | reflexivity]. Qed.

Lemma is_ok_bind_cont {A B} (m : res A) (k : A -> res B) :
  (forall x, is_ok (k x) = false) -> is_ok (m ≫= k) = false.
Proof. intros Hk. destruct m; [apply Hk | reflexivity]. Qed.

(** Walks a chain of binds in which the step [H] speaks of cannot succeed. *)
Ltac chain_fails_at H :=
  repeat first [ apply is_ok_bind_raise; exact H
               | apply is_ok_bind_cont; intros ?; cbv beta ].

(** A requested field whose lookup raises makes the [for k in keys] loop raise. *)
Lemma set_fields_fails response keys md k :
  In k keys -> is_ok (lookup_field response k) = false -> is_ok (set_fields response keys md) = false.
Proof.
  revert md. induction keys as [|k' ks IH]; intros md Hin Hk; [destruct Hin|].
  cbn [set_fields]. destruct Hin as [<-|Hin].
  - apply is_ok_bind_raise. exact Hk.
  - apply is_ok_bind_cont. intros v. apply IH; assumption.
Qed.

(** A field absent from the top level of the body, and absent from its
    ['metadata'] list (or with no such list), cannot be looked up. *)
Lemma lookup_field_missing kvs k :
  assoc_last k kvs = None ->
  (assoc_last "metadata" kvs = None \/
   exists fs, assoc_last "metadata" kvs = Some (JArr fs) /\
     Forall (fun f => exists f0 rest, f = JArr (f0 :: rest) /\ json_eq_str f0 k = false) fs) ->
  is_ok (lookup_field (JObj kvs) k) = false.
Proof.
  intros Hk Hm. unfold lookup_field, py_getitem. rewrite Hk.
  destruct Hm as [Hm | (fs & Hm & Hf)]; rewrite Hm; [reflexivity|].
  assert (Hc : comprehension (first_is k) (fun f => py_index f 1) fs = Ok []).
  { clear Hm. induction Hf as [|f fs (f0 & rest & -> & Hf0) _ IH]; [reflexivity|].
    simpl. rewrite Hf0. exact IH. }
  simpl. rewrite Hc. reflexivity.
Qed.

(** A 2xx body lacking ['thumbnailUrl'] or ['geometry'] makes the per-hit
    fetch raise. *)
Lemma fetch_single_missing collection transform srv u fields crs kvs k :
  srv u = DOk (Some (JObj kvs)) -> assoc_last k kvs = None -> k = "thumbnailUrl" \/ k = "geometry" ->
  is_ok (fetch_single_record_metadata collection transform srv (JStr u) fields crs) = false.
Proof.
  intros Hu Hk Hkk. unfold fetch_single_record_metadata. rewrite Hu.
  assert (H : is_ok (py_getitem (JObj kvs) k) = false) by (unfold py_getitem; rewrite Hk; reflexivity).
  destruct Hkk as [<-|<-]; chain_fails_at H.
Qed.

(** C8 (counterexample). Two hits: the first detail GET is not successful
    (an empty record), the second succeeds but lacks the requested field both
    at top level and in its ['metadata'] list.  The [IndexError] of the second
    aborts the whole batch: no record is produced for either hit. *)
Lemma enrich_missing_field_aborts_batch :
  let srv := fun u => if String.eqb u "u1" then DNotOk
                      else DOk (Some (JObj [("metadata", JArr []); ("thumbnailUrl", JStr "t");
                                             ("geometry", JStr "g")])) in
  let qr := JObj [("results", JArr [JObj [("thisRecordUrl", JStr "u1")];
                                     JObj [("thisRecordUrl", JStr "u2")]])] in
  fetch_single_record_metadata "Radarsat2" (fun g _ => Ok g) srv (JStr "u1") ["Title"] None = Ok [] /\
  fetch_metadata "Radarsat2" (fun g _ => Ok g) srv qr ["Title"] None [0; 1] = Some (Raise IndexError) /\
  fetch_metadata "Radarsat2" (fun g _ => Ok g) srv qr ["Title"] None [1; 0] = Some (Raise IndexError).
Proof. split; [|split]; vm_compute; reflexivity. Qed.

(** C8 (amended). A detail GET answered with a non-2xx status yields an empty
    record for that hit.  The batch yields records exactly when every
    per-hit fetch returns, and any per-hit exception propagates and aborts
    the batch.  Each of these makes the per-hit fetch raise: a transport
    error or timeout, a body that is not JSON, a 2xx body lacking a requested
    field at top level and in its ['metadata'] list (or having no such list),
    and a 2xx body lacking ['thumbnailUrl'] or ['geometry']. *)
Theorem enrich_failure_semantics collection transform srv qr fields crs
    (sched : list nat) urls :
  meta_urls_of qr = Ok urls -> urls <> [] -> Permutation sched (seq 0 (length urls)) ->
  (forall u, srv u = DNotOk ->
     fetch_single_record_metadata collection transform srv (JStr u) fields crs = Ok []) /\
  ((exists rs, fetch_metadata collection transform srv qr fields crs sched = Some (Ok (Rows rs))) <->
   Forall (fun u => is_ok (fetch_single_record_metadata collection transform srv u fields crs) = true)
          urls) /\
  ((exists u, In u urls /\
     is_ok (fetch_single_record_metadata collection transform srv u fields crs) = false) ->
   exists e, fetch_metadata collection transform srv qr fields crs sched = Some (Raise e)) /\
  (forall u e, srv u = DRaise e ->
     fetch_single_record_metadata collection transform srv (JStr u) fields crs = Raise e) /\
  (forall u, srv u = DOk None ->
     fetch_single_record_metadata collection transform srv (JStr u) fields crs = Raise JSONDecodeError) /\
  (forall u kvs k, srv u = DOk (Some (JObj kvs)) -> In k fields -> assoc_last k kvs = None ->
     (assoc_last "metadata" kvs = None \/
      exists fs, assoc_last "metadata" kvs = Some (JArr fs) /\
        Forall (fun f => exists f0 rest, f = JArr (f0 :: rest) /\ json_eq_str f0 k = false) fs) ->
     is_ok (fetch_single_record_metadata collection transform srv (JStr u) fields crs) = false) /\
  (forall u kvs, srv u = DOk (Some (JObj kvs)) ->
     assoc_last "thumbnailUrl" kvs = None \/ assoc_last "geometry" kvs = None ->
     is_ok (fetch_single_record_metadata collection transform srv (JStr u) fields crs) = false) /\
  (forall u kvs k ks, srv u = DOk (Some (JObj kvs)) -> fields = k :: ks ->
     assoc_last k kvs = None -> assoc_last "metadata" kvs = Some (JArr []) ->
     fetch_single_record_metadata collection transform srv (JStr u) fields crs = Raise IndexError).
Proof.
  intros Hurls Hne Hperm.
  pose proof (fetch_metadata_eq collection transform srv qr fields crs sched urls Hurls Hne Hperm) as Heq.
  split; [|split; [|split]].
  - intros u Hu. simpl. rewrite Hu. reflexivity.
  - rewrite Heq, <- res_mapM_ok_iff. split.
    + intros [rs Hrs]. destruct (res_mapM _ urls) as [ys|e]; simpl in Hrs; [|discriminate].
      eexists; reflexivity.
    + intros [ys Hys]. rewrite Hys. eexists; reflexivity.
  - intros [u [Hin Hu]]. rewrite Heq.
    destruct (res_mapM _ urls) as [ys|e] eqn:Hm; [|eexists; reflexivity].
    exfalso. assert (Hall : exists ys, res_mapM (fun u => fetch_single_record_metadata collection
                              transform srv u fields crs) urls = Ok ys) by (eexists; exact Hm).
    apply res_mapM_ok_iff in Hall. rewrite Forall_forall in Hall.
    rewrite (Hall u) in Hu; [discriminate|]. apply list_elem_of_In. exact Hin.
  - split; [intros u e Hu; simpl; rewrite Hu; reflexivity|].
    split; [intros u Hu; simpl; rewrite Hu; reflexivity|].
    split; [|split].
    + intros u kvs k Hu Hin Hk Hm. unfold fetch_single_record_metadata. rewrite Hu.
      apply is_ok_bind_raise. apply (set_fields_fails _ _ _ k Hin).
      apply lookup_field_missing; assumption.
    + intros u kvs Hu [Hk|Hk].
      * exact (fetch_single_missing collection transform srv u fields crs kvs _ Hu Hk (or_introl eq_refl)).
      * exact (fetch_single_missing collection transform srv u fields crs kvs _ Hu Hk (or_intror eq_refl)).
    + intros u kvs k ks Hu -> Hk Hm. simpl. rewrite Hu. simpl.
      unfold lookup_field, py_getitem. rewrite Hk, Hm. reflexivity.
Qed.

Lemma enrich_failure_semantics_witness :
  let srv := fun u => if String.eqb u "u1" then DNotOk
                      else DOk (Some (JObj [("metadata", JArr []); ("thumbnailUrl", JStr "t");
                                             ("geometry", JStr "g")])) in
  let qr := JObj [("results", JArr [JObj [("thisRecordUrl", JStr "u1")];
                                     JObj [("thisRecordUrl", JStr "u2")]])] in
  meta_urls_of qr = Ok [JStr "u1"; JStr "u2"] /\
  Permutation [1; 0] (seq 0 (length [JStr "u1"; JStr "u2"])) /\
  exists e, fetch_metadata "Radarsat2" (fun g _ => Ok g) srv qr ["Title"] None [1; 0] = Some (Raise e).
Proof.
  intros srv qr.
  assert (H1 : meta_urls_of qr = Ok [JStr "u1"; JStr "u2"]) by reflexivity.
  assert (H2 : [JStr "u1"; JStr "u2"] <> []) by discriminate.
  assert (H3 : Permutation [1; 0] (seq 0 (length [JStr "u1"; JStr "u2"]))) by apply perm_swap.
  split; [exact H1|]. split; [exact H3|].
  apply (proj1 (proj2 (proj2 (enrich_failure_semantics "Radarsat2" (fun g _ => Ok g) srv qr
           ["Title"] None [1; 0] _ H1 H2 H3)))).
  exists (JStr "u2"). split; [right; left; reflexivity | vm_compute; reflexivity].
Defined.

(** ** Download orchestrator *)

(** Running [_download_items] over [pre ++ x :: post] runs the prefix, then
    the iteration for [x], then the rest, stopping at the first exception. *)
Lemma download_items_app file_srv rs_pre ls_pre r rs l ls st :
  length rs_pre = length ls_pre ->
  download_items file_srv (rs_pre ++ r :: rs) (ls_pre ++ l :: ls) st =
  match download_items file_srv rs_pre ls_pre st with
  | (Ok _, st1) =>
      match download_item file_srv r l st1 with
      | (Ok _, st2) => download_items file_srv rs ls st2
      | (Raise e, st2) => (Raise e, st2)
      end
  | (Raise e, st1) => (Raise e, st1)
  end.
Proof.
  revert ls_pre st. induction rs_pre as [|r0 rs_pre IH]; intros [|l0 ls_pre] st Hlen;
    simpl in Hlen; try discriminate.
  - simpl. destruct (download_item file_srv r l st) as [[]]; reflexivity.
  - cbn [app download_items].
    destruct (download_item file_srv r0 l0 st) as [[u|e] st'].
    + apply IH. lia.
    + reflexivity.
Qed.

Lemma filter_all_length {A} (P : A -> Prop) `{forall x, Decision (P x)} (l : list A) :
  Forall P l -> length (filter P l) = length l.
Proof.
  induction 1 as [|x l Hx _ IH]; [reflexivity|].
  rewrite filter_cons_True by exact Hx. simpl. rewrite IH. reflexivity.
Qed.

Lemma res_mapM_elem {A B} (f : A -> res B) l ys y :
  res_mapM f l = Ok ys -> y ∈ ys -> exists x, x ∈ l /\ f x = Ok y.
Proof.
  revert ys. induction l as [|x l IH]; intros ys H Hy; cbn in H.
  - injection H as <-. apply elem_of_nil in Hy. contradiction.
  - destruct (f x) as [y'|e] eqn:Ef; [|discriminate]. cbn in H.
    destruct (res_mapM f l) as [ys'|e] eqn:Er; [|discriminate].
    injection H as <-. apply elem_of_cons in Hy as [->|Hy].
    + exists x. split; [left | exact Ef].
    + destruct (IH ys' eq_refl Hy) as (x' & Hx' & Hf). exists x'. split; [right; exact Hx' | exact Hf].
Qed.

(** The status-polling loop touches no local file, issues only status GETs,
    and collects items that come from the accumulator or from a 2xx reply. *)
Lemma poll_status_frame status_srv order_ids todo acc st r st' :
  poll_status status_srv order_ids todo acc st = (r, st') ->
  st_fs st' = st_fs st /\ (exists zs, st_reqs st' = st_reqs st ++ map GetStatus zs) /\
  (forall items it, r = Ok (Some items) -> it ∈ items ->
     it ∈ acc \/ exists z its, status_srv z = StOk false (Some its) /\ it ∈ its).
Proof.
  revert acc st. induction todo as [|z todo IH]; intros acc st H; cbn [poll_status] in H.
  - injection H as <- <-. split; [reflexivity|]. split; [exists []; rewrite app_nil_r; reflexivity|].
    intros items it [= <-] Hit. left. exact Hit.
  - destruct (status_srv z) as [|[] [its|]] eqn:Ez.
    + apply IH in H as (F & [zs R] & I). cbn in F, R. split; [exact F|]. split.
      * exists (z :: zs). rewrite R, <- app_assoc. reflexivity.
      * exact I.
    + injection H as <- <-. split; [reflexivity|]. split; [exists [z]; reflexivity|]. intros ? ? [=].
    + injection H as <- <-. split; [reflexivity|]. split; [exists [z]; reflexivity|]. intros ? ? [=].
    + apply IH in H as (F & [zs R] & I). cbn in F, R. split; [exact F|]. split.
      * exists (z :: zs). rewrite R, <- app_assoc. reflexivity.
      * intros items it Hr Hit. destruct (I items it Hr Hit) as [Ha|Hs]; [|right; exact Hs].
        apply elem_of_app in Ha as [Ha|Ha]; [left; exact Ha|].
        apply list_elem_of_filter in Ha as [_ Ha]. right. exists z, its. split; [exact Ez | exact Ha].
    + injection H as <- <-. split; [reflexivity|]. split; [exists [z]; reflexivity|]. intros ? ? [=].
Qed.

(** C3. Consider one item [(remote, expected)] of [_download_items], with
    target [local], reached after the earlier items returned normally in
    state [st1].  If [local] exists with the expected size, the iteration
    issues no request and leaves the files as they are: the run goes on with
    the next item.  If [local] exists with another size, the iteration issues
    exactly one GET, for [remote], after the file has been deleted: the local
    files become the old ones without [local], plus [local] again when the
    stream was written; the run then goes on, or raises at that state.
    A zip reply recreates [local] at once (empty, and filled only when the
    reply has a [content-length]); a reply of another type leaves it deleted.
    Finally, when every ready item the status server can return has its
    target present locally, [download] never reaches [_download_items]: it
    issues only status GETs and leaves the local files unchanged, whatever
    their sizes. *)
Theorem download_items_skip_or_refetch file_srv pre_r pre_l remote expected local
    post_r post_l st st1 :
  length pre_r = length pre_l ->
  download_items file_srv pre_r pre_l st = (Ok tt, st1) ->
  let run := download_items file_srv (pre_r ++ (remote, expected) :: post_r)
                                     (pre_l ++ local :: post_l) st in
  (st_fs st1 !! local = Some expected ->
   exists st2, st_reqs st2 = st_reqs st1 /\ st_fs st2 = st_fs st1 /\
               run = download_items file_srv post_r post_l st2) /\
  (forall size, st_fs st1 !! local = Some size -> size <> expected ->
   exists st2, st_reqs st2 = st_reqs st1 ++ [GetFile remote] /\
               (st_fs st2 = delete local (st_fs st1) \/
                exists n, st_fs st2 = <[local := n]> (delete local (st_fs st1))) /\
               (run = download_items file_srv post_r post_l st2 \/
                exists e, run = (Raise e, st2))) /\
  (forall status_srv order_ids out st0 r st',
     (forall z its it u n, status_srv z = StOk false (Some its) -> it ∈ its ->
        it_status it = "AVAILABLE_FOR_DOWNLOAD" -> extract_download_metadata it = Ok (u, n) ->
        is_Some (st_fs st0 !! path_join out (basename u))) ->
     download status_srv file_srv order_ids out st0 = (r, st') ->
     st_fs st' = st_fs st0 /\ exists zs, st_reqs st' = st_reqs st0 ++ map GetStatus zs).
Proof.
  intros Hlen Hpre run. split; [|split]; cycle 2.
  { intros status_srv order_ids out st0 r st' Hall Hd. unfold download in Hd.
    destruct (_ <? 1)%nat.
    { injection Hd as _ <-. split; [reflexivity|]. exists []. rewrite app_nil_r. reflexivity. }
    destruct (res_mapM py_int _) as [su|e].
    2:{ injection Hd as _ <-. split; [reflexivity|]. exists []. rewrite app_nil_r. reflexivity. }
    destruct (poll_status _ _ _ _ _) as [[[items|]|e] stp] eqn:Ep;
      destruct (poll_status_frame _ _ _ _ _ _ _ Ep) as (F & [zs R] & I); cbn in F, R.
    2, 3: injection Hd as _ <-; split; [exact F | exists zs; exact R].
    destruct (res_mapM extract_download_metadata _) as [av|e] eqn:Ea.
    2:{ injection Hd as _ <-. split; [exact F | exists zs; exact R]. }
    rewrite filter_all_length, length_map, Nat.ltb_irrefl in Hd.
    { injection Hd as _ <-. split; [exact F | exists zs; exact R]. }
    rewrite Forall_map, Forall_forall. intros [u n] Hf.
    destruct (res_mapM_elem _ _ _ _ Ea Hf) as (it & Hit & Hex).
    apply list_elem_of_filter in Hit as [Hst Hit].
    destruct (String.eqb_spec (it_status it) "AVAILABLE_FOR_DOWNLOAD") as [Hs|];
      [|exact (False_rect _ Hst)].
    destruct (I items it eq_refl Hit) as [Hn | (z & its & Hz & Hits)];
      [apply elem_of_nil in Hn; contradiction|].
    apply bool_decide_pack. cbn. rewrite F. exact (Hall z its it u n Hz Hits Hs Hex). }
  all: subst run.
  all: rewrite (download_items_app file_srv pre_r pre_l _ post_r local post_l st Hlen), Hpre.
  - intros Hl. cbn [download_item]. rewrite Hl, N.eqb_refl.
    exists (st_log_add [(DEBUG, "Local file exists: %s")] st1).
    split; [|split]; reflexivity.
  - intros size Hl Hne. cbn [download_item]. rewrite Hl.
    destruct (N.eqb_spec size expected) as [|_]; [contradiction|].
    destruct (negb (String.eqb (fr_content_type (file_srv remote)) "application/zip")).
    + match goal with |- context [download_items file_srv post_r post_l ?s] => exists s end.
      split; [|split]; [reflexivity | left; reflexivity | left; reflexivity].
    + destruct (fr_content_length (file_srv remote)).
      * match goal with |- context [download_items file_srv post_r post_l ?s] => exists s end.
        split; [|split];
          [reflexivity | right; eexists; reflexivity | left; reflexivity].
      * match goal with |- context [(Raise KeyError, ?s) = _] => exists s end.
        split; [|split];
          [reflexivity | right; eexists; reflexivity | right; eexists; reflexivity].
Qed.

Lemma download_items_skip_or_refetch_witness :
  let fsrv := fun _ : string => mk_file_reply "application/zip" (Some 5%N) 5%N in
  let st := mk_dl_state {["./a.zip" := 5%N; "./b.zip" := 3%N]} [] [] in
  download_items fsrv [] [] st = (Ok tt, st) /\
  exists st2, st_reqs st2 = [GetFile "https://d.example/h/b.zip"] /\
    download_items fsrv [("https://d.example/h/b.zip", 5%N)] ["./b.zip"] st =
    download_items fsrv [] [] st2.
Proof.
  intros fsrv st.
  assert (Hpre : download_items fsrv [] [] st = (Ok tt, st)) by reflexivity.
  split; [exact Hpre|].
  destruct (proj1 (proj2 (download_items_skip_or_refetch fsrv [] [] "https://d.example/h/b.zip" 5%N
              "./b.zip" [] [] st st eq_refl Hpre)) 3%N eq_refl ltac:(discriminate))
    as (st2 & Hreq & _ & Hrun).
  exists st2. split; [exact Hreq|].
  destruct Hrun as [Hrun | [e Hrun]]; [exact Hrun|].
  vm_compute in Hrun. discriminate.
Defined.

(** C3 (counterexample). Every target already exists, one of them with the
    wrong size (3 bytes against 5 in the manifest): [download] issues only
    the status GET, leaves the file as it is and does not fetch it again. *)
Lemma download_mismatch_not_refetched :
  let item := mk_status_item 1 10 "AVAILABLE_FOR_DOWNLOAD"
                "<a href=x>https://d.example/abc123/file.zip</a>" [("abc123/file.zip", 5%N)] in
  let out := download (fun _ => StOk false (Some [item]))
                      (fun _ => mk_file_reply "application/zip" (Some 5%N) 5%N)
                      (PyList [PyInt 1]) "." (mk_dl_state {["./file.zip" := 3%N]} [] []) in
  st_reqs out.2 = [GetStatus 1] /\ st_fs out.2 !! "./file.zip" = Some 3%N.
Proof. split; vm_compute; reflexivity. Qed.

(** C4 (code bug). One order whose single item is ready and whose target
    ["./file.zip"] already exists with the manifest size: [download] takes
    its "nothing to do" branch, which assigns [local_files] and then returns
    with a bare [return], so the call gives [None] and not [["./file.zip"]]. *)
Theorem download_all_present_returns_none :
  let item := mk_status_item 1 10 "AVAILABLE_FOR_DOWNLOAD"
                "<a href=x>https://d.example/abc123/file.zip&file=file.zip</a>"
                [("abc123/file.zip", 5%N)] in
  let out := download (fun _ => StOk false (Some [item]))
                      (fun _ => mk_file_reply "application/zip" (Some 5%N) 5%N)
                      (PyList [PyInt 1]) "." (mk_dl_state {["./file.zip" := 5%N]} [] []) in
  extract_download_metadata item = Ok ("https://d.example/abc123/file.zip", 5%N) /\
  st_fs out.2 !! "./file.zip" = Some 5%N /\
  out.1 = Ok None /\ out.1 <> Ok (Some ["./file.zip"]).
Proof. split; [|split; [|split]]; vm_compute; [reflexivity | reflexivity | reflexivity | discriminate]. Qed.

(** C10. A record-id (order-id) argument that is neither a list nor a tuple
    is wrapped into a one-element list: [order] and [download] on a scalar
    behave as on the one-element list holding it. *)
Theorem scalar_ids_wrapped (v : PyVal) :
  py_seq v = None ->
  (forall sl coll user srv prio,
     order sl coll user srv v prio = order sl coll user srv (PyList [v]) prio) /\
  (forall status_srv file_srv out st,
     download status_srv file_srv v out st = download status_srv file_srv (PyList [v]) out st).
Proof.
  intros Hv. split.
  - intros. unfold order. cbn [wrap_scalar py_seq]. unfold wrap_scalar. rewrite Hv. reflexivity.
  - intros. unfold download. cbn [wrap_scalar py_seq]. unfold wrap_scalar. rewrite Hv. reflexivity.
Qed.

Lemma scalar_ids_wrapped_witness :
  py_seq (PyInt 1) = None /\
  download (fun _ => StNotOk) (fun _ => mk_file_reply "application/zip" None 0%N)
           (PyInt 1) "." (mk_dl_state ∅ [] []) =
  download (fun _ => StNotOk) (fun _ => mk_file_reply "application/zip" None 0%N)
           (PyList [PyInt 1]) "." (mk_dl_state ∅ [] []).
Proof.
  assert (H : py_seq (PyInt 1) = None) by reflexivity.
  split; [exact H|].
  apply (proj2 (scalar_ids_wrapped (PyInt 1) H)).
Defined.

(** ** Collections and query parameters *)

Lemma collection_cases (c : string) :
  c ∈ EODMS_COLLECTIONS ->
  c = "Radarsat1" \/ c = "Radarsat2" \/ c = "RCMImageProducts" \/ c = "NAPL" \/ c = "PlanetScope".
Proof.
  rewrite list_elem_of_In. simpl. intuition.
Qed.

Lemma supported_collection_ok (c : string) :
  c ∈ EODMS_COLLECTIONS ->
  exists ps keys, available_query_args c = Ok ps /\ generate_meta_keys c = Ok keys /\
                  set_collection c = Ok (c, ps).
Proof.
  intros Hc. pose proof Hc as Hc'. unfold set_collection.
  rewrite (bool_decide_eq_true_2 _ Hc'). cbn [negb].
  apply collection_cases in Hc as [->|[->|[->|[->| ->]]]];
    (do 2 eexists; split; [reflexivity | split; reflexivity]).
Qed.

(** The collection setter of [EodmsAPI] accepts a name exactly when it is one
    of the five EODMS collections (with that exact case) or, upper-cased, one
    of the aliases RCM, RS1, RADARSAT, RADARSAT-1, RS2, RADARSAT-2, PLANET; any
    other name raises [ValueError].  The name it stores is always one of the
    five collections, the parameters it stores are those of that collection,
    its meta keys exist, and setting the stored name again changes nothing. *)
Theorem set_collection_normalises (c : string) :
  (is_ok (set_collection c) = true <->
     c ∈ EODMS_COLLECTIONS \/
     str_upper c ∈ ["RCM"; "RS1"; "RADARSAT"; "RADARSAT-1"; "RS2"; "RADARSAT-2"; "PLANET"]) /\
  (is_ok (set_collection c) = false -> set_collection c = Raise ValueError) /\
  (forall c' ps, set_collection c = Ok (c', ps) ->
     c' ∈ EODMS_COLLECTIONS /\ available_query_args c' = Ok ps /\
     is_ok (generate_meta_keys c') = true /\ set_collection c' = Ok (c', ps)).
Proof.
  assert (Hok : forall c', c' ∈ EODMS_COLLECTIONS -> forall ps,
            available_query_args c' = Ok ps ->
            c' ∈ EODMS_COLLECTIONS /\ available_query_args c' = Ok ps /\
            is_ok (generate_meta_keys c') = true /\ set_collection c' = Ok (c', ps)).
  { intros c' Hc' ps Hps. destruct (supported_collection_ok c' Hc') as (ps' & keys & H1 & H2 & H3).
    rewrite Hps in H1. injection H1 as <-. rewrite H2, H3. auto. }
  assert (Hin : forall x, In x EODMS_COLLECTIONS -> x ∈ EODMS_COLLECTIONS)
    by (intros; apply list_elem_of_In; assumption).
  destruct (decide (c ∈ EODMS_COLLECTIONS)) as [Hc|Hc].
  - destruct (supported_collection_ok c Hc) as (ps & keys & H1 & _ & H3). rewrite H3.
    split; [split; [intros _; left; exact Hc | reflexivity]|].
    split; [discriminate|].
    intros c' ps' [= <- <-]. apply Hok; assumption.
  - assert (E : set_collection c =
      (new_collection ←
         (let u := str_upper c in
          if bool_decide (u ∈ ["RCM"]) then Ok "RCMImageProducts"
          else if bool_decide (u ∈ ["RS1"; "RADARSAT"; "RADARSAT-1"]) then Ok "Radarsat1"
          else if bool_decide (u ∈ ["RS2"; "RADARSAT-2"]) then Ok "Radarsat2"
          else if bool_decide (u ∈ ["PLANET"]) then Ok "PlanetScope"
          else Raise ValueError);
       available_params ← available_query_args new_collection;
       Ok (new_collection, available_params))).
    { unfold set_collection. rewrite (bool_decide_eq_false_2 _ Hc). reflexivity. }
    rewrite E. cbv zeta.
    assert (Hal : forall L, str_upper c ∈ L <-> In (str_upper c) L)
      by (intros; apply list_elem_of_In).
    assert (Hyes : forall c', In c' EODMS_COLLECTIONS -> In (str_upper c)
              ["RCM"; "RS1"; "RADARSAT"; "RADARSAT-1"; "RS2"; "RADARSAT-2"; "PLANET"] ->
              let r := (available_params ← available_query_args c'; Ok (c', available_params)) in
              (is_ok r = true <-> c ∈ EODMS_COLLECTIONS \/
                 str_upper c ∈ ["RCM"; "RS1"; "RADARSAT"; "RADARSAT-1"; "RS2"; "RADARSAT-2"; "PLANET"]) /\
              (is_ok r = false -> r = Raise ValueError) /\
              (forall c'' ps, r = Ok (c'', ps) ->
                 c'' ∈ EODMS_COLLECTIONS /\ available_query_args c'' = Ok ps /\
                 is_ok (generate_meta_keys c'') = true /\ set_collection c'' = Ok (c'', ps))).
    { intros c' Hc' Hu r. subst r.
      destruct (supported_collection_ok c' (Hin c' Hc')) as (ps & keys & H1 & _ & _).
      rewrite H1. cbn.
      split; [split; [intros _; right; apply Hal; exact Hu | reflexivity]|].
      split; [discriminate|].
      intros c'' ps' [= <- <-]. apply Hok; [apply Hin; exact Hc' | exact H1]. }
    case_bool_decide as H1;
      [apply Hyes; [simpl; tauto | apply Hal in H1; simpl in *; tauto]|].
    case_bool_decide as H2;
      [apply Hyes; [simpl; tauto | apply Hal in H2; simpl in *; tauto]|].
    case_bool_decide as H3;
      [apply Hyes; [simpl; tauto | apply Hal in H3; simpl in *; tauto]|].
    case_bool_decide as H4;
      [apply Hyes; [simpl; tauto | apply Hal in H4; simpl in *; tauto]|].
    cbn. split; [|split; [reflexivity | discriminate]].
    split; [discriminate|].
    intros [H|H]; [contradiction|].
    rewrite Hal in *. simpl in *. tauto.
Qed.

(** ** Query validation *)

Lemma kw_get_remove {F} (args : list (string * arg F)) (k k0 : string) (d : arg F) :
  k <> k0 -> kw_get F (kw_remove k0 args) k d = kw_get F args k d.
Proof.
  intros Hne. induction args as [|[k1 v1] args IH]; [reflexivity|].
  unfold kw_get, kw_remove in *. cbn [List.filter list_find fst].
  destruct (String.eqb_spec k1 k0) as [->|Hk1]; cbn [negb list_find].
  - rewrite decide_False by (simpl; congruence).
    destruct (list_find (λ kv : string * arg F, kv.1 = k) args) as [[i [kk vv]]|]; cbn; exact IH.
  - cbn [fst]. destruct (decide (k1 = k)); [reflexivity|].
    destruct (list_find (λ kv : string * arg F, kv.1 = k) (List.filter _ args)) as [[i [kk vv]]|];
      destruct (list_find (λ kv : string * arg F, kv.1 = k) args) as [[j [kk' vv']]|];
      cbn in *; congruence.
Qed.

Lemma select_clause_str {F} (v : arg F) single each multi :
  str_valued v = true ->
  (forall s, single (AStr s) = Raise TypeError) ->
  (forall s, each (AStr s) = Raise TypeError) ->
  is_ok (select_clause F v single each multi) = false.
Proof.
  intros Hv Hs He. destruct v as [| | | |s|xs|xs]; try discriminate; cbn [select_clause].
  - rewrite Hs. reflexivity.
  - assert (Hm : is_ok (res_mapM each xs) = false).
    { assert (Hx : existsb (fun x : arg F => match x with AStr _ => true | _ => false end) xs = true).
      { destruct xs as [|[| | | | | |] [|]]; cbn in Hv |- *; try discriminate; auto. }
      clear Hv. induction xs as [|x xs IH]; [discriminate|].
      cbn [existsb] in Hx. cbn [res_mapM]. apply is_ok_bind_raise in Hx || idtac.
      destruct x as [| | | |s| |]; cbn [orb] in Hx;
        try (rewrite He; reflexivity);
        (destruct (each _) eqn:?; cbn [mbind res_mbind res_bind is_ok]; [|reflexivity];
         apply is_ok_bind_raise, IH, Hx). }
    destruct xs as [|[| | | | | |] [|]]; cbn in Hv; try discriminate;
      apply is_ok_bind_raise, Hm.
  - assert (Hm : is_ok (res_mapM each xs) = false).
    { assert (Hx : existsb (fun x : arg F => match x with AStr _ => true | _ => false end) xs = true).
      { destruct xs as [|[| | | | | |] [|]]; cbn in Hv |- *; try discriminate; auto. }
      clear Hv. induction xs as [|x xs IH]; [discriminate|].
      cbn [existsb] in Hx. cbn [res_mapM].
      destruct x as [| | | |s| |]; cbn [orb] in Hx;
        try (rewrite He; reflexivity);
        (destruct (each _) eqn:?; cbn [mbind res_mbind res_bind is_ok]; [|reflexivity];
         apply is_ok_bind_raise, IH, Hx). }
    destruct xs as [|[| | | | | |] [|]]; cbn in Hv; try discriminate;
      apply is_ok_bind_raise, Hm.
Qed.

Section ValidateProps.
Variable F : Type.
Variable float_of_int : Z -> F.
Variable float_of_string : string -> res F.
Variable float_repr : F -> string.
Variable float_trunc float_floor float_ceil : F -> res Z.
Variable fmt_f fmt_1f : F -> string.
Variable float_truthy : F -> bool.
Variable D : Type.
Variable today_at_start today_at_end : D.
Variable parse : arg F -> res D.
Variable add_days : D -> Z -> D.
Variable isoformat : D -> string.
Variable load_search_aoi : arg F -> res string.

Local Notation VQA := (validate_query_args F float_of_int float_of_string float_repr
  float_trunc float_floor float_ceil fmt_f fmt_1f float_truthy D today_at_start today_at_end
  parse add_days isoformat load_search_aoi).
Local Notation CC := (collection_clauses F float_of_int float_of_string float_repr
  float_trunc float_floor float_ceil fmt_f fmt_1f float_truthy).
Local Notation QA := (query_args_of F float_of_int float_of_string float_repr
  float_trunc float_floor float_ceil fmt_f fmt_1f float_truthy D today_at_start today_at_end
  parse add_days isoformat load_search_aoi).

(** [validate_query_args] never reads the keyword [rcm_satellite] (which the
    command line passes on), whatever the collection, nor, for Radarsat2, the
    keyword [product_format], which [available_query_args] advertises for
    Radarsat2: the query is the same with or without them. *)
Theorem validate_ignores_unread_args (args : list (string * arg F)) (c : string) :
  VQA args c = VQA (kw_remove "rcm_satellite" args) c /\
  VQA args "Radarsat2" = VQA (kw_remove "product_format" args) "Radarsat2" /\
  (exists ps, available_query_args "Radarsat2" = Ok ps /\ In ("product_format", PyTypeStr) ps).
Proof.
  split; [|split].
  - unfold validate_query_args, query_args_of, collection_clauses. cbv zeta.
    rewrite !(kw_get_remove args) by discriminate. reflexivity.
  - unfold validate_query_args, query_args_of, collection_clauses. cbv zeta.
    replace (String.eqb "Radarsat2" "RCMImageProducts") with false by reflexivity.
    rewrite String.eqb_refl. cbv beta iota.
    rewrite !(kw_get_remove args) by discriminate. reflexivity.
  - eexists. split; [reflexivity|]. simpl. tauto.
Qed.
(** Selects the branch of [collection_clauses] for a known name. *)
Ltac pick_branch :=
  unfold collection_clauses; cbv zeta;
  repeat match goal with
         | |- context [String.eqb ?a ?b] =>
             let r := eval vm_compute in (String.eqb a b) in
             change (String.eqb a b) with r
         end;
  cbv beta iota.

Lemma collection_clauses_unknown (args : list (string * arg F)) (c : string) :
  c ∉ EODMS_COLLECTIONS ->
  CC args c = Raise NotImplementedError.
Proof.
  intros Hc. unfold collection_clauses. cbv zeta.
  unfold EODMS_COLLECTIONS in Hc. rewrite !not_elem_of_cons in Hc.
  destruct Hc as (H1 & H2 & H3 & H4 & H5 & _).
  rewrite !(proj2 (String.eqb_neq _ _)) by assumption. reflexivity.
Qed.

Lemma query_args_of_unknown (args : list (string * arg F)) (c : string) :
  c ∉ EODMS_COLLECTIONS ->
  is_ok (QA args c) = false.
Proof.
  intros Hc. pose proof (collection_clauses_unknown args c Hc) as H.
  assert (H' : is_ok (CC args c) = false) by (rewrite H; reflexivity).
  clear H. unfold query_args_of. cbv zeta. chain_fails_at H'.
Qed.

(** With no keyword at all the query holds exactly the two date clauses,
    from the start of yesterday to the end of tomorrow (the [end] default,
    today, plus one day), for each of the five collections; for any other
    collection name the validation raises, and with no keyword it raises
    [NotImplementedError]. *)
Theorem validate_defaults (args : list (string * arg F)) (c : string) :
  (c ∈ EODMS_COLLECTIONS ->
   VQA [] c = Ok (quote (quoted "CATALOG_IMAGE.START_DATETIME>=" (isoformat (add_days today_at_start (-1)))
                        +:+ " AND " +:+
                        quoted "CATALOG_IMAGE.STOP_DATETIME<=" (isoformat (add_days today_at_end 1))))) /\
  (c ∉ EODMS_COLLECTIONS -> is_ok (VQA args c) = false) /\
  (c ∉ EODMS_COLLECTIONS -> VQA [] c = Raise NotImplementedError).
Proof.
  split; [|split].
  - intros Hc. unfold EODMS_COLLECTIONS in Hc.
    repeat rewrite elem_of_cons in Hc. rewrite elem_of_nil in Hc.
    destruct Hc as [->|[->|[->|[->|[->|[]]]]]];
      unfold validate_query_args, query_args_of; cbv zeta; pick_branch; reflexivity.
  - intros Hc. pose proof (query_args_of_unknown args c Hc) as H.
    unfold validate_query_args. chain_fails_at H.
  - intros Hc. unfold validate_query_args, query_args_of. cbv zeta.
    rewrite (collection_clauses_unknown [] c Hc). reflexivity.
Qed.

(** For NAPL, any value of [napl_nocost] other than [None] makes the
    validation fail: the code formats the string ['t'] or ['f'] with
    ['%f'], which raises [TypeError]. *)
Theorem validate_napl_nocost_fails (args : list (string * arg F)) :
  kw_get F args "napl_nocost" ANone <> ANone -> is_ok (VQA args "NAPL") = false.
Proof.
  intros Hv.
  assert (HC : is_ok (CC args "NAPL") = false).
  { pick_branch.
    match goal with
    | |- context [opt_clause F (kw_get F args "napl_nocost" ANone) ?cl] =>
        assert (H : is_ok (opt_clause F (kw_get F args "napl_nocost" ANone) cl) = false)
          by (destruct (kw_get F args "napl_nocost" ANone); [contradiction|reflexivity..])
    end.
    chain_fails_at H. }
  assert (HQ : is_ok (QA args "NAPL") = false)
    by (unfold query_args_of; cbv zeta; chain_fails_at HC).
  unfold validate_query_args. chain_fails_at HQ.
Qed.

(** The numeric conversions refuse strings: an [absolute_orbit] (['%.1f'])
    for RCM, Radarsat2 or Radarsat1, a [relative_orbit] (['%d']) for RCM or
    Radarsat2, or a [cloud_cover] (['%d']) for PlanetScope given as a string,
    or as a list or tuple holding a string (which is what the command line
    passes on), makes the validation fail. *)
Theorem validate_rejects_string_numbers (args : list (string * arg F)) (c : string) :
  (c ∈ ["RCMImageProducts"; "Radarsat2"; "Radarsat1"] ->
   str_valued (kw_get F args "absolute_orbit" (AList [ANone])) = true ->
   is_ok (VQA args c) = false) /\
  (c ∈ ["RCMImageProducts"; "Radarsat2"] ->
   str_valued (kw_get F args "relative_orbit" (AList [ANone])) = true ->
   is_ok (VQA args c) = false) /\
  (c = "PlanetScope" ->
   str_valued (kw_get F args "cloud_cover" ANone) = true ->
   is_ok (VQA args c) = false).
Proof.
  assert (Hgen : forall c, is_ok (CC args c) = false -> is_ok (VQA args c) = false).
  { intros c0 HC. unfold validate_query_args. apply is_ok_bind_raise.
    unfold query_args_of. cbv zeta. chain_fails_at HC. }
  split; [|split].
  - intros Hc Hv. apply Hgen. clear Hgen.
    repeat rewrite elem_of_cons in Hc. rewrite elem_of_nil in Hc.
    destruct Hc as [->|[->|[->|[]]]]; pick_branch;
    (match goal with
     | |- context [select_clause F (kw_get F args "absolute_orbit" ?d) ?si ?ea ?mu] =>
         assert (H : is_ok (select_clause F (kw_get F args "absolute_orbit" d) si ea mu) = false)
           by (apply select_clause_str; [exact Hv | intros; reflexivity | intros; reflexivity])
     end; chain_fails_at H).
  - intros Hc Hv. apply Hgen. clear Hgen.
    repeat rewrite elem_of_cons in Hc. rewrite elem_of_nil in Hc.
    destruct Hc as [->|[->|[]]]; pick_branch;
    (match goal with
     | |- context [select_clause F (kw_get F args "relative_orbit" ?d) ?si ?ea ?mu] =>
         assert (H : is_ok (select_clause F (kw_get F args "relative_orbit" d) si ea mu) = false)
           by (apply select_clause_str; [exact Hv | intros; reflexivity | intros; reflexivity])
     end; chain_fails_at H).
  - intros -> Hv. apply Hgen. clear Hgen. pick_branch.
    match goal with
    | |- context [opt_clause F (kw_get F args "cloud_cover" ANone) ?cl] =>
        assert (H : is_ok (opt_clause F (kw_get F args "cloud_cover" ANone) cl) = false)
    end.
    { destruct (kw_get F args "cloud_cover" ANone) as [| | | |s|xs|xs];
        cbn in Hv; try discriminate; [reflexivity | reflexivity |].
      destruct xs as [|x [|y ys]]; [reflexivity | | reflexivity].
      destruct x; cbn in Hv; try discriminate; reflexivity. }
    chain_fails_at H.
Qed.

Lemma list_ascii_of_string_app (s1 s2 : string) :
  list_ascii_of_string (s1 +:+ s2) = list_ascii_of_string s1 ++ list_ascii_of_string s2.
Proof. induction s1 as [|a s1 IH]; [reflexivity|]. simpl. f_equal. exact IH. Qed.

Lemma forallb_concat_empty (p : ascii -> bool) (l : list string) :
  Forall (fun s => forallb p (list_ascii_of_string s) = true) l ->
  forallb p (list_ascii_of_string (String.concat "" l)) = true.
Proof.
  induction 1 as [|x l Hx Hl IH]; [reflexivity|].
  destruct l as [|y l]; cbn [String.concat]; [exact Hx|].
  rewrite list_ascii_of_string_app, forallb_app, Hx. exact IH.
Qed.

Lemma hex_digit_url_char (n : nat) : (n < 16)%nat -> url_char (hex_digit true n) = true.
Proof.
  intros Hn. do 16 (destruct n as [|n]; [reflexivity|]). lia.
Qed.

Lemma las_concat_empty (l : list string) :
  list_ascii_of_string (String.concat "" l) = List.concat (map list_ascii_of_string l).
Proof.
  induction l as [|x l IH]; [reflexivity|].
  destruct l as [|y l].
  - cbn [String.concat map List.concat]. rewrite app_nil_r. reflexivity.
  - change (String.concat "" (x :: y :: l)) with (x +:+ "" +:+ String.concat "" (y :: l)).
    rewrite !list_ascii_of_string_app, IH. reflexivity.
Qed.

Lemma hex_digit_props (k : nat) : (k < 16)%nat ->
  hex_upper (hex_digit true k) = true /\ is_hex (hex_digit true k) = true /\
  hex_val (hex_digit true k) = k /\ Ascii.eqb (hex_digit true k) "%" = false.
Proof. intros Hk. do 16 (destruct k as [|k]; [repeat split|]). lia. Qed.

(** One character as [quote] writes it, then the rest. *)
Lemma quote_char_props (c : ascii) (rest : list ascii) :
  let keep (c : ascii) : bool :=
    let n := nat_of_ascii c in
    ((48 <=? n) && (n <=? 57) || (65 <=? n) && (n <=? 90) || (97 <=? n) && (n <=? 122))%nat
    || str_has c "_.-~/" in
  let w := list_ascii_of_string (if keep c then String c EmptyString else "%" +:+ hex2 true c) in
  percent_encoded (w ++ rest) = percent_encoded rest /\
  percent_decode (w ++ rest) = c :: percent_decode rest.
Proof.
  intros keep w. subst w.
  destruct (keep c) eqn:Hk.
  - assert (Hc : Ascii.eqb c "%" = false).
    { destruct (Ascii.eqb_spec c "%") as [->|]; [discriminate Hk | reflexivity]. }
    cbn [list_ascii_of_string app percent_encoded percent_decode]. rewrite Hc.
    split; [|reflexivity]. unfold unreserved. unfold keep in Hk. rewrite Hk. reflexivity.
  - change ("%" +:+ hex2 true c) with (String "%" (hex2 true c)). unfold hex2.
    pose proof (Ascii.nat_ascii_bounded c) as Hb.
    assert (H1 : (nat_of_ascii c / 16 < 16)%nat) by (apply Nat.Div0.div_lt_upper_bound; lia).
    assert (H2 : (nat_of_ascii c mod 16 < 16)%nat) by (apply Nat.mod_upper_bound; lia).
    destruct (hex_digit_props _ H1) as (U1 & X1 & V1 & _).
    destruct (hex_digit_props _ H2) as (U2 & X2 & V2 & _).
    cbn [list_ascii_of_string app percent_encoded percent_decode Ascii.eqb Bool.eqb].
    change (Ascii.eqb "%" "%") with true. cbv iota.
    rewrite U1, U2, X1, X2, V1, V2. cbn [andb]. split; [reflexivity|].
    rewrite <- Nat.div_mod_eq, Ascii.ascii_nat_embedding. reflexivity.
Qed.

Lemma quote_encoded_decoded (s : string) :
  percent_encoded (list_ascii_of_string (quote s)) = true /\
  percent_decode (list_ascii_of_string (quote s)) = list_ascii_of_string s.
Proof.
  unfold quote. rewrite las_concat_empty, map_map.
  induction (list_ascii_of_string s) as [|c cs [IH1 IH2]]; [split; reflexivity|].
  cbn [map List.concat].
  match goal with |- context [List.concat (map ?g cs)] =>
    destruct (quote_char_props c (List.concat (map g cs))) as [E1 E2] end.
  cbv beta zeta in E1, E2. rewrite E1, E2, IH1, IH2. split; reflexivity.
Qed.

(** [urllib.parse.quote] writes a percent-encoded component: letters,
    digits, [_.-~/] and escapes ['%'] plus two upper-case hexadecimal digits,
    a ['%'] never standing alone; and percent-decoding it gives back the
    input.  Hence every query [validate_query_args] returns is well formed in
    this sense, and decodes to its clauses joined with [" AND "]. *)
Theorem quote_url_safe (s : string) (args : list (string * arg F)) (c : string) :
  forallb url_char (list_ascii_of_string (quote s)) = true /\
  percent_encoded (list_ascii_of_string (quote s)) = true /\
  percent_decode (list_ascii_of_string (quote s)) = list_ascii_of_string s /\
  match VQA args c with
  | Ok q => forallb url_char (list_ascii_of_string q) = true /\
            percent_encoded (list_ascii_of_string q) = true /\
            exists clauses, QA args c = Ok clauses /\
              percent_decode (list_ascii_of_string q) = list_ascii_of_string (String.concat " AND " clauses)
  | Raise _ => True
  end.
Proof.
  assert (Hq : forall s, forallb url_char (list_ascii_of_string (quote s)) = true).
  { intros s0. unfold quote. apply forallb_concat_empty.
    apply Forall_forall. intros x Hx. rewrite list_elem_of_In, in_map_iff in Hx. destruct Hx as (ch & <- & _).
    destruct (_ || str_has ch "_.-~/") eqn:Hk.
    - cbn. rewrite andb_true_r. unfold url_char.
      apply orb_true_iff in Hk as [Hk|Hk]; [rewrite Hk; reflexivity|].
      apply orb_true_iff. right. unfold str_has in *.
      apply existsb_exists in Hk as (d & Hd & Heq).
      apply existsb_exists. exists d. split; [|exact Heq].
      cbn in Hd |- *. tauto.
    - change ("%" +:+ hex2 true ch) with (String "%" (hex2 true ch)). unfold hex2.
      cbn [list_ascii_of_string forallb].
      pose proof (Ascii.nat_ascii_bounded ch) as Hb.
      rewrite !hex_digit_url_char.
      + reflexivity.
      + apply Nat.mod_upper_bound. lia.
      + apply Nat.Div0.div_lt_upper_bound. lia. }
  split; [apply Hq|]. split; [apply quote_encoded_decoded|]. split; [apply quote_encoded_decoded|].
  unfold validate_query_args. destruct QA as [qa|e] eqn:Eqa; cbn; [|exact I].
  split; [apply Hq|]. split; [apply quote_encoded_decoded|].
  exists qa. split; [reflexivity | apply quote_encoded_decoded].
Qed.

End ValidateProps.

(** The oracles of [validate_query_args] instantiated for the examples:
    floats and dates as integers, a date being a day number. *)
Local Notation EXQ f := (f Z (fun z => z) (fun _ => Raise ValueError) (fun z => pretty z)
  (fun z => Ok z) (fun z => Ok z) (fun z => Ok z)
  (fun z => pretty z +:+ ".000000") (fun z => pretty z +:+ ".0")
  (fun z => negb (Z.eqb z 0)) Z 100%Z 100%Z (fun _ => Ok 5%Z) Z.add (fun z => pretty z)
  (fun _ => Ok "POLYGON")) (only parsing).

Lemma validate_defaults_witness :
  ("Radarsat2" ∈ EODMS_COLLECTIONS /\
   EXQ validate_query_args [] "Radarsat2" =
     Ok (quote (quoted "CATALOG_IMAGE.START_DATETIME>=" (pretty (100 + (-1))%Z) +:+ " AND " +:+
                quoted "CATALOG_IMAGE.STOP_DATETIME<=" (pretty (100 + 1)%Z)))) /\
  (("RS2" ∉ EODMS_COLLECTIONS) /\
   is_ok (EXQ validate_query_args [("beam_mode", AStr "Standard")] "RS2") = false /\
   EXQ validate_query_args [] "RS2" = Raise NotImplementedError).
Proof.
  assert (Hin : "Radarsat2" ∈ EODMS_COLLECTIONS)
    by (apply (bool_decide_unpack ("Radarsat2" ∈ EODMS_COLLECTIONS)); vm_compute; exact I).
  assert (Hout : "RS2" ∉ EODMS_COLLECTIONS)
    by (apply (bool_decide_unpack ("RS2" ∉ EODMS_COLLECTIONS)); vm_compute; exact I).
  split; split; [exact Hin | | exact Hout | split].
  - exact (proj1 (EXQ validate_defaults [] "Radarsat2") Hin).
  - exact (proj1 (proj2 (EXQ validate_defaults [("beam_mode", AStr "Standard")] "RS2")) Hout).
  - exact (proj2 (proj2 (EXQ validate_defaults [] "RS2")) Hout).
Defined.

Lemma validate_napl_nocost_fails_witness :
  kw_get Z [("napl_nocost", ABool true)] "napl_nocost" ANone <> ANone /\
  is_ok (EXQ validate_query_args [("napl_nocost", ABool true)] "NAPL") = false.
Proof.
  assert (H : kw_get Z [("napl_nocost", ABool true)] "napl_nocost" ANone <> ANone)
    by (vm_compute; discriminate).
  split; [exact H | exact (EXQ validate_napl_nocost_fails [("napl_nocost", ABool true)] H)].
Defined.

Lemma validate_rejects_string_numbers_witness :
  ("Radarsat1" ∈ ["RCMImageProducts"; "Radarsat2"; "Radarsat1"] /\
   str_valued (kw_get Z [("absolute_orbit", ATuple [AStr "12"])] "absolute_orbit" (AList [ANone])) = true /\
   is_ok (EXQ validate_query_args [("absolute_orbit", ATuple [AStr "12"])] "Radarsat1") = false) /\
  ("RCMImageProducts" ∈ ["RCMImageProducts"; "Radarsat2"] /\
   str_valued (kw_get Z [("relative_orbit", AList [AStr "3"; AStr "4"])] "relative_orbit" (AList [ANone])) = true /\
   is_ok (EXQ validate_query_args [("relative_orbit", AList [AStr "3"; AStr "4"])] "RCMImageProducts") = false) /\
  ("PlanetScope" = "PlanetScope" /\
   str_valued (kw_get Z [("cloud_cover", AStr "20")] "cloud_cover" ANone) = true /\
   is_ok (EXQ validate_query_args [("cloud_cover", AStr "20")] "PlanetScope") = false).
Proof.
  assert (H1 : "Radarsat1" ∈ ["RCMImageProducts"; "Radarsat2"; "Radarsat1"])
    by (apply (bool_decide_unpack ("Radarsat1" ∈ ["RCMImageProducts"; "Radarsat2"; "Radarsat1"])); vm_compute; exact I).
  assert (H2 : str_valued (kw_get Z [("absolute_orbit", ATuple [AStr "12"])] "absolute_orbit"
                 (AList [ANone])) = true) by (vm_compute; reflexivity).
  assert (H3 : "RCMImageProducts" ∈ ["RCMImageProducts"; "Radarsat2"])
    by (apply (bool_decide_unpack ("RCMImageProducts" ∈ ["RCMImageProducts"; "Radarsat2"])); vm_compute; exact I).
  assert (H4 : str_valued (kw_get Z [("relative_orbit", AList [AStr "3"; AStr "4"])] "relative_orbit"
                 (AList [ANone])) = true) by (vm_compute; reflexivity).
  assert (H5 : str_valued (kw_get Z [("cloud_cover", AStr "20")] "cloud_cover" ANone) = true)
    by (vm_compute; reflexivity).
  split; [|split].
  - split; [exact H1 | split; [exact H2 |]].
    exact (proj1 (EXQ validate_rejects_string_numbers [("absolute_orbit", ATuple [AStr "12"])] "Radarsat1") H1 H2).
  - split; [exact H3 | split; [exact H4 |]].
    exact (proj1 (proj2 (EXQ validate_rejects_string_numbers
      [("relative_orbit", AList [AStr "3"; AStr "4"])] "RCMImageProducts")) H3 H4).
  - split; [reflexivity | split; [exact H5 |]].
    exact (proj2 (proj2 (EXQ validate_rejects_string_numbers [("cloud_cover", AStr "20")] "PlanetScope")) eq_refl H5).
Defined.

(** ** Download metadata *)

Lemma str_app_cons (x : ascii) (a b : string) : String x a +:+ b = String x (a +:+ b).
Proof. reflexivity. Qed.

Lemma str_app_assoc (a b c : string) : (a +:+ b) +:+ c = a +:+ (b +:+ c).
Proof. induction a as [|x a IH]; [reflexivity|]. rewrite !str_app_cons, IH. reflexivity. Qed.

Lemma str_app_nil_r (a : string) : a +:+ "" = a.
Proof. induction a as [|x a IH]; [reflexivity|]. rewrite str_app_cons, IH. reflexivity. Qed.

Lemma substring_0_all (m : nat) (s : string) : (String.length s <= m)%nat -> substring 0 m s = s.
Proof.
  revert m. induction s as [|c s IH]; intros m Hm; destruct m as [|m]; cbn in *;
    try reflexivity; try lia.
  rewrite IH by lia. reflexivity.
Qed.

Lemma prefix_app (sep s : string) (m : nat) :
  String.prefix sep s = true -> (String.length s <= m + String.length sep)%nat ->
  sep +:+ substring (String.length sep) m s = s.
Proof.
  revert s. induction sep as [|a sep IH]; intros s Hp Hm.
  - cbn. apply substring_0_all. cbn in Hm. lia.
  - destruct s as [|b s]; [discriminate|]. cbn in Hp.
    destruct (Ascii.ascii_dec a b) as [->|]; [|discriminate].
    cbn [String.length substring]. rewrite str_app_cons. f_equal. apply IH; [exact Hp | cbn in Hm; lia].
Qed.

Lemma split_go_nonempty fuel sep s cur : split_go fuel sep s cur <> [].
Proof.
  revert s cur. induction fuel as [|fuel IH]; intros s cur; cbn; [discriminate|].
  destruct s as [|c r]; [discriminate|]. destruct (String.prefix sep _); [discriminate | apply IH].
Qed.

(** Joining the pieces of [split] with the separator gives back the string. *)
Lemma split_go_concat fuel sep s cur :
  String.concat sep (split_go fuel sep s cur) = cur +:+ s.
Proof.
  revert s cur. induction fuel as [|fuel IH]; intros s cur; cbn [split_go].
  - reflexivity.
  - destruct s as [|c r]; [cbn; now rewrite str_app_nil_r|].
    destruct (String.prefix sep (String c r)) eqn:Hp.
    + pose proof (split_go_nonempty fuel sep
        (substring (String.length sep) (String.length (String c r)) (String c r)) "") as Hne.
      destruct (split_go fuel sep _ "") as [|y ys] eqn:E; [contradiction|].
      change (String.concat sep (cur :: y :: ys)) with (cur +:+ sep +:+ String.concat sep (y :: ys)).
      rewrite <- E, IH. change ("" +:+ ?t) with t. f_equal.
      apply prefix_app; [exact Hp | lia].
    + rewrite IH, str_app_assoc. reflexivity.
Qed.

Lemma concat_cons (sep a : string) (l : list string) :
  l <> [] -> String.concat sep (a :: l) = a +:+ sep +:+ String.concat sep l.
Proof. destruct l; [contradiction | reflexivity]. Qed.

Lemma concat_snoc (sep x : string) (l : list string) :
  l <> [] -> String.concat sep (l ++ [x]) = String.concat sep l +:+ sep +:+ x.
Proof.
  induction l as [|a l IH]; intros Hl; [contradiction|].
  destruct l as [|b l]; [reflexivity|].
  change ((a :: b :: l) ++ [x]) with (a :: ((b :: l) ++ [x])).
  rewrite concat_cons by (destruct l; discriminate).
  rewrite IH by discriminate.
  rewrite (concat_cons sep a (b :: l)) by discriminate.
  rewrite !str_app_assoc. reflexivity.
Qed.

Lemma res_bind_Ok {A B} (m : res A) (k : A -> res B) (b : B) :
  m ≫= k = Ok b -> exists a, m = Ok a /\ k a = Ok b.
Proof. destruct m as [a|e]; [intros H; exists a; split; [reflexivity | exact H] | discriminate]. Qed.

Ltac res_step H :=
  let a := fresh "a" in let E := fresh "E" in
  apply res_bind_Ok in H as (a & E & H).

Lemma prefix_app_true (sep q : string) : String.prefix sep (sep +:+ q) = true.
Proof.
  induction sep as [|a sep IH]; [destruct q; reflexivity|].
  rewrite str_app_cons. cbn. destruct (Ascii.ascii_dec a a) as [_|]; [exact IH | contradiction].
Qed.

(** A [split] on a non-empty separator that gives a single piece: the
    separator does not occur in the string. *)
Lemma split_go_single fuel sep s cur x :
  sep <> "" -> (String.length s < fuel)%nat -> split_go fuel sep s cur = [x] ->
  ~ exists p q, s = p +:+ sep +:+ q.
Proof.
  revert s cur. induction fuel as [|fuel IH]; intros s cur Hsep Hlen H; [lia|].
  cbn [split_go] in H. destruct s as [|c r].
  - intros ([|c' p] & q & Hs).
    + destruct sep as [|a sep]; [contradiction|]. rewrite str_app_cons in Hs. discriminate.
    + rewrite str_app_cons in Hs. discriminate.
  - destruct (String.prefix sep (String c r)) eqn:Hp.
    + pose proof (split_go_nonempty fuel sep
        (substring (String.length sep) (String.length (String c r)) (String c r)) "") as Hne.
      destruct (split_go fuel sep _ "") as [|y ys]; [contradiction|]. discriminate.
    + intros ([|c' p] & q & Hs).
      * change ("" +:+ sep +:+ q) with (sep +:+ q) in Hs. rewrite Hs, prefix_app_true in Hp. discriminate.
      * rewrite str_app_cons in Hs. injection Hs as <- Hr.
        apply (IH r _ Hsep) in H; [|cbn in Hlen; lia]. apply H. exists p, q. exact Hr.
Qed.

(** Whatever text the HTML filter extracts, [_extract_download_metadata]
    returns the size of the last manifest entry and a URL ending with that
    entry's key, with one exception: the key's first path segment (its part
    before the first ['/']) does not occur in the URL and the key is that
    segment followed by the URL; the URL is then returned unrepaired. *)
Theorem extract_download_metadata_url (text : string) (manifest : list (string * N))
    (url : string) (fsize : N) :
  extract_download_metadata_of_text text manifest = Ok (url, fsize) ->
  exists key, last manifest = Some (key, fsize) /\
    ((exists pre, url = pre +:+ key) \/
     (exists h key_parts, py_split "/" key = Ok key_parts /\ py_first key_parts = Ok h /\
        h <> "" /\ key = h +:+ url /\ ~ (exists p q, url = p +:+ h +:+ q))).
Proof.
  unfold extract_download_metadata_of_text. intros H.
  res_step H. res_step H. res_step H.
  destruct (last manifest) as [[key fs]|] eqn:Hlast; [|discriminate].
  injection E1 as <-. cbn beta iota in H.
  res_step H. rename a1 into key_parts, E1 into Ekp.
  res_step H. rename a1 into hash, E1 into Ehash.
  repeat res_step H. injection H as Hurl <-.
  exists key. split; [reflexivity|].
  rename a1 into split_url, a2 into tail, a3 into head.
  unfold py_split in E1. destruct (String.eqb_spec hash "") as [|Hh]; [discriminate|].
  injection E1 as Esplit.
  change (split_go (S (String.length a0)) hash a0 "" = split_url) in Esplit.
  pose proof (split_go_concat (S (String.length a0)) hash a0 "") as Hc.
  rewrite Esplit in Hc. change ("" +:+ a0) with a0 in Hc.
  unfold py_last in E2. destruct (last split_url) as [t|] eqn:Hl; [|discriminate].
  injection E2 as ->. apply last_Some in Hl as (l' & ->).
  destruct (String.eqb_spec (hash +:+ tail) key) as [Hk|Hk].
  - subst url. destruct l' as [|p l'].
    + right. cbn in Hc. subst tail. exists hash, key_parts.
      split; [exact Ekp|]. split; [exact Ehash|]. split; [exact Hh|]. split; [symmetry; exact Hk|].
      apply (split_go_single (S (String.length a0)) hash a0 "" a0 Hh); [lia | exact Esplit].
    + left. exists (String.concat hash (p :: l')).
      rewrite concat_snoc in Hc by discriminate. rewrite <- Hc, <- Hk. reflexivity.
  - left. exists head. exact (eq_sym Hurl).
Qed.

Lemma extract_download_metadata_url_witness :
  extract_download_metadata_of_text "https://d/h1/p.zip&file=z" [("h1/q.zip", 42%N)] =
    Ok ("https://d/h1/q.zip", 42%N) /\
  exists key, last [("h1/q.zip", 42%N)] = Some (key, 42%N) /\
    ((exists pre, "https://d/h1/q.zip" = pre +:+ key) \/
     (exists h key_parts, py_split "/" key = Ok key_parts /\ py_first key_parts = Ok h /\
        h <> "" /\ key = h +:+ "https://d/h1/q.zip" /\
        ~ (exists p q, "https://d/h1/q.zip" = p +:+ h +:+ q))).
Proof.
  assert (H : extract_download_metadata_of_text "https://d/h1/p.zip&file=z" [("h1/q.zip", 42%N)] =
    Ok ("https://d/h1/q.zip", 42%N)) by (vm_compute; reflexivity).
  split; [exact H | exact (extract_download_metadata_url _ _ _ _ H)].
Defined.

(** ** The DDS download of one granule *)

Section DDSProps.
Variable dds_srv : nat -> string -> string -> dds_reply.
Variable acquire : nat -> res string.
Variable head_length : string -> option N.
Variable file_srv : string -> file_reply.
Variable collection : string.

Local Notation DDS_ITEM := (download_dds_item dds_srv acquire head_length file_srv collection).
Local Notation DDS_FINISH := (dds_finish dds_srv head_length file_srv).

Lemma dds_poll_frame fuel url d st r st' :
  dds_poll dds_srv fuel url d st = Some (r, st') ->
  ds_token st' = ds_token st /\ ds_acquired st' = ds_acquired st /\
  ds_fs st' = ds_fs st /\ ds_streams st' = ds_streams st /\
  (forall resp, r = Ok resp -> resp !! "download_url" <> None).
Proof.
  revert d st. induction fuel as [|fuel IH]; intros d st H; cbn [dds_poll] in H.
  - destruct (d !! "download_url") eqn:Ed; [|discriminate].
    injection H as <- <-. repeat split; intros resp [= <-]; congruence.
  - destruct (d !! "download_url") eqn:Ed.
    + injection H as <- <-. repeat split; intros resp [= <-]; congruence.
    + cbn [dds_get] in H. destruct (dr_ok _); cbn [negb] in H.
      * destruct (dds_keys _) as [d'|e].
        -- apply IH in H as (H1 & H2 & H3 & H4 & H5). cbn in *. repeat split; assumption.
        -- injection H as <- <-. cbn. repeat split; intros ? [=].
      * injection H as <- <-. cbn. repeat split; intros ? [=].
Qed.

Lemma dds_keys_json r d : dds_keys r = Ok d -> dr_json r = Some (DJObj d).
Proof. unfold dds_keys. destruct (dr_json r) as [[]|]; congruence. Qed.

(** A GET of the polling loop answered non-OK is its last one, and the loop
    raises [HTTPError] there. *)
Lemma dds_poll_refused fuel url d st x st' k :
  dds_poll dds_srv fuel url d st = Some (x, st') ->
  ds_calls st <= k < ds_calls st' -> dr_ok (dds_srv k url (ds_token st)) = false ->
  x = Raise HTTPError /\ ds_calls st' = S k.
Proof.
  revert d st. induction fuel as [|fuel IH]; intros d st H Hk Hok; cbn [dds_poll] in H.
  - destruct (d !! "download_url"); [injection H as <- <-; lia | discriminate].
  - destruct (d !! "download_url"); [injection H as <- <-; lia|].
    cbn [dds_get] in H. destruct (dr_ok (dds_srv (ds_calls st) url (ds_token st))) eqn:Eok;
      cbn [negb] in H.
    + destruct (Nat.eq_dec k (ds_calls st)) as [->|Hne]; [congruence|].
      destruct (dds_keys _) as [d'|e].
      * eapply IH; [exact H | cbn; lia | exact Hok].
      * injection H as <- <-. cbn in Hk. lia.
    + injection H as <- <-. cbn in Hk |- *. split; [reflexivity | lia].
Qed.

(** The object the polling loop ends with is the body of the last GET, or
    the one it was started with when it makes no GET. *)
Lemma dds_poll_last fuel url d st resp st' :
  dds_poll dds_srv fuel url d st = Some (Ok resp, st') ->
  (resp = d /\ st' = st) \/
  (ds_calls st < ds_calls st' /\
   dr_json (dds_srv (pred (ds_calls st')) url (ds_token st')) = Some (DJObj resp)).
Proof.
  revert d st. induction fuel as [|fuel IH]; intros d st H; cbn [dds_poll] in H.
  - destruct (d !! "download_url"); [injection H as <- <-; left; split; reflexivity | discriminate].
  - destruct (d !! "download_url"); [injection H as <- <-; left; split; reflexivity|].
    cbn [dds_get] in H. destruct (dr_ok _); cbn [negb] in H; [|discriminate].
    destruct (dds_keys _) as [d'|e] eqn:Ek; [|discriminate].
    right. apply IH in H as [[-> ->] | [Hc Hj]]; cbn.
    + split; [lia|]. apply dds_keys_json. exact Ek.
    + cbn in Hc. split; [lia | exact Hj].
Qed.

Lemma dds_fetch_frame u local st x st' :
  dds_fetch file_srv u local st = Some (x, st') ->
  ds_token st' = ds_token st /\ ds_acquired st' = ds_acquired st /\ ds_calls st' = ds_calls st.
Proof.
  unfold dds_fetch. destruct (String.eqb (dirname local) "").
  - intros [= _ <-]. repeat split.
  - destruct (fr_content_length (file_srv u)); intros [= _ <-]; repeat split.
Qed.

(** After the polling loop, [_download_dds_item] makes no GET of the item
    and keeps its token. *)
Lemma dds_finish_after_poll fuel url out r st x st' :
  DDS_FINISH fuel url out r st = Some (x, st') ->
  (exists d, dds_keys r = Ok d /\
   exists st1 y, dds_poll dds_srv fuel url d st = Some (y, st1) /\
     ds_token st' = ds_token st1 /\ ds_acquired st' = ds_acquired st1 /\
     ds_calls st' = ds_calls st1 /\ (forall e, y = Raise e -> x = Raise e /\ st' = st1)) \/
  (exists e, dds_keys r = Raise e /\ x = Raise e /\ st' = st).
Proof.
  unfold dds_finish. intros H.
  destruct (dds_keys r) as [d|e]; [|right; exists e; injection H as <- <-; repeat split].
  left. exists d. split; [reflexivity|].
  destruct (dds_poll dds_srv fuel url d st) as [[[resp|e] st1]|] eqn:Ep; [| |discriminate].
  2:{ exists st1, (Raise e). injection H as <- <-.
      do 4 (split; [reflexivity|]). intros e' [= <-]. split; reflexivity. }
  exists st1, (Ok resp). split; [reflexivity|].
  enough (ds_token st' = ds_token st1 /\ ds_acquired st' = ds_acquired st1 /\ ds_calls st' = ds_calls st1)
    by (intuition discriminate).
  destruct (resp !! "download_url") as [u|]; [|injection H as _ <-; repeat split].
  destruct (dds_granule u) as [g|e]; [|injection H as _ <-; repeat split].
  destruct (ds_fs st1 !! path_join out g) as [size|].
  - destruct (head_length u) as [n|]; [|injection H as _ <-; repeat split].
    destruct (N.eqb size n); [injection H as _ <-; repeat split|].
    apply dds_fetch_frame in H. exact H.
  - apply dds_fetch_frame in H. exact H.
Qed.

Lemma dds_finish_frame fuel url out r st x st' :
  DDS_FINISH fuel url out r st = Some (x, st') ->
  ds_token st' = ds_token st /\ ds_acquired st' = ds_acquired st.
Proof.
  intros H. apply dds_finish_after_poll in H as [(d & _ & st1 & y & Ep & T & A & _) | (e & _ & _ & ->)];
    [|split; reflexivity].
  apply dds_poll_frame in Ep as (T1 & A1 & _). split; congruence.
Qed.

(** [_download_dds_item] acquires at most one new token per call, and only
    when its first GET of the item is refused with status 401; a refusal
    later on, while it polls a pending granule, gets no new token. *)
Theorem download_dds_item_token_refresh fuel uuid out st r st' :
  DDS_ITEM fuel uuid out st = Some (r, st') ->
  let rep0 := dds_srv (ds_calls st) (EODMS_DDS_BASE +:+ "/EODMS/" +:+ collection +:+ "/" +:+ uuid)
                (ds_token st) in
  (ds_acquired st' = ds_acquired st /\ ds_token st' = ds_token st) \/
  (ds_acquired st' = S (ds_acquired st) /\ dr_ok rep0 = false /\ dr_status rep0 = 401%Z).
Proof.
  unfold download_dds_item. intros H. cbn [dds_get] in H. cbv zeta.
  set (rep0 := dds_srv (ds_calls st) _ (ds_token st)) in *.
  destruct (negb (dr_ok rep0) && (dr_status rep0 =? 401)%Z) eqn:Hc.
  - apply andb_true_iff in Hc as [Hok H401]. apply negb_true_iff in Hok. apply Z.eqb_eq in H401.
    right. split; [|split; assumption].
    destruct (acquire _) as [tok|e]; cbn [dds_get ds_with_token] in H.
    + apply dds_finish_frame in H as [_ A]. rewrite A. reflexivity.
    + injection H as _ <-. reflexivity.
  - left. apply dds_finish_frame in H as [T A]. split; assumption.
Qed.

(** A non-OK reply to a GET of the polling loop stops the download with
    [HTTPError], whatever its status and whatever the round: the loop starts
    after the first GET of the item, or after its retry when that first GET
    was refused with 401.  That GET is the last one, the token acquired for
    the retry (if any) is the only one, and no file is written.  The GETs of
    the loop all carry the token the call ends with. *)
Theorem download_dds_item_pending_refused fuel uuid out st x st' k :
  let url := EODMS_DDS_BASE +:+ "/EODMS/" +:+ collection +:+ "/" +:+ uuid in
  let rep0 := dds_srv (ds_calls st) url (ds_token st) in
  let first := if negb (dr_ok rep0) && (dr_status rep0 =? 401)%Z then 2 else 1 in
  DDS_ITEM fuel uuid out st = Some (x, st') ->
  ds_calls st + first <= k < ds_calls st' ->
  dr_ok (dds_srv k url (ds_token st')) = false ->
  x = Raise HTTPError /\ ds_calls st' = S k /\ ds_acquired st' = ds_acquired st + (first - 1) /\
  ds_fs st' = ds_fs st /\ ds_streams st' = ds_streams st.
Proof.
  intros url rep0 first H Hk Hok.
  assert (Hfin : forall r st1, DDS_FINISH fuel url out r st1 = Some (x, st') ->
            ds_calls st1 <= k ->
            x = Raise HTTPError /\ ds_calls st' = S k /\ ds_acquired st' = ds_acquired st1 /\
            ds_fs st' = ds_fs st1 /\ ds_streams st' = ds_streams st1).
  { intros r st1 Hf Hk1.
    destruct (dds_finish_after_poll _ _ _ _ _ _ _ Hf)
      as [(d & _ & st2 & y & Ep & T & A & C & Hy) | (e & _ & _ & ->)]; [|lia].
    pose proof Ep as Fr. apply dds_poll_frame in Fr as (T2 & A2 & F2 & S2 & _).
    destruct (dds_poll_refused fuel url d st1 y st2 k Ep) as [-> Hc]; [lia | congruence |].
    destruct (Hy HTTPError eq_refl) as [-> ->]. repeat split; assumption. }
  unfold download_dds_item in H. fold url in H. cbn [dds_get] in H. fold rep0 in H.
  unfold first in Hk |- *.
  destruct (negb (dr_ok rep0) && (dr_status rep0 =? 401)%Z).
  - destruct (acquire _) as [tok|e].
    + cbn [dds_get ds_with_token] in H. apply Hfin in H as (H1 & H2 & H3 & H4 & H5); [|cbn; lia].
      cbn in H3, H4, H5. split; [exact H1|]. split; [exact H2|]. split; [lia|]. split; assumption.
    + injection H as _ <-. cbn in Hk. lia.
  - apply Hfin in H as (H1 & H2 & H3 & H4 & H5); [|cbn; lia].
    cbn in H3, H4, H5. split; [exact H1|]. split; [exact H2|]. split; [lia|]. split; assumption.
Qed.

(** When [_download_dds_item] returns a local path, the last GET of the item
    answered a JSON object whose ["download_url"] is the product URL [u], and
    the path is the output directory joined with the granule name taken from
    [u].  Then either that file was already there with the size the HEAD of
    [u] announces, and nothing was fetched, or [u] was streamed (its reply
    carrying a [content-length]) into that path, which now holds exactly the
    streamed bytes: the file was absent, or its size differed from the
    announced one. *)
Theorem download_dds_item_success fuel uuid out st local st' :
  DDS_ITEM fuel uuid out st = Some (Ok local, st') ->
  let url := EODMS_DDS_BASE +:+ "/EODMS/" +:+ collection +:+ "/" +:+ uuid in
  exists u granule d,
   dr_json (dds_srv (pred (ds_calls st')) url (ds_token st')) = Some (DJObj d) /\
   d !! "download_url" = Some u /\ dds_granule u = Ok granule /\
   local = path_join out granule /\
   ((exists n, ds_fs st !! local = Some n /\ head_length u = Some n /\
               ds_fs st' = ds_fs st /\ ds_streams st' = ds_streams st) \/
    (fr_content_length (file_srv u) <> None /\ ds_streams st' = ds_streams st ++ [u] /\
     ds_fs st' = <[local := fr_body_size (file_srv u)]> (ds_fs st) /\
     (ds_fs st !! local = None \/
      exists n m, ds_fs st !! local = Some n /\ head_length u = Some m /\ n <> m))).
Proof.
  intros H url.
  assert (Hfin : forall r st1,
    r = dds_srv (pred (ds_calls st1)) url (ds_token st1) ->
    DDS_FINISH fuel url out r st1 = Some (Ok local, st') ->
    ds_fs st1 = ds_fs st -> ds_streams st1 = ds_streams st ->
    exists u granule d,
     dr_json (dds_srv (pred (ds_calls st')) url (ds_token st')) = Some (DJObj d) /\
     d !! "download_url" = Some u /\ dds_granule u = Ok granule /\
     local = path_join out granule /\
     ((exists n, ds_fs st !! local = Some n /\ head_length u = Some n /\
                 ds_fs st' = ds_fs st /\ ds_streams st' = ds_streams st) \/
      (fr_content_length (file_srv u) <> None /\ ds_streams st' = ds_streams st ++ [u] /\
       ds_fs st' = <[local := fr_body_size (file_srv u)]> (ds_fs st) /\
       (ds_fs st !! local = None \/
        exists n m, ds_fs st !! local = Some n /\ head_length u = Some m /\ n <> m)))).
  { clear H. intros r st1 Hr Hf Fs Ss.
    pose proof Hf as Hap. apply dds_finish_after_poll in Hap
      as [(d & Ek & st2 & y & Ep & T & A & C & _) | (e & _ & [=] & _)].
    unfold dds_finish in Hf. rewrite Ek in Hf.
    destruct y as [resp|e]; [|rewrite Ep in Hf; discriminate].
    rewrite Ep in Hf.
    assert (Hj : dr_json (dds_srv (pred (ds_calls st')) url (ds_token st')) = Some (DJObj resp)).
    { rewrite T, C. destruct (dds_poll_last _ _ _ _ _ _ Ep) as [[-> ->] | [_ Hj]]; [|exact Hj].
      rewrite <- Hr. apply dds_keys_json. exact Ek. }
    apply dds_poll_frame in Ep as (_ & _ & F1 & S1 & _).
    destruct (resp !! "download_url") as [u|] eqn:Eu; [|discriminate].
    destruct (dds_granule u) as [g|e] eqn:Eg; [|discriminate].
    exists u, g, resp. split; [exact Hj|]. split; [exact Eu|]. split; [exact Eg|].
    rewrite <- Fs, <- Ss, <- F1, <- S1.
    destruct (ds_fs st2 !! path_join out g) as [size|] eqn:Efs.
    - destruct (head_length u) as [n|] eqn:Eh; [|discriminate].
      destruct (N.eqb_spec size n) as [<-|Hne].
      + injection Hf as <- <-. split; [reflexivity|]. left. exists size. repeat split; assumption.
      + unfold dds_fetch in Hf. cbn [ds_with_fs ds_fs ds_streams ds_token ds_acquired ds_calls] in Hf.
        destruct (String.eqb (dirname (path_join out g)) ""); [discriminate|].
        destruct (fr_content_length (file_srv u)) as [cl|] eqn:Ecl; [|discriminate].
        injection Hf as <- <-. split; [reflexivity|]. right. cbn.
        rewrite insert_insert_eq, insert_delete_eq.
        repeat split; [congruence | right; exists size, n; repeat split; assumption].
    - unfold dds_fetch in Hf.
      destruct (String.eqb (dirname (path_join out g)) ""); [discriminate|].
      destruct (fr_content_length (file_srv u)) as [cl|] eqn:Ecl; [|discriminate].
      injection Hf as <- <-. split; [reflexivity|]. right. cbn.
      rewrite insert_insert_eq. repeat split; [congruence | left; exact Efs]. }
  unfold download_dds_item in H. fold url in H. cbn [dds_get] in H.
  destruct (negb _ && _).
  - destruct (acquire _) as [tok|e]; [|discriminate].
    cbn [dds_get ds_with_token] in H. apply Hfin in H; [exact H | reflexivity ..].
  - apply Hfin in H; [exact H | reflexivity ..].
Qed.
End DDSProps.

(** A DDS server that refuses the first GET with 401, reports the granule
    pending on the second and ready on the third. *)
Local Notation EX_DDS_SRV := (fun (n : nat) (_ _ : string) =>
  match n with
  | 0 => mk_dds_reply false 401 None
  | 1 => mk_dds_reply true 200 (Some (DJObj ∅))
  | _ => mk_dds_reply true 200 (Some (DJObj {[ "download_url" := "https://x/a/g.zip?sig=1" ]}))
  end) (only parsing).
Local Notation EX_DDS f := (f EX_DDS_SRV (fun _ => Ok "t2") (fun _ => Some 5%N)
  (fun _ => mk_file_reply "application/zip" (Some 7%N) 7%N) "RCMImageProducts") (only parsing).

Lemma download_dds_item_token_refresh_witness :
  EX_DDS download_dds_item 3 "u1" "out" (mk_dds_state "t1" 0 0 ∅ []) =
    Some (Ok "out/g.zip", mk_dds_state "t2" 1 3 {[ "out/g.zip" := 7%N ]} ["https://x/a/g.zip?sig=1"]) /\
  ((1 = 0 /\ "t2" = "t1") \/
   (1 = 1 /\ dr_ok (mk_dds_reply false 401 None) = false /\ dr_status (mk_dds_reply false 401 None) = 401%Z)).
Proof.
  assert (H : EX_DDS download_dds_item 3 "u1" "out" (mk_dds_state "t1" 0 0 ∅ []) =
    Some (Ok "out/g.zip", mk_dds_state "t2" 1 3 {[ "out/g.zip" := 7%N ]} ["https://x/a/g.zip?sig=1"]))
    by (vm_compute; reflexivity).
  split; [exact H | exact (EX_DDS download_dds_item_token_refresh _ _ _ _ _ _ H)].
Defined.

Lemma download_dds_item_pending_refused_witness :
  let srv := fun (n : nat) (_ _ : string) =>
    match n with
    | 0 => mk_dds_reply false 401 None
    | 1 | 2 => mk_dds_reply true 200 (Some (DJObj ∅))
    | _ => mk_dds_reply false 401 None
    end in
  download_dds_item srv (fun _ => Ok "t2") (fun _ => Some 5%N)
    (fun _ => mk_file_reply "application/zip" (Some 7%N) 7%N) "RCMImageProducts"
    5 "u1" "out" (mk_dds_state "t1" 0 0 ∅ []) =
    Some (Raise HTTPError, mk_dds_state "t2" 1 4 ∅ []) /\
  (@Raise string HTTPError = Raise HTTPError /\ 4 = 4 /\ 1 = 0 + (2 - 1) /\
   (∅ : gmap string N) = ∅ /\ ([] : list string) = []).
Proof.
  intros srv.
  assert (H : download_dds_item srv (fun _ => Ok "t2") (fun _ => Some 5%N)
    (fun _ => mk_file_reply "application/zip" (Some 7%N) 7%N) "RCMImageProducts"
    5 "u1" "out" (mk_dds_state "t1" 0 0 ∅ []) =
    Some (Raise HTTPError, mk_dds_state "t2" 1 4 ∅ [])) by (vm_compute; reflexivity).
  split; [exact H|].
  exact (download_dds_item_pending_refused srv (fun _ => Ok "t2") (fun _ => Some 5%N)
    (fun _ => mk_file_reply "application/zip" (Some 7%N) 7%N) "RCMImageProducts"
    5 "u1" "out" (mk_dds_state "t1" 0 0 ∅ []) _ _ 3 H ltac:(vm_compute; lia) eq_refl).
Defined.

Lemma download_dds_item_success_witness :
  let dds_srv := EX_DDS_SRV in
  let head_length := fun _ : string => Some 5%N in
  let file_srv := fun _ : string => mk_file_reply "application/zip" (Some 7%N) 7%N in
  let collection := "RCMImageProducts" in
  let uuid := "u1" in
  let out := "out" in
  let local := "out/g.zip" in
  let st := mk_dds_state "t1" 0 1 {[ "out/g.zip" := 4%N ]} [] in
  let st' := mk_dds_state "t1" 0 3 {[ "out/g.zip" := 7%N ]} ["https://x/a/g.zip?sig=1"] in
  download_dds_item dds_srv (fun _ => Ok "t2") head_length file_srv collection 3 uuid out st =
    Some (Ok local, st') /\
  let url := EODMS_DDS_BASE +:+ "/EODMS/" +:+ collection +:+ "/" +:+ uuid in
  exists u granule d,
   dr_json (dds_srv (pred (ds_calls st')) url (ds_token st')) = Some (DJObj d) /\
   d !! "download_url" = Some u /\ dds_granule u = Ok granule /\
   local = path_join out granule /\
   ((exists n, ds_fs st !! local = Some n /\ head_length u = Some n /\
               ds_fs st' = ds_fs st /\ ds_streams st' = ds_streams st) \/
    (fr_content_length (file_srv u) <> None /\ ds_streams st' = ds_streams st ++ [u] /\
     ds_fs st' = <[local := fr_body_size (file_srv u)]> (ds_fs st) /\
     (ds_fs st !! local = None \/
      exists n m, ds_fs st !! local = Some n /\ head_length u = Some m /\ n <> m))).
Proof.
  cbv zeta.
  assert (H : EX_DDS download_dds_item 3 "u1" "out" (mk_dds_state "t1" 0 1 {[ "out/g.zip" := 4%N ]} []) =
    Some (Ok "out/g.zip", mk_dds_state "t1" 0 3 {[ "out/g.zip" := 7%N ]} ["https://x/a/g.zip?sig=1"]))
    by (vm_compute; reflexivity).
  split; [exact H | exact (EX_DDS download_dds_item_success _ _ _ _ _ _ H)].
Defined.

(** ** Result frame *)

Lemma pool_run_inv {A} (f : json -> res A) urls (Q : res A -> Prop) :
  (forall u, Q (f u)) -> forall sched slots,
  (forall i r, slots !! i = Some r -> Q r) ->
  forall i r, pool_run f urls sched slots !! i = Some r -> Q r.
Proof.
  intros Hf sched. induction sched as [|j sched IH]; intros slots Hs; [exact Hs|].
  cbn [pool_run]. apply IH. destruct (urls !! j) as [u|]; [|exact Hs].
  intros i r Hi. destruct (decide (i = j)) as [->|Hne].
  - rewrite lookup_insert_eq in Hi. injection Hi as <-. apply Hf.
  - rewrite lookup_insert_ne in Hi by congruence. exact (Hs _ _ Hi).
Qed.

Lemma pool_collect_inv {A} (P : A -> Prop) (slots : gmap nat (res A)) :
  (forall i a, slots !! i = Some (Ok a) -> P a) ->
  forall idxs xs, pool_collect slots idxs = Some (Ok xs) -> Forall P xs.
Proof.
  intros Hs idxs. induction idxs as [|i idxs IH]; intros xs H.
  - injection H as <-. constructor.
  - cbn [pool_collect] in H. destruct (slots !! i) as [[a|e]|] eqn:Ei; try discriminate.
    destruct (pool_collect slots idxs) as [[ys|e]|] eqn:Er; try discriminate.
    injection H as <-. constructor; [exact (Hs _ _ Ei) | exact (IH _ eq_refl)].
Qed.

Lemma dict_set_labels k v d x : x ∈ map fst (dict_set k v d) -> x = k \/ x ∈ map fst d.
Proof.
  induction d as [|[k' v'] d IH]; cbn [dict_set].
  - cbn. intros Hx. apply elem_of_cons in Hx as [->|Hx]; [left; reflexivity | inversion Hx].
  - destruct (String.eqb k k') eqn:Ek.
    + apply String.eqb_eq in Ek as ->. cbn. intros Hx. right. exact Hx.
    + cbn. intros Hx. apply elem_of_cons in Hx as [->|Hx]; [right; left|].
      destruct (IH Hx) as [->|Hd]; [left; reflexivity | right; right; exact Hd].
Qed.

Lemma set_fields_labels response ks md md' x :
  set_fields response ks md = Ok md' -> x ∈ map fst md' -> x ∈ ks \/ x ∈ map fst md.
Proof.
  revert md. induction ks as [|k ks IH]; intros md H Hx.
  - injection H as <-. right. exact Hx.
  - cbn [set_fields] in H. apply res_bind_Ok in H as (v & _ & H).
    destruct (IH _ H Hx) as [Hk|Hd]; [left; right; exact Hk|].
    apply dict_set_labels in Hd as [->|Hd]; [left; left | right; exact Hd].
Qed.

(** The keys a record of [_fetch_single_record_metadata] can have. *)
Definition record_key_ok (keys : list string) (x : string) : Prop :=
  x ∈ keys \/ x ∈ ["uuid"; "thumbnailUrl"; "geometry"].

Lemma fetch_single_labels collection transform srv url keys crs md x :
  fetch_single_record_metadata collection transform srv url keys crs = Ok md ->
  x ∈ map fst md -> record_key_ok keys x.
Proof.
  unfold fetch_single_record_metadata, record_key_ok. intros H Hx.
  destruct url as [| | | u | |]; try discriminate.
  destruct (srv u) as [e| |[response|]]; try discriminate.
  - injection H as <-. inversion Hx.
  - apply res_bind_Ok in H as (md1 & E1 & H).
    apply res_bind_Ok in H as (md2 & E2 & H).
    apply res_bind_Ok in H as (thumb & _ & H). cbv zeta in H.
    apply res_bind_Ok in H as (g & _ & H).
    apply res_bind_Ok in H as (g' & _ & H). injection H as <-.
    apply dict_set_labels in Hx as [->|Hx]; [right; set_solver|].
    apply dict_set_labels in Hx as [->|Hx]; [right; set_solver|].
    assert (Hx1 : x = "uuid" \/ x ∈ map fst md1).
    { destruct (String.eqb collection "RCMImageProducts").
      - apply res_bind_Ok in E2 as (uu & _ & E2). injection E2 as <-.
        exact (dict_set_labels _ _ _ _ Hx).
      - injection E2 as <-. right. exact Hx. }
    destruct Hx1 as [->|Hx1]; [right; set_solver|].
    destruct (set_fields_labels _ _ _ _ _ E1 Hx1) as [Hk|Hn]; [left; exact Hk | inversion Hn].
Qed.

Lemma foldl_append_new_in (ks acc : list string) x :
  x ∈ foldl (fun acc k => if bool_decide (k ∈ acc) then acc else acc ++ [k]) acc ks ->
  x ∈ acc \/ x ∈ ks.
Proof.
  revert acc. induction ks as [|k ks IH]; intros acc Hx; [left; exact Hx|].
  cbn [foldl] in Hx. destruct (IH _ Hx) as [Ha|Hk]; [|right; right; exact Hk].
  case_bool_decide; [left; exact Ha|].
  apply elem_of_app in Ha as [Ha|Ha]; [left; exact Ha|].
  apply list_elem_of_singleton in Ha as ->. right. left.
Qed.

Lemma record_labels_in recs x :
  x ∈ record_labels recs -> exists md, md ∈ recs /\ x ∈ map fst md.
Proof.
  unfold record_labels.
  assert (G : forall acc, x ∈ foldl (fun acc (md : metadata) =>
             foldl (fun acc k => if bool_decide (k ∈ acc) then acc else acc ++ [k]) acc (map fst md))
             acc recs -> x ∈ acc \/ exists md, md ∈ recs /\ x ∈ map fst md).
  { induction recs as [|md recs IH]; intros acc Hx; [left; exact Hx|].
    cbn [foldl] in Hx. destruct (IH _ Hx) as [Ha|(md' & Hm & Hx')].
    - apply foldl_append_new_in in Ha as [Ha|Hk]; [left; exact Ha|].
      right. exists md. split; [left | exact Hk].
    - right. exists md'. split; [right; exact Hm | exact Hx']. }
  intros Hx. destruct (G [] Hx) as [Hn|He]; [inversion Hn | exact He].
Qed.

Lemma foldl_dict_set_null_labels ks d0 x :
  x ∈ map fst (foldl (fun d k => dict_set k JNull d) d0 ks) -> x ∈ map fst d0 \/ x ∈ ks.
Proof.
  revert d0. induction ks as [|k ks IH]; intros d0 Hx; [left; exact Hx|].
  cbn [foldl] in Hx. destruct (IH _ Hx) as [Hd|Hk]; [|right; right; exact Hk].
  apply dict_set_labels in Hd as [->|Hd]; [right; left | left; exact Hd].
Qed.

Lemma fetch_metadata_labels collection transform srv qr keys crs sched e x :
  fetch_metadata collection transform srv qr keys crs sched = Some (Ok e) ->
  x ∈ map fst (frame_of e) -> record_key_ok keys x.
Proof.
  unfold fetch_metadata. intros H Hx.
  destruct (rs ← py_getitem qr "results"; py_iter rs) as [[|r rs]|err]; [| |discriminate].
  - injection H as <-. cbn [frame_of] in Hx. rewrite map_map in Hx. cbn in Hx.
    rewrite map_id in Hx.
    apply dict_set_labels in Hx as [->|Hx]; [right; set_solver|].
    apply foldl_dict_set_null_labels in Hx as [Hn|Hk]; [inversion Hn | left; exact Hk].
  - destruct (meta_urls_of qr) as [urls|err]; [|discriminate]. cbv zeta in H.
    match type of H with option_map _ (pool_collect ?sl ?ix) = _ =>
      destruct (pool_collect sl ix) as [[recs|err]|] eqn:Ec; try discriminate end.
    injection H as <-.
    apply (pool_collect_inv (fun md => forall x, x ∈ map fst md -> record_key_ok keys x)) in Ec.
    + cbn [frame_of] in Hx. rewrite map_map in Hx. cbn in Hx. rewrite map_id in Hx.
      apply record_labels_in in Hx as (md & Hm & Hx).
      rewrite Forall_forall in Ec. exact (Ec md Hm x Hx).
    + intros i a Hi. eapply (pool_run_inv _ _ (fun r => forall a, r = Ok a ->
          forall x, x ∈ map fst a -> record_key_ok keys x)); [| |exact Hi|reflexivity].
      * intros u a' Ea y Hy. exact (fetch_single_labels _ _ _ _ _ _ _ _ Ea Hy).
      * intros j r0 Hj. rewrite lookup_empty in Hj. discriminate.
Qed.

Lemma fetch_metadata_rows_inv (P : metadata -> Prop) collection transform srv qr keys crs sched recs :
  (forall u md, fetch_single_record_metadata collection transform srv u keys crs = Ok md -> P md) ->
  fetch_metadata collection transform srv qr keys crs sched = Some (Ok (Rows recs)) ->
  Forall P recs.
Proof.
  unfold fetch_metadata. intros HP H.
  destruct (rs ← py_getitem qr "results"; py_iter rs) as [[|r rs]|err]; [discriminate| |discriminate].
  destruct (meta_urls_of qr) as [urls|err]; [|discriminate]. cbv zeta in H.
  match type of H with option_map _ (pool_collect ?sl ?ix) = _ =>
    destruct (pool_collect sl ix) as [[recs'|err]|] eqn:Ec; try discriminate end.
  injection H as <-.
  apply (pool_collect_inv P) in Ec; [exact Ec|].
  intros i a Hi. eapply (pool_run_inv _ _ (fun r => forall a, r = Ok a -> P a)); [| |exact Hi|reflexivity].
  - intros u a' Ea. exact (HP _ _ Ea).
  - intros j r0 Hj. rewrite lookup_empty in Hj. discriminate.
Qed.

Lemma rename_label_cases m l : rename_label m l ∈ map snd m \/ rename_label m l = l.
Proof.
  unfold rename_label. destruct (list_find _ m) as [[i [a b]]|] eqn:E; [|right; reflexivity].
  left. apply list_find_Some in E as (Hi & _).
  apply list_elem_of_In, (in_map snd m (a, b)), list_elem_of_In.
  exact (list_elem_of_lookup_2 _ _ _ Hi).
Qed.

Section GdfProps.
Variable new_crs : option string -> res unit.
Variable new_gdf : frame -> res unit.
Variable to_numeric_unsigned to_numeric_float : list cell -> list cell.
Variable to_datetime_row : list cell -> res (list cell).
Variable argsort : list cell -> res (list nat).

Local Notation GDF := (metadata_to_gdf new_crs new_gdf to_numeric_unsigned to_numeric_float
  to_datetime_row argsort).

Lemma getcol_Ok_elem df l v : getcol df l = Ok v -> l ∈ map fst df.
Proof.
  unfold getcol. destruct (list_find _ df) as [[i [l' v']]|] eqn:E; [|discriminate].
  intros _. apply list_find_Some in E as (Hi & Hl & _). cbn in Hl. subst l'.
  apply list_elem_of_lookup. exists i. rewrite list_lookup_fmap, Hi. reflexivity.
Qed.

Lemma getcol_missing df l : l ∉ map fst df -> getcol df l = Raise KeyError.
Proof.
  intros Hl. unfold getcol. destruct (list_find _ df) as [[i [l' v']]|] eqn:E; [|reflexivity].
  exfalso. apply Hl, (getcol_Ok_elem df l v'). unfold getcol. rewrite E. reflexivity.
Qed.
Lemma setcol_labels df l v : l ∈ map fst df -> map fst (setcol df l v) = map fst df.
Proof.
  induction df as [|[l' v'] df IH]; intros Hl; [inversion Hl|].
  cbn [setcol]. destruct (String.eqb_spec l l') as [->|Hne]; [reflexivity|].
  cbn [map fst]. f_equal. apply IH. cbn in Hl. apply elem_of_cons in Hl as [->|Hl]; [contradiction|exact Hl].
Qed.

Lemma convert_fold_raise conv e ls : foldl (convert_col conv) (Raise e) ls = Raise e.
Proof. induction ls as [|l ls IH]; [reflexivity|]. exact IH. Qed.

Lemma convert_fold_labels conv ls acc df' :
  foldl (convert_col conv) acc ls = Ok df' ->
  exists df0, acc = Ok df0 /\ map fst df' = map fst df0 /\ Forall (fun l => l ∈ map fst df0) ls.
Proof.
  revert acc. induction ls as [|l ls IH]; intros acc H.
  - exists df'. split; [exact H|]. split; [reflexivity | constructor].
  - cbn [foldl] in H. apply IH in H as (df1 & E1 & L1 & F1).
    unfold convert_col in E1. destruct acc as [df0|e]; [|discriminate].
    cbn in E1. destruct (getcol df0 l) as [v|e] eqn:Eg; [|discriminate].
    injection E1 as <-. apply getcol_Ok_elem in Eg.
    rewrite setcol_labels in L1, F1 by exact Eg.
    exists df0. split; [reflexivity|]. split; [exact L1 | constructor; assumption].
Qed.

Lemma res_mapM_Ok_Forall {A B} (f : A -> res B) l ys :
  res_mapM f l = Ok ys -> Forall (fun x => exists y, f x = Ok y) l.
Proof.
  revert ys. induction l as [|x l IH]; intros ys H; [constructor|].
  cbn in H. destruct (f x) as [y|e] eqn:Ef; [|discriminate]. cbn in H.
  destruct (res_mapM f l) as [ys'|e] eqn:Er; [|discriminate].
  constructor; [exists y; exact Ef | exact (IH _ eq_refl)].
Qed.

Lemma setcol_fold_labels (g : nat -> list cell) js ls df :
  Forall (fun l => l ∈ map fst df) ls ->
  map fst (foldl (fun df '(j, l) => setcol df l (g j)) df (zip js ls)) = map fst df.
Proof.
  revert js df. induction ls as [|l ls IH]; intros js df HF; destruct js as [|j js]; try reflexivity.
  inversion HF as [|? ? Hl HF']; subst.
  cbn [zip zip_with foldl]. rewrite IH; [apply setcol_labels; exact Hl|].
  rewrite setcol_labels by exact Hl. exact HF'.
Qed.

Lemma convert_dates_labels df dcols df' :
  convert_dates to_datetime_row df dcols = Ok df' ->
  map fst df' = map fst df /\ Forall (fun l => l ∈ map fst df) dcols.
Proof.
  unfold convert_dates. intros H.
  destruct (res_mapM (getcol df) dcols) as [cols|e] eqn:Ec; [|discriminate]. cbn in H.
  destruct (res_mapM to_datetime_row _) as [rows|e]; [|discriminate]. cbn in H.
  injection H as <-.
  assert (HF : Forall (fun l => l ∈ map fst df) dcols).
  { apply res_mapM_Ok_Forall in Ec. eapply Forall_impl; [exact Ec|].
    intros l [v Hv]. exact (getcol_Ok_elem _ _ _ Hv). }
  split; [|exact HF]. apply (setcol_fold_labels (fun j => map (fun r => nth j r None) rows)). exact HF.
Qed.

Lemma sort_labels df df' :
  sort_by_record_id argsort df = Ok df' -> map fst df' = map fst df /\ "EODMS RecordId" ∈ map fst df.
Proof.
  unfold sort_by_record_id. intros H.
  destruct (getcol df "EODMS RecordId") as [ids|e] eqn:Eg; [|discriminate]. cbn in H.
  destruct (argsort ids) as [perm|e]; [|discriminate]. cbn in H. injection H as <-.
  split; [|exact (getcol_Ok_elem _ _ _ Eg)].
  rewrite map_map. cbn. apply map_ext. reflexivity.
Qed.

Lemma select_cols_labels df ls df' : select_cols df ls = Ok df' -> map fst df' = ls.
Proof.
  revert df'. induction ls as [|l ls IH]; intros df' H; [injection H as <-; reflexivity|].
  unfold select_cols in H. cbn in H. destruct (getcol df l) as [v|e]; [|discriminate]. cbn in H.
  destruct (res_mapM _ ls) as [r|e] eqn:Er; [|discriminate]. cbn in H. injection H as <-.
  cbn. f_equal. apply IH. exact Er.
Qed.

Lemma gdf_layout_known c lay : gdf_layout_of c = Some lay -> c ∈ EODMS_COLLECTIONS.
Proof.
  unfold gdf_layout_of, EODMS_COLLECTIONS.
  destruct (String.eqb_spec c "RCMImageProducts") as [->|]; [intros; set_solver|].
  destruct (String.eqb_spec c "Radarsat2") as [->|]; [intros; set_solver|].
  destruct (String.eqb_spec c "Radarsat1") as [->|]; [intros; set_solver|].
  destruct (bool_decide_reflect (c ∈ ["PlanetScope"; "NAPL"])) as [Hc|]; [|discriminate].
  intros _. set_solver.
Qed.

(** The columns of the frame [metadata_to_gdf] returns: for Radarsat1,
    exactly the twenty columns it selects, in that order (so neither
    [thumbnailUrl] nor any other field is kept); for the other collections,
    the columns of the records, renamed, none added or dropped. It returns
    nothing for a collection outside the five. *)
Theorem metadata_to_gdf_columns e c crs df :
  GDF e c crs = Ok df ->
  c ∈ EODMS_COLLECTIONS /\
  (c = "Radarsat1" -> map fst df = RS1_COLUMNS) /\
  (c <> "Radarsat1" -> exists lay, gdf_layout_of c = Some lay /\
     map fst df = map (rename_label (gl_rename lay)) (map fst (frame_of e))).
Proof.
  unfold metadata_to_gdf. intros H.
  apply res_bind_Ok in H as ([] & _ & H). cbv zeta in H.
  apply res_bind_Ok in H as ([] & _ & H).
  destruct (gdf_layout_of c) as [lay|] eqn:Elay; [|discriminate].
  apply res_bind_Ok in H as (df1 & E1 & H).
  apply res_bind_Ok in H as (df2 & E2 & H).
  apply res_bind_Ok in H as (df3 & E3 & H).
  apply res_bind_Ok in H as (df4 & E4 & H).
  apply sort_labels in H as [L5 _].
  apply convert_dates_labels in E4 as [L4 _].
  apply convert_fold_labels in E3 as (d3 & [= <-] & L3 & _).
  apply convert_fold_labels in E2 as (d2 & [= <-] & L2 & _).
  assert (Hsel : map fst df1 = match gl_select lay with
                               | Some ls => ls
                               | None => map (rename_label (gl_rename lay)) (map fst (frame_of e))
                               end).
  { destruct (gl_select lay) as [ls|].
    - exact (select_cols_labels _ _ _ E1).
    - injection E1 as <-. unfold rename_frame. rewrite !map_map. reflexivity. }
  split; [exact (gdf_layout_known c lay Elay)|]. split.
  - intros ->. injection Elay as <-. rewrite L5, L4, L3, L2, Hsel. reflexivity.
  - intros Hc. exists lay. split; [reflexivity|]. rewrite L5, L4, L3, L2, Hsel.
    unfold gdf_layout_of in Elay.
    destruct (String.eqb_spec c "RCMImageProducts"); [injection Elay as <-; reflexivity|].
    destruct (String.eqb_spec c "Radarsat2"); [injection Elay as <-; reflexivity|].
    destruct (String.eqb_spec c "Radarsat1"); [contradiction|].
    destruct (bool_decide _); [injection Elay as <-; reflexivity | discriminate].
Qed.
Lemma metadata_to_gdf_Ok_inv e c crs df :
  GDF e c crs = Ok df ->
  exists lay, gdf_layout_of c = Some lay /\
    Forall (fun l => l ∈ map (rename_label (gl_rename lay)) (map fst (frame_of e)))
           ("EODMS RecordId" :: gl_float_cols lay).
Proof.
  unfold metadata_to_gdf. intros H.
  apply res_bind_Ok in H as ([] & _ & H). cbv zeta in H.
  apply res_bind_Ok in H as ([] & _ & H).
  destruct (gdf_layout_of c) as [lay|] eqn:Elay; [|discriminate].
  exists lay. split; [reflexivity|].
  apply res_bind_Ok in H as (df1 & E1 & H).
  apply res_bind_Ok in H as (df2 & E2 & H).
  apply res_bind_Ok in H as (df3 & E3 & H).
  apply res_bind_Ok in H as (df4 & E4 & H).
  apply sort_labels in H as [_ Hid].
  apply convert_dates_labels in E4 as [L4 _].
  apply convert_fold_labels in E3 as (d3 & [= <-] & L3 & F3).
  apply convert_fold_labels in E2 as (d2 & [= <-] & L2 & _).
  assert (Hsub : forall l, l ∈ map fst df1 ->
            l ∈ map (rename_label (gl_rename lay)) (map fst (frame_of e))).
  { intros l Hl. destruct (gl_select lay) as [ls|].
    - pose proof (select_cols_labels _ _ _ E1) as Hls. rewrite Hls in Hl.
      unfold select_cols in E1. apply res_mapM_Ok_Forall in E1.
      rewrite Forall_forall in E1. destruct (E1 l Hl) as [c' Hc].
      apply res_bind_Ok in Hc as (v & Hv & _). apply getcol_Ok_elem in Hv.
      unfold rename_frame in Hv. rewrite !map_map in Hv. rewrite map_map. exact Hv.
    - injection E1 as <-. unfold rename_frame in Hl. rewrite !map_map in Hl. rewrite map_map. exact Hl. }
  constructor.
  - apply Hsub. rewrite <- L2, <- L3, <- L4. exact Hid.
  - eapply Forall_impl; [exact F3|]. intros l Hl. apply Hsub. rewrite <- L2. exact Hl.
Qed.

Lemma planetscope_napl_gdf_not_ok c transform srv qr keys crs sched e :
  c ∈ ["PlanetScope"; "NAPL"] -> generate_meta_keys c = Ok keys ->
  fetch_metadata c transform srv qr keys crs sched = Some (Ok e) ->
  is_ok (GDF e c crs) = false.
Proof.
  intros Hc Hk He. destruct (GDF e c crs) as [df|err] eqn:Eg; [exfalso|reflexivity].
  apply metadata_to_gdf_Ok_inv in Eg as (lay & Elay & HF).
  assert (Hlay : gl_rename lay = [("Sequence Id", "EODMS RecordId"); ("Title", "Granule")] /\
                 gl_float_cols lay = ["Incidence Angle (Low)"; "Incidence Angle (High)"]).
  { apply elem_of_cons in Hc as [->|Hc]; [injection Elay as <-; split; reflexivity|].
    apply elem_of_cons in Hc as [->|Hc]; [injection Elay as <-; split; reflexivity|].
    inversion Hc. }
  destruct Hlay as [Hr Hf]. rewrite Hf in HF. rewrite Hr in HF.
  inversion HF as [|? ? _ HF1]; subst. inversion HF1 as [|? ? Hlow _]; subst.
  apply list_elem_of_In, in_map_iff in Hlow as (l & Hl & Hin).
  apply list_elem_of_In in Hin.
  destruct (rename_label_cases [("Sequence Id", "EODMS RecordId"); ("Title", "Granule")] l)
    as [Hs|Heq].
  - rewrite Hl in Hs. cbn in Hs. set_solver.
  - rewrite Heq in Hl. subst l.
    pose proof (fetch_metadata_labels _ _ _ _ _ _ _ _ _ He Hin) as Hok.
    unfold record_key_ok in Hok.
    apply elem_of_cons in Hc as [->|Hc]; [|apply elem_of_cons in Hc as [->|Hc]; [|inversion Hc]];
      injection Hk as <-; destruct Hok as [Hok|Hok];
      revert Hok; apply (bool_decide_unpack (_ ∉ _)); vm_compute; exact I.
Qed.

(** For PlanetScope and NAPL, [metadata_to_gdf] never succeeds on what
    [_fetch_metadata] gives for the keys of [generate_meta_keys]: it reads the
    column [Incidence Angle (Low)], which is none of those keys, nor [uuid],
    [thumbnailUrl] or [geometry]. *)
Theorem metadata_to_gdf_planetscope_napl_fails c transform srv qr keys crs sched e :
  c ∈ ["PlanetScope"; "NAPL"] -> generate_meta_keys c = Ok keys ->
  fetch_metadata c transform srv qr keys crs sched = Some (Ok e) ->
  is_ok (GDF e c crs) = false.
Proof.
  exact (planetscope_napl_gdf_not_ok c transform srv qr keys crs sched e).
Qed.

(** When every per-record GET of [_fetch_metadata] answers with a non-2xx
    status, each record is the empty dict, and [metadata_to_gdf] fails on the
    records (it reads the column [EODMS RecordId], which the frame lacks);
    the query gives no empty frame. *)
Theorem metadata_to_gdf_all_details_refused c transform srv qr keys crs sched recs :
  (forall u, srv u = DNotOk) ->
  fetch_metadata c transform srv qr keys crs sched = Some (Ok (Rows recs)) ->
  is_ok (GDF (Rows recs) c crs) = false.
Proof.
  intros Hsrv He. destruct (GDF (Rows recs) c crs) as [df|err] eqn:Eg; [exfalso|reflexivity].
  apply metadata_to_gdf_Ok_inv in Eg as (lay & _ & HF).
  inversion HF as [|? ? Hid _]; subst.
  apply list_elem_of_In, in_map_iff in Hid as (l & _ & Hin).
  apply list_elem_of_In in Hin. cbn [frame_of] in Hin. rewrite map_map in Hin. cbn in Hin.
  rewrite map_id in Hin. apply record_labels_in in Hin as (md & Hm & Hl).
  apply (fetch_metadata_rows_inv (fun md => md = [])) in He.
  - rewrite Forall_forall in He. rewrite (He md Hm) in Hl. inversion Hl.
  - intros u md' E. unfold fetch_single_record_metadata in E.
    destruct u; try discriminate. rewrite Hsrv in E. injection E as <-. reflexivity.
Qed.
End GdfProps.

(** Every column of the frame built from what [_fetch_metadata] returns is
    one of the requested metadata fields, or [uuid], [thumbnailUrl] or
    [geometry]; a field of the detail reply that was not asked for never
    becomes a column. *)
Theorem fetch_metadata_frame_columns collection transform srv qr keys crs sched e x :
  fetch_metadata collection transform srv qr keys crs sched = Some (Ok e) ->
  x ∈ map fst (frame_of e) ->
  x ∈ keys \/ x ∈ ["uuid"; "thumbnailUrl"; "geometry"].
Proof. exact (fetch_metadata_labels collection transform srv qr keys crs sched e x). Qed.

Local Notation EX_GDF f := (f (fun _ => Ok tt) (fun _ => Ok tt) id id (@Ok (list cell))
  (fun v : list cell => Ok (seq 0 (length v)))).

Local Notation EX_FETCH_QR :=
  (JObj [("results", JArr [JObj [("thisRecordUrl", JStr "https://e/r/1")]])]).

Local Notation EX_FETCH_SRV := (fun _ : string =>
  DOk (Some (JObj [("Start Date", JStr "2020-01-01"); ("Extra", JStr "x");
                   ("thumbnailUrl", JStr "t"); ("geometry", JNull)]))).

Lemma fetch_metadata_frame_columns_witness :
  fetch_metadata "Radarsat2" (fun g _ => Ok g) EX_FETCH_SRV EX_FETCH_QR ["Start Date"] None [0] =
    Some (Ok (Rows [[("Start Date", JStr "2020-01-01"); ("thumbnailUrl", JStr "t");
                     ("geometry", JNull)]])) /\
  "thumbnailUrl" ∈ map fst (frame_of (Rows [[("Start Date", JStr "2020-01-01");
                     ("thumbnailUrl", JStr "t"); ("geometry", JNull)]])) /\
  ("thumbnailUrl" ∈ ["Start Date"] \/ "thumbnailUrl" ∈ ["uuid"; "thumbnailUrl"; "geometry"]).
Proof.
  assert (H1 : fetch_metadata "Radarsat2" (fun g _ => Ok g) EX_FETCH_SRV EX_FETCH_QR ["Start Date"]
                 None [0] =
    Some (Ok (Rows [[("Start Date", JStr "2020-01-01"); ("thumbnailUrl", JStr "t");
                     ("geometry", JNull)]]))) by (vm_compute; reflexivity).
  assert (H2 : "thumbnailUrl" ∈ map fst (frame_of (Rows [[("Start Date", JStr "2020-01-01");
                     ("thumbnailUrl", JStr "t"); ("geometry", JNull)]])))
    by (apply (bool_decide_unpack (_ ∈ _)); vm_compute; exact I).
  split; [exact H1|]. split; [exact H2|].
  exact (fetch_metadata_frame_columns _ _ _ _ _ _ _ _ _ H1 H2).
Defined.

Local Notation EX_RS2_RECORD :=
  [("Sequence Id", JStr "7"); ("Supplier Order Number", JStr "g7"); ("Start Date", JStr "a");
   ("End Date", JStr "b"); ("Incidence Angle (Low)", JStr "20"); ("Incidence Angle (High)", JStr "30");
   ("Absolute Orbit", JStr "1"); ("Spatial Resolution", JStr "5"); ("SIP Size (MB)", JStr "9");
   ("geometry", JNull)].

Lemma metadata_to_gdf_columns_witness :
  exists df, EX_GDF metadata_to_gdf (Rows [EX_RS2_RECORD]) "Radarsat2" None = Ok df /\
    ("Radarsat2" ∈ EODMS_COLLECTIONS /\
     ("Radarsat2" = "Radarsat1" -> map fst df = RS1_COLUMNS) /\
     ("Radarsat2" <> "Radarsat1" -> exists lay, gdf_layout_of "Radarsat2" = Some lay /\
        map fst df = map (rename_label (gl_rename lay)) (map fst (frame_of (Rows [EX_RS2_RECORD]))))).
Proof.
  exists (match EX_GDF metadata_to_gdf (Rows [EX_RS2_RECORD]) "Radarsat2" None with
          | Ok df => df | Raise _ => [] end).
  assert (H : EX_GDF metadata_to_gdf (Rows [EX_RS2_RECORD]) "Radarsat2" None =
              Ok (match EX_GDF metadata_to_gdf (Rows [EX_RS2_RECORD]) "Radarsat2" None with
                  | Ok df => df | Raise _ => [] end)) by (vm_compute; reflexivity).
  split; [exact H|]. exact (EX_GDF metadata_to_gdf_columns _ _ _ _ H).
Defined.

Lemma metadata_to_gdf_planetscope_napl_fails_witness :
  "PlanetScope" ∈ ["PlanetScope"; "NAPL"] /\
  generate_meta_keys "PlanetScope" =
    Ok ["Sequence Id"; "Title"; "Start Date"; "End Date"; "Beam"; "Cloud Cover"; "Product Format";
        "Product Type"; "Sun Azimuth Angle"; "Sun Elevation Angle"; "SIP Size (MB)"] /\
  fetch_metadata "PlanetScope" (fun g _ => Ok g) (fun _ => DNotOk) (JObj [("results", JArr [])])
    ["Sequence Id"; "Title"; "Start Date"; "End Date"; "Beam"; "Cloud Cover"; "Product Format";
     "Product Type"; "Sun Azimuth Angle"; "Sun Elevation Angle"; "SIP Size (MB)"] None [] =
    Some (Ok (Columns ["Sequence Id"; "Title"; "Start Date"; "End Date"; "Beam"; "Cloud Cover";
      "Product Format"; "Product Type"; "Sun Azimuth Angle"; "Sun Elevation Angle";
      "SIP Size (MB)"; "geometry"])) /\
  is_ok (EX_GDF metadata_to_gdf (Columns ["Sequence Id"; "Title"; "Start Date"; "End Date"; "Beam";
      "Cloud Cover"; "Product Format"; "Product Type"; "Sun Azimuth Angle"; "Sun Elevation Angle";
      "SIP Size (MB)"; "geometry"]) "PlanetScope" None) = false.
Proof.
  assert (H1 : "PlanetScope" ∈ ["PlanetScope"; "NAPL"]) by (left).
  assert (H2 : generate_meta_keys "PlanetScope" =
    Ok ["Sequence Id"; "Title"; "Start Date"; "End Date"; "Beam"; "Cloud Cover"; "Product Format";
        "Product Type"; "Sun Azimuth Angle"; "Sun Elevation Angle"; "SIP Size (MB)"])
    by reflexivity.
  assert (H3 : fetch_metadata "PlanetScope" (fun g _ => Ok g) (fun _ => DNotOk)
    (JObj [("results", JArr [])])
    ["Sequence Id"; "Title"; "Start Date"; "End Date"; "Beam"; "Cloud Cover"; "Product Format";
     "Product Type"; "Sun Azimuth Angle"; "Sun Elevation Angle"; "SIP Size (MB)"] None [] =
    Some (Ok (Columns ["Sequence Id"; "Title"; "Start Date"; "End Date"; "Beam"; "Cloud Cover";
      "Product Format"; "Product Type"; "Sun Azimuth Angle"; "Sun Elevation Angle";
      "SIP Size (MB)"; "geometry"]))) by (vm_compute; reflexivity).
  split; [exact H1|]. split; [exact H2|]. split; [exact H3|].
  exact (EX_GDF metadata_to_gdf_planetscope_napl_fails _ _ _ _ _ _ _ _ H1 H2 H3).
Defined.

Lemma metadata_to_gdf_all_details_refused_witness :
  (forall u : string, (fun _ : string => DNotOk) u = DNotOk) /\
  fetch_metadata "Radarsat2" (fun g _ => Ok g) (fun _ => DNotOk) EX_FETCH_QR ["Start Date"] None [0] =
    Some (Ok (Rows [[]])) /\
  is_ok (EX_GDF metadata_to_gdf (Rows [[]]) "Radarsat2" None) = false.
Proof.
  assert (H1 : forall u : string, (fun _ : string => DNotOk) u = DNotOk) by reflexivity.
  assert (H2 : fetch_metadata "Radarsat2" (fun g _ => Ok g) (fun _ => DNotOk) EX_FETCH_QR
                 ["Start Date"] None [0] = Some (Ok (Rows [[]]))) by (vm_compute; reflexivity).
  split; [exact H1|]. split; [exact H2|].
  exact (EX_GDF metadata_to_gdf_all_details_refused _ _ _ _ _ _ _ _ H1 H2).
Defined.

(** ** The search entry point *)

Section QueryProps.
Variable F : Type.
Variable float_of_int : Z -> F.
Variable float_of_string : string -> res F.
Variable float_repr : F -> string.
Variable float_trunc float_floor float_ceil : F -> res Z.
Variable fmt_f fmt_1f : F -> string.
Variable float_truthy : F -> bool.
Variable D : Type.
Variable today_at_start today_at_end : D.
Variable parse : arg F -> res D.
Variable add_days : D -> Z -> D.
Variable isoformat : D -> string.
Variable load_search_aoi : arg F -> res string.
Variable search_srv : search_server.
Variable fuel : nat.
Variable detail_srv : string -> detail_reply.
Variable transform_metadata_geometry : json -> option string -> res json.
Variable sched : list nat.
Variable new_crs : option string -> res unit.
Variable new_gdf : frame -> res unit.
Variable to_numeric_unsigned to_numeric_float : list cell -> list cell.
Variable to_datetime_row : list cell -> res (list cell).
Variable argsort : list cell -> res (list nat).
Variable crs_repr : arg F -> string.

Local Notation VQA := (validate_query_args F float_of_int float_of_string float_repr
  float_trunc float_floor float_ceil fmt_f fmt_1f float_truthy D today_at_start today_at_end
  parse add_days isoformat load_search_aoi).
Local Notation QRY := (query F float_of_int float_of_string float_repr float_trunc float_floor
  float_ceil fmt_f fmt_1f float_truthy D today_at_start today_at_end parse add_days isoformat
  load_search_aoi search_srv fuel detail_srv transform_metadata_geometry sched new_crs new_gdf
  to_numeric_unsigned to_numeric_float to_datetime_row argsort crs_repr).

(** When the first search GET of [query] is answered with a non-2xx status,
    [query] raises [TypeError] ([None['hitCount']]); when it is answered
    with the maintenance page, [query] raises [KeyError] (the stand-in
    [{'results': []}] has no [hitCount]).  Either way that GET, with the
    default limit, is the only one issued, and no "no results" outcome is
    reported. *)
Theorem query_search_unavailable args c q :
  0 < fuel -> VQA args c = Ok q ->
  (search_srv 0 (initial_search_url c q) = SNotOk ->
     QRY args c = ([EODMS_DEFAULT_MAXRESULTS], Some (Raise TypeError))) /\
  (forall body, search_srv 0 (initial_search_url c q) = SOk true body ->
     QRY args c = ([EODMS_DEFAULT_MAXRESULTS], Some (Raise KeyError))).
Proof.
  intros Hf Hv. destruct fuel as [|fuel'] eqn:Ef; [lia|].
  split; [intros Hs | intros body Hs]; unfold query; rewrite Hv; cbn [submit_search];
    rewrite Hs; reflexivity.
Qed.

(** [query] never succeeds for the PlanetScope and NAPL collections,
    whatever the arguments and the replies: [metadata_to_gdf] needs the
    column [Incidence Angle (Low)], which [generate_meta_keys] does not
    request for them. *)
Theorem query_planetscope_napl_never_ok args c df :
  c ∈ ["PlanetScope"; "NAPL"] ->
  snd (query F float_of_int float_of_string float_repr float_trunc float_floor float_ceil fmt_f
         fmt_1f float_truthy D today_at_start today_at_end parse add_days isoformat
         load_search_aoi search_srv fuel detail_srv transform_metadata_geometry sched new_crs
         new_gdf to_numeric_unsigned to_numeric_float to_datetime_row argsort crs_repr args c)
    <> Some (Ok df).
Proof.
  intros Hc. unfold query.
  destruct (VQA args c) as [q|err]; [|discriminate].
  destruct (submit_search fuel search_srv 0 (initial_search_url c q)) as [gets r].
  cbn [snd]. destruct r as [[resp|]|err]; try discriminate.
  destruct (py_getitem resp "hitCount") as [n|err]; [|discriminate].
  destruct (negb (fmt_d_ok n)); [discriminate|].
  destruct (generate_meta_keys c) as [keys|err] eqn:Ek; [|discriminate].
  destruct (fetch_metadata c transform_metadata_geometry detail_srv resp keys
              (target_crs_of F crs_repr args) sched) as [[e|err]|] eqn:Ef; try discriminate.
  intros H. injection H as H.
  pose proof (planetscope_napl_gdf_not_ok new_crs new_gdf to_numeric_unsigned to_numeric_float
                to_datetime_row argsort c transform_metadata_geometry detail_srv resp keys
                (target_crs_of F crs_repr args) sched e Hc Ek Ef) as Hn.
  rewrite H in Hn. discriminate.
Qed.
End QueryProps.

(** The oracles of [query] for the examples: those of the validation
    examples, a search endpoint given as [srv], one GET budget of 3, a
    detail endpoint that refuses, and the identity conversions. *)
Local Notation EX_QUERY f srv := (EXQ f srv 3 (fun _ => DNotOk) (fun g _ => Ok g) [0]
  (fun _ => Ok tt) (fun _ => Ok tt) id id (@Ok (list cell))
  (fun v : list cell => Ok (seq 0 (length v))) (fun _ => "epsg:3979")) (only parsing).

Lemma query_search_unavailable_witness :
  exists q, 0 < 3 /\ EXQ validate_query_args [] "Radarsat2" = Ok q /\
  ((fun _ _ => SNotOk) 0 (initial_search_url "Radarsat2" q) = SNotOk ->
     EX_QUERY query (fun _ _ => SNotOk) [] "Radarsat2" =
       ([EODMS_DEFAULT_MAXRESULTS], Some (Raise TypeError))) /\
  (forall body, (fun _ _ => SNotOk) 0 (initial_search_url "Radarsat2" q) = SOk true body ->
     EX_QUERY query (fun _ _ => SNotOk) [] "Radarsat2" =
       ([EODMS_DEFAULT_MAXRESULTS], Some (Raise KeyError))).
Proof.
  exists (match EXQ validate_query_args [] "Radarsat2" with Ok q => q | Raise _ => "" end).
  assert (H1 : 0 < 3) by lia.
  assert (H2 : EXQ validate_query_args [] "Radarsat2" =
               Ok (match EXQ validate_query_args [] "Radarsat2" with Ok q => q | Raise _ => "" end))
    by (vm_compute; reflexivity).
  split; [exact H1|]. split; [exact H2|].
  exact (EX_QUERY query_search_unavailable (fun _ _ => SNotOk) [] "Radarsat2" _ H1 H2).
Defined.

Lemma query_planetscope_napl_never_ok_witness :
  "PlanetScope" ∈ ["PlanetScope"; "NAPL"] /\
  snd (EX_QUERY query (fun _ _ => SOk false (Some (JObj [("totalResults", JNum 0);
         ("hitCount", JNum 0); ("results", JArr [])]))) [] "PlanetScope") <> Some (Ok []).
Proof.
  assert (H : "PlanetScope" ∈ ["PlanetScope"; "NAPL"]) by left.
  split; [exact H|].
  exact (EX_QUERY query_planetscope_napl_never_ok (fun _ _ => SOk false (Some (JObj
    [("totalResults", JNum 0); ("hitCount", JNum 0); ("results", JArr [])]))) [] "PlanetScope" [] H).
Defined.

(** ** The command line *)

Section CliProps.
Variable int_of_line : string -> res Z.
Variable api_order : PyVal -> res unit.
Variable api_download : PyVal -> res unit.
Variable api_query : res frame.
Variable to_file : frame -> res unit.
Variable tolist : list cell -> PyVal.

Local Notation BRANCH := (cli_branch int_of_line api_order api_download api_query).
Local Notation RUN := (cli_run int_of_line api_order api_download api_query to_file tolist).

Definition fast_event (ev : cli_event) : Prop :=
  match ev with EvOrder _ | EvDownload _ => True | _ => False end.

Lemma cli_branch_fast o :
  co_record_id o = None ->
  (co_record_ids o <> None \/ co_order_id o <> None \/ co_order_ids o <> None) ->
  length (fst (BRANCH o)) <= 1 /\ Forall fast_event (fst (BRANCH o)) /\
  (snd (BRANCH o) = Ok (None, None) \/ exists e, snd (BRANCH o) = Raise e).
Proof.
  intros Hr Hm. unfold cli_branch. rewrite Hr.
  destruct (co_record_ids o) as [lines|].
  { destruct (read_ids int_of_line lines) as [ids|e]; [|cbn; split; [lia|split; [constructor|eauto]]].
    cbn [fst snd]. split; [cbn; lia|]. split; [repeat constructor|].
    destruct (api_order _) as [[]|e]; cbn; eauto. }
  destruct (co_order_id o) as [z|].
  { cbn [fst snd]. split; [cbn; lia|]. split; [repeat constructor|].
    destruct (api_download _) as [[]|e]; cbn; eauto. }
  destruct (co_order_ids o) as [lines|]; [|destruct Hm as [H|[H|H]]; contradiction].
  destruct (read_ids int_of_line lines) as [ids|e]; [|cbn; split; [lia|split; [constructor|eauto]]].
  destruct (Nat.eqb (length ids) 0); [cbn; split; [lia|split; [constructor|eauto]]|].
  cbn [fst snd]. split; [cbn; lia|]. split; [repeat constructor|].
  destruct (api_download _) as [[]|e]; cbn; eauto.
Qed.

Lemma cli_run_after_fast o ev1 :
  BRANCH o = (ev1, Ok (None, None)) ->
  co_dump_results o = true \/ co_submit_order o = true ->
  RUN o = (ev1, Raise (if co_dump_results o then UnboundLocalError else AttributeError)).
Proof.
  intros Hb Hf. unfold cli_run. rewrite Hb. unfold cli_dump, cli_submit.
  destruct (co_dump_results o); [cbn; rewrite app_nil_r; reflexivity|].
  destruct Hf as [Hf|Hf]; [discriminate|]. rewrite Hf. cbn. rewrite app_nil_r. reflexivity.
Qed.

(** In the fast modes of [cli] (a file of record ids to order, or an order
    id or a file of order ids to download), [--dump-results] and
    [--submit-order] make [cli] fail: at most the one order or download call
    is made, no query is run, no file is written.  When that call succeeds
    (and the non-empty lines of the ids file read as integers, and, for
    [--order-ids], the file lists some id), the failure is an
    [UnboundLocalError] ([n_results] is only bound by a query) with
    [--dump-results], and otherwise an [AttributeError] ([current.results]
    is only set by a query). *)
Theorem cli_fast_mode_dump_or_submit_fails o :
  co_record_id o = None ->
  (co_record_ids o <> None \/ co_order_id o <> None \/ co_order_ids o <> None) ->
  co_dump_results o = true \/ co_submit_order o = true ->
  is_ok (snd (RUN o)) = false /\ length (fst (RUN o)) <= 1 /\ Forall fast_event (fst (RUN o)) /\
  ((forall v, api_order v = Ok tt) -> (forall v, api_download v = Ok tt) ->
   (forall ls l, co_record_ids o = Some ls \/ co_order_ids o = Some ls -> In l ls -> l <> "" ->
      is_ok (int_of_line l) = true) ->
   (forall ls, co_order_ids o = Some ls -> Exists (fun l => l <> "") ls) ->
   exists ev, RUN o = ([ev], Raise (if co_dump_results o then UnboundLocalError else AttributeError))).
Proof.
  intros Hr Hm Hf.
  destruct (cli_branch_fast o Hr Hm) as (Hlen & Hfast & Hres).
  destruct (BRANCH o) as [ev1 r1] eqn:Eb. cbn [fst snd] in Hlen, Hfast, Hres.
  split; [|split; [|split]].
  - destruct Hres as [->|[e ->]].
    + rewrite (cli_run_after_fast o ev1 Eb Hf). reflexivity.
    + unfold cli_run. rewrite Eb. reflexivity.
  - destruct Hres as [->|[e ->]].
    + rewrite (cli_run_after_fast o ev1 Eb Hf). exact Hlen.
    + unfold cli_run. rewrite Eb. exact Hlen.
  - destruct Hres as [->|[e ->]].
    + rewrite (cli_run_after_fast o ev1 Eb Hf). exact Hfast.
    + unfold cli_run. rewrite Eb. exact Hfast.
  - intros Ho Hd Hi Hne.
    assert (Hread : forall lines, (forall l, In l lines -> l <> "" -> is_ok (int_of_line l) = true) ->
               exists ids, read_ids int_of_line lines = Ok ids /\
               length ids = length (List.filter (fun l => negb (String.eqb l "")) lines)).
    { intros lines Hl. unfold read_ids.
      assert (HF : Forall (fun l => is_ok (int_of_line l) = true)
                     (List.filter (fun l => negb (String.eqb l "")) lines)).
      { apply Forall_forall. intros l Hin. apply list_elem_of_In, filter_In in Hin as [Hin Hne0].
        apply Hl; [exact Hin|]. destruct (String.eqb_spec l ""); [discriminate | assumption]. }
      induction HF as [|l ls Hl0 _ IH].
      - exists []. split; reflexivity.
      - destruct IH as (ids & Eids & Lids).
        destruct (int_of_line l) as [z|e] eqn:Ez; [|discriminate].
        exists (z :: ids). cbn. rewrite Ez. cbn. rewrite Eids. split; [reflexivity|cbn; lia]. }
    assert (Hb : exists ev, BRANCH o = ([ev], Ok (None, None))).
    { unfold cli_branch in Eb |- *. rewrite Hr in Eb |- *.
      destruct (co_record_ids o) as [lines|] eqn:Erec.
      { destruct (Hread lines (fun l => Hi lines l (or_introl eq_refl))) as (ids & -> & _).
        rewrite Ho. eexists; reflexivity. }
      destruct (co_order_id o) as [z|].
      { rewrite Hd. eexists; reflexivity. }
      destruct (co_order_ids o) as [lines|] eqn:Eo; [|destruct Hm as [H|[H|H]]; contradiction].
      destruct (Hread lines (fun l => Hi lines l (or_intror eq_refl))) as (ids & Eids & Lids).
      rewrite Eids.
      specialize (Hne lines eq_refl).
      destruct (Nat.eqb_spec (length ids) 0) as [H0|H0].
      - exfalso. rewrite H0 in Lids. symmetry in Lids. apply length_zero_iff_nil in Lids.
        apply Exists_exists in Hne as (l & Hl & Hl').
        assert (Hin : In l (List.filter (fun l => negb (String.eqb l "")) lines)).
        { apply filter_In. split; [apply list_elem_of_In; exact Hl|].
          destruct (String.eqb_spec l ""); [contradiction|reflexivity]. }
        rewrite Lids in Hin. exact Hin.
      - rewrite Hd. eexists; reflexivity. }
    destruct Hb as [ev Hb]. exists ev. exact (cli_run_after_fast o [ev] Hb Hf).
Qed.

(** When [--order-ids] is the mode taken ([--record-id], [--record-ids]
    and [--order-id] are absent) and its file has no non-empty line, [cli]
    raises [IOError] (an [OSError]) before any call on the API, whatever
    [--dump-results] and [--submit-order] say. *)
Theorem cli_empty_order_ids_file o ls :
  co_record_id o = None -> co_record_ids o = None -> co_order_id o = None ->
  co_order_ids o = Some ls -> Forall (fun l => l = "") ls ->
  cli_run int_of_line api_order api_download api_query to_file tolist o = ([], Raise OSError).
Proof.
  intros H1 H2 H3 H4 H5. unfold cli_run, cli_branch. rewrite H1, H2, H3, H4.
  unfold read_ids.
  replace (List.filter (fun l => negb (String.eqb l "")) ls) with (@nil string).
  - reflexivity.
  - clear H4. induction H5 as [|l ls' Hl _ IH]; [reflexivity|]. subst l. cbn. exact IH.
Qed.

(** When a query gives no rows, [cli] ends without error after the one
    query call, whatever [--dump-results] and [--submit-order] say: it
    writes no file and submits no order. *)
Theorem cli_query_no_results o df :
  co_record_id o = None -> co_record_ids o = None -> co_order_id o = None ->
  co_order_ids o = None -> api_query = Ok df -> frame_len df = 0 ->
  RUN o = ([EvQuery], Ok tt).
Proof.
  intros H1 H2 H3 H4 Hq Hl. unfold cli_run, cli_branch. rewrite H1, H2, H3, H4, Hq. cbn.
  unfold cli_dump, cli_submit. rewrite Hl.
  destruct (co_dump_results o), (co_submit_order o); reflexivity.
Qed.
End CliProps.

(** The API calls of the examples all succeed, every line reads as [1], and
    the query gives the empty frame. *)
Local Notation EX_CLI f := (f (fun _ : string => Ok 1%Z) (fun _ : PyVal => Ok tt)
  (fun _ : PyVal => Ok tt) (@Ok frame []) (fun _ : frame => Ok tt) (fun _ : list cell => PyNone))
  (only parsing).

Lemma cli_fast_mode_dump_or_submit_fails_witness :
  let o := mk_cli_opts None (Some ["12"; ""]) None None "." true "query_results" false in
  co_record_id o = None /\
  (co_record_ids o <> None \/ co_order_id o <> None \/ co_order_ids o <> None) /\
  (co_dump_results o = true \/ co_submit_order o = true) /\
  EX_CLI cli_run o = ([EvOrder (PyList [PyInt 1])], Raise UnboundLocalError).
Proof.
  intros o.
  assert (H1 : co_record_id o = None) by reflexivity.
  assert (H2 : co_record_ids o <> None \/ co_order_id o <> None \/ co_order_ids o <> None)
    by (left; discriminate).
  assert (H3 : co_dump_results o = true \/ co_submit_order o = true) by (left; reflexivity).
  split; [exact H1|]. split; [exact H2|]. split; [exact H3|].
  destruct (EX_CLI cli_fast_mode_dump_or_submit_fails o H1 H2 H3) as (_ & _ & _ & H).
  destruct (H (fun _ => eq_refl) (fun _ => eq_refl) (fun _ _ _ _ _ => eq_refl)
              (fun ls (E : None = Some ls) => match E with end)) as [ev Hev].
  rewrite Hev. vm_compute in Hev. injection Hev as <-. reflexivity.
Defined.

Lemma cli_empty_order_ids_file_witness :
  let o := mk_cli_opts None None None (Some [""; ""]) "." true "query_results" true in
  co_record_id o = None /\ co_record_ids o = None /\ co_order_id o = None /\
  co_order_ids o = Some [""; ""] /\ Forall (fun l => l = "") [""; ""] /\
  EX_CLI cli_run o = ([], Raise OSError).
Proof.
  intros o.
  assert (H5 : Forall (fun l => l = "") [""; ""]) by (repeat constructor).
  split; [reflexivity|]. split; [reflexivity|]. split; [reflexivity|]. split; [reflexivity|].
  split; [exact H5|].
  exact (EX_CLI cli_empty_order_ids_file o [""; ""] eq_refl eq_refl eq_refl eq_refl H5).
Defined.

Lemma cli_query_no_results_witness :
  let o := mk_cli_opts None None None None "." true "query_results" true in
  co_record_id o = None /\ co_record_ids o = None /\ co_order_id o = None /\
  co_order_ids o = None /\ @Ok frame [] = Ok [] /\ frame_len [] = 0 /\
  EX_CLI cli_run o = ([EvQuery], Ok tt).
Proof.
  intros o.
  split; [reflexivity|]. split; [reflexivity|]. split; [reflexivity|]. split; [reflexivity|].
  split; [reflexivity|]. split; [reflexivity|].
  exact (EX_CLI cli_query_no_results o [] eq_refl eq_refl eq_refl eq_refl eq_refl eq_refl).
Defined.
